(** * Mikola tour agency: booking, catalog and feedback workflows

    A shallow embedding of the parts of the Flask application that decide
    how bookings, cancellations, the tour catalog and feedback behave:

    - [mikola/models.py]                       records [Tour], [User], [Booking], [Feedback]
    - [mikola/repository/*.py]                 the four in-memory stores
    - [mikola/blueprints/public.py], [auth.py] the route handlers

    Python values are modelled as follows.  Integers are [Z].  Prices are
    Python floats in the source; only their order, their truth value
    (non-zero) and one product with a passenger count matter here, so they
    are rationals [Q].  [None] is [option].  An exception that a handler
    catches is the [None] branch of the function that raises it.  A [str] is
    a [string] holding its UTF-8 bytes; [len], [strip], [lower], [int] and
    [strptime] work on the code points of the text, as they do in Python,
    with the character tables of CPython 3.11 (Unicode 14.0). *)

From Stdlib Require Import ZArith QArith List String Ascii Bool Lia.
Import ListNotations.

Local Open Scope string_scope.
Local Open Scope Z_scope.

(* ================================================================== *)
(** ** Python primitives *)

Module Py.

(** The value of a byte and the byte of a value. *)
Definition ord (c : ascii) : Z := Z.of_N (N_of_ascii c).
Definition byte (n : Z) : ascii := ascii_of_N (Z.to_N n).

(** Truth value of a [str]: empty is false. *)
Definition truthy_str (s : string) : bool :=
  match s with EmptyString => false | _ => true end.

(** Truth value of an [Optional[str]]: [None] and [""] are false. *)
Definition truthy_ostr (s : option string) : bool :=
  match s with Some s' => truthy_str s' | None => false end.

(** Truth value of an [Optional[int]]: [None] and [0] are false. *)
Definition truthy_oint (n : option Z) : bool :=
  match n with Some k => negb (k =? 0) | None => false end.

(** Truth value of an [Optional[float]]: [None] and [0.0] are false. *)
Definition truthy_ofloat (x : option Q) : bool :=
  match x with Some q => negb (Qeq_bool q 0) | None => false end.

(** [x or d] on an optional float whose default [d] is a float. *)
Definition or_float (x : option Q) (d : Q) : Q :=
  match x with
  | Some q => if Qeq_bool q 0 then d else q
  | None => d
  end.

(** *** Code points

    [chars] reads the code points of a text from its UTF-8 bytes and [str]
    writes them back.  A byte that starts no well-formed sequence (there is
    none in the encoding of a Python [str]) is read as a character of its
    own. *)

Definition continuation (b : ascii) : bool :=
  (128 <=? ord b) && (ord b <? 192).

Definition low6 (b : ascii) : Z := ord b - 128.

Fixpoint decode (l : list ascii) : list Z :=
  match l with
  | [] => []
  | a :: r =>
      match r with
      | [] => [ord a]
      | b :: r1 =>
          if (ord a <? 192) || negb (continuation b) then ord a :: decode r
          else if ord a <? 224
          then ((ord a - 192) * 64 + low6 b) :: decode r1
          else
            match r1 with
            | [] => ord a :: decode r
            | c :: r2 =>
                if negb (continuation c) then ord a :: decode r
                else if ord a <? 240
                then ((ord a - 224) * 4096 + low6 b * 64 + low6 c)
                       :: decode r2
                else
                  match r2 with
                  | [] => ord a :: decode r
                  | d :: r3 =>
                      if negb (continuation d) then ord a :: decode r
                      else ((ord a - 240) * 262144 + low6 b * 4096
                            + low6 c * 64 + low6 d) :: decode r3
                  end
            end
      end
  end.

Definition encode_char (c : Z) : list ascii :=
  if c <? 128 then [byte c]
  else if c <? 2048
  then [byte (192 + c / 64); byte (128 + c mod 64)]
  else if c <? 65536
  then [byte (224 + c / 4096); byte (128 + (c / 64) mod 64);
        byte (128 + c mod 64)]
  else [byte (240 + c / 262144); byte (128 + (c / 4096) mod 64);
        byte (128 + (c / 64) mod 64); byte (128 + c mod 64)].

Definition encode (l : list Z) : list ascii := flat_map encode_char l.

Definition chars (s : string) : list Z := decode (list_ascii_of_string s).

Definition str (l : list Z) : string := string_of_list_ascii (encode l).

(** [len(s)]: the number of characters. *)
Definition len (s : string) : Z := Z.of_nat (List.length (chars s)).

(** [c] lies between the characters [lo] and [hi]. *)
Definition in_range (c : Z) (lo hi : ascii) : bool :=
  (ord lo <=? c) && (c <=? ord hi).

Definition in_ranges (rs : list (Z * Z)) (c : Z) : bool :=
  existsb (fun '(lo, hi) => (lo <=? c) && (c <=? hi)) rs.

(** *** [str.strip()]

    White space is [Py_UNICODE_ISSPACE]: the ASCII controls 9-13 and 28-31,
    the space, and the Unicode separators. *)

Definition is_space (c : Z) : bool :=
  in_ranges
    [ (9, 13); (28, 32); (133, 133); (160, 160); (5760, 5760);
      (8192, 8202); (8232, 8233); (8239, 8239); (8287, 8287);
      (12288, 12288) ] c.

Fixpoint lstrip (space : Z -> bool) (l : list Z) : list Z :=
  match l with
  | c :: r => if space c then lstrip space r else l
  | [] => []
  end.

Definition strip_chars (space : Z -> bool) (l : list Z) : list Z :=
  rev (lstrip space (rev (lstrip space l))).

Definition strip (s : string) : string :=
  str (strip_chars is_space (chars s)).

(** *** [int(s)]

    [int] first rewrites the text to ASCII
    ([_PyUnicode_TransformDecimalAndSpaceToASCII]): a character above 127
    becomes a space if it is white space, its ASCII digit if it is a
    decimal digit, and ["?"] otherwise.  [PyLong_FromString] then reads
    white space ([Py_ISSPACE]: 9-13 and 32), a sign, the digits with single
    underscores between them, and white space to the end.  More than
    [max_str_digits] digits are refused. *)

(** The zero of every run of ten decimal digits (category Nd). *)
Definition decimal_zeros : list Z :=
  [
    48; 1632; 1776; 1984; 2406; 2534; 2662; 2790; 2918; 3046;
    3174; 3302; 3430; 3558; 3664; 3792; 3872; 4160; 4240; 6112;
    6160; 6470; 6608; 6784; 6800; 6992; 7088; 7232; 7248; 42528;
    43216; 43264; 43472; 43504; 43600; 44016; 65296; 66720; 68912; 69734;
    69872; 69942; 70096; 70384; 70736; 70864; 71248; 71360; 71472; 71904;
    72016; 72784; 73040; 73120; 92768; 92864; 93008; 120782; 120792; 120802;
    120812; 120822; 123200; 123632; 125264; 130032 ].

(** [Py_UNICODE_TODECIMAL] *)
Definition to_decimal (c : Z) : option Z :=
  match find (fun z => (z <=? c) && (c <? z + 10)) decimal_zeros with
  | Some z => Some (c - z)
  | None => None
  end.

(** [Py_ISSPACE] *)
Definition is_ascii_space (c : Z) : bool :=
  ((9 <=? c) && (c <=? 13)) || (c =? 32).

Definition to_ascii (c : Z) : Z :=
  if c <? 128 then c
  else if is_space c then 32
  else match to_decimal c with
       | Some d => 48 + d
       | None => 63
       end.

(** The default of [sys.int_max_str_digits]. *)
Definition max_str_digits : Z := 4300.

(** Digits of a decimal literal: [digit (["_"] digit)*].  [n] counts the
    digits read; [prev] tells whether the previous character was a digit. *)
Fixpoint int_body (acc n : Z) (prev : bool) (l : list Z) : option Z :=
  match l with
  | [] => if prev && (n <=? max_str_digits) then Some acc else None
  | c :: r =>
      if in_range c "0" "9"
      then int_body (10 * acc + (c - 48)) (n + 1) true r
      else if (c =? ord "_") && prev then int_body acc n false r
      else None
  end.

(** [int(s)] for a [str] argument, base 10; [None] is [ValueError]. *)
Definition int (s : string) : option Z :=
  match strip_chars is_ascii_space (map to_ascii (chars s)) with
  | c :: r =>
      if c =? ord "+" then int_body 0 0 false r
      else if c =? ord "-" then option_map Z.opp (int_body 0 0 false r)
      else int_body 0 0 false (c :: r)
  | [] => None
  end.

(** *** [str.lower()]

    Every character is replaced by its lower case of the Unicode character
    database ([_PyUnicode_ToLowerFull]).  Two characters need more than the
    table: U+0130 lowers to two characters, and the capital sigma U+03A3
    lowers to the final sigma at the end of a word
    ([handle_capital_sigma]). *)

(** Runs [(lo, hi, step, delta)]: every [step]-th character from [lo]
    to [hi] lowers to itself plus [delta]. *)
Definition lower_ranges : list (Z * Z * Z * Z) :=
  [
    (65, 90, 1, 32); (192, 214, 1, 32); (216, 222, 1, 32); (256, 302, 2, 1);
    (306, 310, 2, 1); (313, 327, 2, 1); (330, 374, 2, 1); (376, 376, 1, -121);
    (377, 381, 2, 1); (385, 385, 1, 210); (386, 388, 2, 1); (390, 390, 1, 206);
    (391, 391, 1, 1); (393, 394, 1, 205); (395, 395, 1, 1); (398, 398, 1, 79);
    (399, 399, 1, 202); (400, 400, 1, 203); (401, 401, 1, 1); (403, 403, 1, 205);
    (404, 404, 1, 207); (406, 406, 1, 211); (407, 407, 1, 209); (408, 408, 1, 1);
    (412, 412, 1, 211); (413, 413, 1, 213); (415, 415, 1, 214); (416, 420, 2, 1);
    (422, 422, 1, 218); (423, 423, 1, 1); (425, 425, 1, 218); (428, 428, 1, 1);
    (430, 430, 1, 218); (431, 431, 1, 1); (433, 434, 1, 217); (435, 437, 2, 1);
    (439, 439, 1, 219); (440, 440, 1, 1); (444, 444, 1, 1); (452, 452, 1, 2);
    (453, 453, 1, 1); (455, 455, 1, 2); (456, 456, 1, 1); (458, 458, 1, 2);
    (459, 475, 2, 1); (478, 494, 2, 1); (497, 497, 1, 2); (498, 500, 2, 1);
    (502, 502, 1, -97); (503, 503, 1, -56); (504, 542, 2, 1); (544, 544, 1, -130);
    (546, 562, 2, 1); (570, 570, 1, 10795); (571, 571, 1, 1); (573, 573, 1, -163);
    (574, 574, 1, 10792); (577, 577, 1, 1); (579, 579, 1, -195); (580, 580, 1, 69);
    (581, 581, 1, 71); (582, 590, 2, 1); (880, 882, 2, 1); (886, 886, 1, 1);
    (895, 895, 1, 116); (902, 902, 1, 38); (904, 906, 1, 37); (908, 908, 1, 64);
    (910, 911, 1, 63); (913, 929, 1, 32); (931, 939, 1, 32); (975, 975, 1, 8);
    (984, 1006, 2, 1); (1012, 1012, 1, -60); (1015, 1015, 1, 1); (1017, 1017, 1, -7);
    (1018, 1018, 1, 1); (1021, 1023, 1, -130); (1024, 1039, 1, 80); (1040, 1071, 1, 32);
    (1120, 1152, 2, 1); (1162, 1214, 2, 1); (1216, 1216, 1, 15); (1217, 1229, 2, 1);
    (1232, 1326, 2, 1); (1329, 1366, 1, 48); (4256, 4293, 1, 7264); (4295, 4295, 1, 7264);
    (4301, 4301, 1, 7264); (5024, 5103, 1, 38864); (5104, 5109, 1, 8); (7312, 7354, 1, -3008);
    (7357, 7359, 1, -3008); (7680, 7828, 2, 1); (7838, 7838, 1, -7615); (7840, 7934, 2, 1);
    (7944, 7951, 1, -8); (7960, 7965, 1, -8); (7976, 7983, 1, -8); (7992, 7999, 1, -8);
    (8008, 8013, 1, -8); (8025, 8031, 2, -8); (8040, 8047, 1, -8); (8072, 8079, 1, -8);
    (8088, 8095, 1, -8); (8104, 8111, 1, -8); (8120, 8121, 1, -8); (8122, 8123, 1, -74);
    (8124, 8124, 1, -9); (8136, 8139, 1, -86); (8140, 8140, 1, -9); (8152, 8153, 1, -8);
    (8154, 8155, 1, -100); (8168, 8169, 1, -8); (8170, 8171, 1, -112); (8172, 8172, 1, -7);
    (8184, 8185, 1, -128); (8186, 8187, 1, -126); (8188, 8188, 1, -9); (8486, 8486, 1, -7517);
    (8490, 8490, 1, -8383); (8491, 8491, 1, -8262); (8498, 8498, 1, 28); (8544, 8559, 1, 16);
    (8579, 8579, 1, 1); (9398, 9423, 1, 26); (11264, 11311, 1, 48); (11360, 11360, 1, 1);
    (11362, 11362, 1, -10743); (11363, 11363, 1, -3814); (11364, 11364, 1, -10727); (11367, 11371, 2, 1);
    (11373, 11373, 1, -10780); (11374, 11374, 1, -10749); (11375, 11375, 1, -10783); (11376, 11376, 1, -10782);
    (11378, 11378, 1, 1); (11381, 11381, 1, 1); (11390, 11391, 1, -10815); (11392, 11490, 2, 1);
    (11499, 11501, 2, 1); (11506, 11506, 1, 1); (42560, 42604, 2, 1); (42624, 42650, 2, 1);
    (42786, 42798, 2, 1); (42802, 42862, 2, 1); (42873, 42875, 2, 1); (42877, 42877, 1, -35332);
    (42878, 42886, 2, 1); (42891, 42891, 1, 1); (42893, 42893, 1, -42280); (42896, 42898, 2, 1);
    (42902, 42920, 2, 1); (42922, 42922, 1, -42308); (42923, 42923, 1, -42319); (42924, 42924, 1, -42315);
    (42925, 42925, 1, -42305); (42926, 42926, 1, -42308); (42928, 42928, 1, -42258); (42929, 42929, 1, -42282);
    (42930, 42930, 1, -42261); (42931, 42931, 1, 928); (42932, 42946, 2, 1); (42948, 42948, 1, -48);
    (42949, 42949, 1, -42307); (42950, 42950, 1, -35384); (42951, 42953, 2, 1); (42960, 42960, 1, 1);
    (42966, 42968, 2, 1); (42997, 42997, 1, 1); (65313, 65338, 1, 32); (66560, 66599, 1, 40);
    (66736, 66771, 1, 40); (66928, 66938, 1, 39); (66940, 66954, 1, 39); (66956, 66962, 1, 39);
    (66964, 66965, 1, 39); (68736, 68786, 1, 64); (71840, 71871, 1, 32); (93760, 93791, 1, 32);
    (125184, 125217, 1, 34) ].

Definition to_lower (c : Z) : Z :=
  match find (fun '(lo, hi, step, _) =>
                (lo <=? c) && (c <=? hi) && ((c - lo) mod step =? 0))
             lower_ranges with
  | Some (_, _, _, delta) => c + delta
  | None => c
  end.

(** The property Cased. *)
Definition cased_ranges : list (Z * Z) :=
  [
    (65, 90); (97, 122); (170, 170); (181, 181); (186, 186); (192, 214);
    (216, 246); (248, 442); (444, 447); (452, 659); (661, 696); (704, 705);
    (736, 740); (837, 837); (880, 883); (886, 887); (890, 893); (895, 895);
    (902, 902); (904, 906); (908, 908); (910, 929); (931, 1013); (1015, 1153);
    (1162, 1327); (1329, 1366); (1376, 1416); (4256, 4293); (4295, 4295); (4301, 4301);
    (4304, 4346); (4349, 4351); (5024, 5109); (5112, 5117); (7296, 7304); (7312, 7354);
    (7357, 7359); (7424, 7615); (7680, 7957); (7960, 7965); (7968, 8005); (8008, 8013);
    (8016, 8023); (8025, 8025); (8027, 8027); (8029, 8029); (8031, 8061); (8064, 8116);
    (8118, 8124); (8126, 8126); (8130, 8132); (8134, 8140); (8144, 8147); (8150, 8155);
    (8160, 8172); (8178, 8180); (8182, 8188); (8305, 8305); (8319, 8319); (8336, 8348);
    (8450, 8450); (8455, 8455); (8458, 8467); (8469, 8469); (8473, 8477); (8484, 8484);
    (8486, 8486); (8488, 8488); (8490, 8493); (8495, 8500); (8505, 8505); (8508, 8511);
    (8517, 8521); (8526, 8526); (8544, 8575); (8579, 8580); (9398, 9449); (11264, 11492);
    (11499, 11502); (11506, 11507); (11520, 11557); (11559, 11559); (11565, 11565); (42560, 42605);
    (42624, 42653); (42786, 42887); (42891, 42894); (42896, 42954); (42960, 42961); (42963, 42963);
    (42965, 42969); (42997, 42998); (43000, 43002); (43824, 43866); (43868, 43880); (43888, 43967);
    (64256, 64262); (64275, 64279); (65313, 65338); (65345, 65370); (66560, 66639); (66736, 66771);
    (66776, 66811); (66928, 66938); (66940, 66954); (66956, 66962); (66964, 66965); (66967, 66977);
    (66979, 66993); (66995, 67001); (67003, 67004); (67456, 67456); (67459, 67461); (67463, 67504);
    (67506, 67514); (68736, 68786); (68800, 68850); (71840, 71903); (93760, 93823); (119808, 119892);
    (119894, 119964); (119966, 119967); (119970, 119970); (119973, 119974); (119977, 119980); (119982, 119993);
    (119995, 119995); (119997, 120003); (120005, 120069); (120071, 120074); (120077, 120084); (120086, 120092);
    (120094, 120121); (120123, 120126); (120128, 120132); (120134, 120134); (120138, 120144); (120146, 120485);
    (120488, 120512); (120514, 120538); (120540, 120570); (120572, 120596); (120598, 120628); (120630, 120654);
    (120656, 120686); (120688, 120712); (120714, 120744); (120746, 120770); (120772, 120779); (122624, 122633);
    (122635, 122654); (125184, 125251); (127280, 127305); (127312, 127337); (127344, 127369) ].

(** The property Case_Ignorable. *)
Definition case_ignorable_ranges : list (Z * Z) :=
  [
    (39, 39); (46, 46); (58, 58); (94, 94); (96, 96); (168, 168);
    (173, 173); (175, 175); (180, 180); (183, 184); (688, 879); (884, 885);
    (890, 890); (900, 901); (903, 903); (1155, 1161); (1369, 1369); (1375, 1375);
    (1425, 1469); (1471, 1471); (1473, 1474); (1476, 1477); (1479, 1479); (1524, 1524);
    (1536, 1541); (1552, 1562); (1564, 1564); (1600, 1600); (1611, 1631); (1648, 1648);
    (1750, 1757); (1759, 1768); (1770, 1773); (1807, 1807); (1809, 1809); (1840, 1866);
    (1958, 1968); (2027, 2037); (2042, 2042); (2045, 2045); (2070, 2093); (2137, 2139);
    (2184, 2184); (2192, 2193); (2200, 2207); (2249, 2306); (2362, 2362); (2364, 2364);
    (2369, 2376); (2381, 2381); (2385, 2391); (2402, 2403); (2417, 2417); (2433, 2433);
    (2492, 2492); (2497, 2500); (2509, 2509); (2530, 2531); (2558, 2558); (2561, 2562);
    (2620, 2620); (2625, 2626); (2631, 2632); (2635, 2637); (2641, 2641); (2672, 2673);
    (2677, 2677); (2689, 2690); (2748, 2748); (2753, 2757); (2759, 2760); (2765, 2765);
    (2786, 2787); (2810, 2815); (2817, 2817); (2876, 2876); (2879, 2879); (2881, 2884);
    (2893, 2893); (2901, 2902); (2914, 2915); (2946, 2946); (3008, 3008); (3021, 3021);
    (3072, 3072); (3076, 3076); (3132, 3132); (3134, 3136); (3142, 3144); (3146, 3149);
    (3157, 3158); (3170, 3171); (3201, 3201); (3260, 3260); (3263, 3263); (3270, 3270);
    (3276, 3277); (3298, 3299); (3328, 3329); (3387, 3388); (3393, 3396); (3405, 3405);
    (3426, 3427); (3457, 3457); (3530, 3530); (3538, 3540); (3542, 3542); (3633, 3633);
    (3636, 3642); (3654, 3662); (3761, 3761); (3764, 3772); (3782, 3782); (3784, 3789);
    (3864, 3865); (3893, 3893); (3895, 3895); (3897, 3897); (3953, 3966); (3968, 3972);
    (3974, 3975); (3981, 3991); (3993, 4028); (4038, 4038); (4141, 4144); (4146, 4151);
    (4153, 4154); (4157, 4158); (4184, 4185); (4190, 4192); (4209, 4212); (4226, 4226);
    (4229, 4230); (4237, 4237); (4253, 4253); (4348, 4348); (4957, 4959); (5906, 5908);
    (5938, 5939); (5970, 5971); (6002, 6003); (6068, 6069); (6071, 6077); (6086, 6086);
    (6089, 6099); (6103, 6103); (6109, 6109); (6155, 6159); (6211, 6211); (6277, 6278);
    (6313, 6313); (6432, 6434); (6439, 6440); (6450, 6450); (6457, 6459); (6679, 6680);
    (6683, 6683); (6742, 6742); (6744, 6750); (6752, 6752); (6754, 6754); (6757, 6764);
    (6771, 6780); (6783, 6783); (6823, 6823); (6832, 6862); (6912, 6915); (6964, 6964);
    (6966, 6970); (6972, 6972); (6978, 6978); (7019, 7027); (7040, 7041); (7074, 7077);
    (7080, 7081); (7083, 7085); (7142, 7142); (7144, 7145); (7149, 7149); (7151, 7153);
    (7212, 7219); (7222, 7223); (7288, 7293); (7376, 7378); (7380, 7392); (7394, 7400);
    (7405, 7405); (7412, 7412); (7416, 7417); (7468, 7530); (7544, 7544); (7579, 7679);
    (8125, 8125); (8127, 8129); (8141, 8143); (8157, 8159); (8173, 8175); (8189, 8190);
    (8203, 8207); (8216, 8217); (8228, 8228); (8231, 8231); (8234, 8238); (8288, 8292);
    (8294, 8303); (8305, 8305); (8319, 8319); (8336, 8348); (8400, 8432); (11388, 11389);
    (11503, 11505); (11631, 11631); (11647, 11647); (11744, 11775); (11823, 11823); (12293, 12293);
    (12330, 12333); (12337, 12341); (12347, 12347); (12441, 12446); (12540, 12542); (40981, 40981);
    (42232, 42237); (42508, 42508); (42607, 42610); (42612, 42621); (42623, 42623); (42652, 42655);
    (42736, 42737); (42752, 42785); (42864, 42864); (42888, 42890); (42994, 42996); (43000, 43001);
    (43010, 43010); (43014, 43014); (43019, 43019); (43045, 43046); (43052, 43052); (43204, 43205);
    (43232, 43249); (43263, 43263); (43302, 43309); (43335, 43345); (43392, 43394); (43443, 43443);
    (43446, 43449); (43452, 43453); (43471, 43471); (43493, 43494); (43561, 43566); (43569, 43570);
    (43573, 43574); (43587, 43587); (43596, 43596); (43632, 43632); (43644, 43644); (43696, 43696);
    (43698, 43700); (43703, 43704); (43710, 43711); (43713, 43713); (43741, 43741); (43756, 43757);
    (43763, 43764); (43766, 43766); (43867, 43871); (43881, 43883); (44005, 44005); (44008, 44008);
    (44013, 44013); (64286, 64286); (64434, 64450); (65024, 65039); (65043, 65043); (65056, 65071);
    (65106, 65106); (65109, 65109); (65279, 65279); (65287, 65287); (65294, 65294); (65306, 65306);
    (65342, 65342); (65344, 65344); (65392, 65392); (65438, 65439); (65507, 65507); (65529, 65531);
    (66045, 66045); (66272, 66272); (66422, 66426); (67456, 67461); (67463, 67504); (67506, 67514);
    (68097, 68099); (68101, 68102); (68108, 68111); (68152, 68154); (68159, 68159); (68325, 68326);
    (68900, 68903); (69291, 69292); (69446, 69456); (69506, 69509); (69633, 69633); (69688, 69702);
    (69744, 69744); (69747, 69748); (69759, 69761); (69811, 69814); (69817, 69818); (69821, 69821);
    (69826, 69826); (69837, 69837); (69888, 69890); (69927, 69931); (69933, 69940); (70003, 70003);
    (70016, 70017); (70070, 70078); (70089, 70092); (70095, 70095); (70191, 70193); (70196, 70196);
    (70198, 70199); (70206, 70206); (70367, 70367); (70371, 70378); (70400, 70401); (70459, 70460);
    (70464, 70464); (70502, 70508); (70512, 70516); (70712, 70719); (70722, 70724); (70726, 70726);
    (70750, 70750); (70835, 70840); (70842, 70842); (70847, 70848); (70850, 70851); (71090, 71093);
    (71100, 71101); (71103, 71104); (71132, 71133); (71219, 71226); (71229, 71229); (71231, 71232);
    (71339, 71339); (71341, 71341); (71344, 71349); (71351, 71351); (71453, 71455); (71458, 71461);
    (71463, 71467); (71727, 71735); (71737, 71738); (71995, 71996); (71998, 71998); (72003, 72003);
    (72148, 72151); (72154, 72155); (72160, 72160); (72193, 72202); (72243, 72248); (72251, 72254);
    (72263, 72263); (72273, 72278); (72281, 72283); (72330, 72342); (72344, 72345); (72752, 72758);
    (72760, 72765); (72767, 72767); (72850, 72871); (72874, 72880); (72882, 72883); (72885, 72886);
    (73009, 73014); (73018, 73018); (73020, 73021); (73023, 73029); (73031, 73031); (73104, 73105);
    (73109, 73109); (73111, 73111); (73459, 73460); (78896, 78904); (92912, 92916); (92976, 92982);
    (92992, 92995); (94031, 94031); (94095, 94111); (94176, 94177); (94179, 94180); (110576, 110579);
    (110581, 110587); (110589, 110590); (113821, 113822); (113824, 113827); (118528, 118573); (118576, 118598);
    (119143, 119145); (119155, 119170); (119173, 119179); (119210, 119213); (119362, 119364); (121344, 121398);
    (121403, 121452); (121461, 121461); (121476, 121476); (121499, 121503); (121505, 121519); (122880, 122886);
    (122888, 122904); (122907, 122913); (122915, 122916); (122918, 122922); (123184, 123197); (123566, 123566);
    (123628, 123631); (125136, 125142); (125252, 125259); (127995, 127999); (917505, 917505); (917536, 917631);
    (917760, 917999) ].


Definition is_cased (c : Z) : bool := in_ranges cased_ranges c.

Definition is_case_ignorable (c : Z) : bool :=
  in_ranges case_ignorable_ranges c.

(** The first character of [l] that is not case-ignorable. *)
Fixpoint skip_ignorable (l : list Z) : option Z :=
  match l with
  | [] => None
  | c :: r => if is_case_ignorable c then skip_ignorable r else Some c
  end.

(** A sigma is final when a cased letter comes before it and none after
    it, case-ignorable characters aside.  [before] is the text before the
    sigma, nearest character first. *)
Definition final_sigma (before after : list Z) : bool :=
  match skip_ignorable before with
  | Some c =>
      is_cased c &&
      match skip_ignorable after with
      | Some c' => negb (is_cased c')
      | None => true
      end
  | None => false
  end.

Definition lower_char (before : list Z) (c : Z) (after : list Z) : list Z :=
  if c =? 931 then [if final_sigma before after then 962 else 963]
  else if c =? 304 then [105; 775]
  else [to_lower c].

Fixpoint lower_chars (before l : list Z) : list Z :=
  match l with
  | [] => []
  | c :: r => (lower_char before c r ++ lower_chars (c :: before) r)%list
  end.

Definition lower (s : string) : string := str (lower_chars [] (chars s)).

(** [sub in s] for strings.  UTF-8 is self-synchronizing, so one text
    occurs in another exactly when its bytes do. *)
Fixpoint contains (sub s : string) : bool :=
  prefix sub s ||
  match s with
  | EmptyString => false
  | String _ r => contains sub r
  end.

End Py.

(* ================================================================== *)
(** ** [datetime.date] *)

Module Date.

Record date : Type := mkDate { year : Z; month : Z; day : Z }.

Definition is_leap (y : Z) : bool :=
  (y mod 4 =? 0) && (negb (y mod 100 =? 0) || (y mod 400 =? 0)).

Definition days_in_month (y m : Z) : Z :=
  if m =? 2 then (if is_leap y then 29 else 28)
  else if (m =? 4) || (m =? 6) || (m =? 9) || (m =? 11) then 30
  else 31.

Definition MINYEAR : Z := 1.
Definition MAXYEAR : Z := 9999.

Definition valid (y m d : Z) : bool :=
  (MINYEAR <=? y) && (y <=? MAXYEAR) &&
  (1 <=? m) && (m <=? 12) &&
  (1 <=? d) && (d <=? days_in_month y m).

(** The constructor [date(y, m, d)]; [None] is [ValueError]. *)
Definition new (y m d : Z) : option date :=
  if valid y m d then Some (mkDate y m d) else None.

(** [d.replace(year=y)], [d.replace(day=dd)], [d.replace(month=m, day=dd)]. *)
Definition replace_year (d : date) (y : Z) : option date :=
  new y (month d) (day d).
Definition replace_day (d : date) (dd : Z) : option date :=
  new (year d) (month d) dd.
Definition replace_month_day (d : date) (m dd : Z) : option date :=
  new (year d) m dd.

(** Dates compare as the triples (year, month, day). *)
Definition ltb (a b : date) : bool :=
  (year a <? year b) ||
  ((year a =? year b) &&
   ((month a <? month b) ||
    ((month a =? month b) && (day a <? day b)))).

Definition eqb (a b : date) : bool :=
  (year a =? year b) && (month a =? month b) && (day a =? day b).

Definition leb (a b : date) : bool := ltb a b || eqb a b.
Definition gtb (a b : date) : bool := ltb b a.
Definition geb (a b : date) : bool := leb b a.

(** The day after [d]; [None] past [date.max] ([OverflowError]). *)
Definition succ (d : date) : option date :=
  if day d <? days_in_month (year d) (month d)
  then Some (mkDate (year d) (month d) (day d + 1))
  else if month d <? 12
  then Some (mkDate (year d) (month d + 1) 1)
  else if year d <? MAXYEAR
  then Some (mkDate (year d + 1) 1 1)
  else None.

(** [d + timedelta(days=n)] for [n >= 0]. *)
Fixpoint add_days (n : nat) (d : date) : option date :=
  match n with
  | O => Some d
  | S k => match succ d with
           | Some d' => add_days k d'
           | None => None
           end
  end.

(** *** [datetime.strptime(s, "%Y-%m-%d").date()]

    The format compiles to the regular expression
    [(\d\d\d\d)-(1[0-2]|0[1-9]|[1-9])-(3[01]|[12]\d|0[1-9]|[1-9]| [1-9])];
    the whole string must be consumed and the fields, read by [int], must
    form a date.  [\d] is any decimal digit of Unicode; the digits of the
    bracketed classes are the ASCII ones. *)

Definition parse_year (l : list Z) : option (Z * list Z) :=
  match l with
  | a :: b :: c :: d :: r =>
      match Py.to_decimal a, Py.to_decimal b,
            Py.to_decimal c, Py.to_decimal d with
      | Some a', Some b', Some c', Some d' =>
          Some (1000 * a' + 100 * b' + 10 * c' + d', r)
      | _, _, _, _ => None
      end
  | _ => None
  end.

Definition expect_dash (l : list Z) : option (list Z) :=
  match l with
  | c :: r => if c =? Py.ord "-" then Some r else None
  | [] => None
  end.

(** Two characters [a b] with [a] in [lo1..hi1] and [b] in [lo2..hi2],
    read as a two-digit number. *)
Definition two_chars (lo1 hi1 lo2 hi2 : ascii) (l : list Z)
  : option (Z * list Z) :=
  match l with
  | a :: b :: r =>
      if Py.in_range a lo1 hi1 && Py.in_range b lo2 hi2
      then Some (10 * (a - 48) + (b - 48), r)
      else None
  | _ => None
  end.

(** A character in [lo..hi] and any decimal digit after it. *)
Definition char_digit (lo hi : ascii) (l : list Z) : option (Z * list Z) :=
  match l with
  | a :: b :: r =>
      match Py.to_decimal b with
      | Some d => if Py.in_range a lo hi
                  then Some (10 * (a - 48) + d, r)
                  else None
      | None => None
      end
  | _ => None
  end.

Definition one_char (lo hi : ascii) (l : list Z) : option (Z * list Z) :=
  match l with
  | a :: r => if Py.in_range a lo hi then Some (a - 48, r) else None
  | _ => None
  end.

Definition space_digit (l : list Z) : option (Z * list Z) :=
  match l with
  | c :: r => if c =? Py.ord " " then one_char "1" "9" r else None
  | [] => None
  end.

(** First alternative (in order) after which [k] succeeds: the
    backtracking of the regular expression engine. *)
Fixpoint first_alt {A B : Type} (alts : list (list Z -> option A))
    (k : A -> option B) (l : list Z) : option B :=
  match alts with
  | [] => None
  | p :: ps =>
      match match p l with Some x => k x | None => None end with
      | Some r => Some r
      | None => first_alt ps k l
      end
  end.

Definition month_alts : list (list Z -> option (Z * list Z)) :=
  [ two_chars "1" "1" "0" "2"; two_chars "0" "0" "1" "9"; one_char "1" "9" ].

Definition day_alts : list (list Z -> option (Z * list Z)) :=
  [ two_chars "3" "3" "0" "1"; char_digit "1" "2";
    two_chars "0" "0" "1" "9"; one_char "1" "9"; space_digit ].

(** The match of the regular expression: the three fields and what is
    left of the input after them. *)
Definition match_ymd (l : list Z) : option (Z * Z * Z * list Z) :=
  match parse_year l with
  | Some (y, r1) =>
      match expect_dash r1 with
      | Some r2 =>
          first_alt month_alts
            (fun '(m, r3) =>
               match expect_dash r3 with
               | Some r4 =>
                   first_alt day_alts (fun '(d, r5) => Some (y, m, d, r5)) r4
               | None => None
               end) r2
      | None => None
      end
  | None => None
  end.

(** [None] is [ValueError]: no match, unconverted data, or no such day. *)
Definition strptime (s : string) : option date :=
  match match_ymd (Py.chars s) with
  | Some (y, m, d, []) => new y m d
  | _ => None
  end.

End Date.

(* ================================================================== *)
(** ** [datetime.datetime] and [strftime] *)

Module DateTime.

Record datetime : Type :=
  mk { date : Date.date; hour : Z; minute : Z; second : Z }.

Definition digit_char (n : Z) : ascii :=
  ascii_of_N (Z.to_N (48 + n mod 10)).

Definition digit (n : Z) : string := String (digit_char n) "".

(** [%m], [%d], [%H], [%M], [%S]: two digits. *)
Definition pad2 (n : Z) : string :=
  String (digit_char (n / 10)) (String (digit_char n) "").

(** [%Y]: the year in decimal.  The C library writes it without leading
    zeros, so a year below 1000 has fewer than four digits. *)
Definition year_digits (n : Z) : string :=
  (if 1000 <=? n then digit (n / 1000) else "") ++
  (if 100 <=? n then digit (n / 100) else "") ++
  (if 10 <=? n then digit (n / 10) else "") ++
  digit n.

(** [strftime("%Y-%m-%d")] *)
Definition strftime_ymd (d : Date.date) : string :=
  year_digits (Date.year d) ++ "-" ++
  pad2 (Date.month d) ++ "-" ++ pad2 (Date.day d).

(** [strftime("%Y-%m-%d %H:%M:%S")] *)
Definition strftime_ymd_hms (t : datetime) : string :=
  strftime_ymd (date t) ++ " " ++
  pad2 (hour t) ++ ":" ++ pad2 (minute t) ++ ":" ++ pad2 (second t).

End DateTime.

(* ================================================================== *)
(** ** [mikola/models.py] *)

Module Tour.
Record t : Type := mk {
  id : Z;
  title : string;
  description : string;
  price : option Q;
  city : string;
  country : string;
  type_ : string;
  duration_days : Z;
  photo_url : option string;
  venue : option string;
  address : option string;
  timezone : option string;
  start_date : option string;
  end_date : option string;
  start_time : option string;
  ticket_url : option string;
  currency : option string;
  min_price : option Q;
  max_price : option Q;
  external_id : option string;
  lat : option string;
  lng : option string;
  categories : list string
}.
End Tour.

Module User.
Record t : Type := mk {
  id : Z;
  email : option string;
  password_hash : string;
  role : string;
  first_name : option string;
  last_name : option string;
  phone : option string;
  passport_number : option string;
  passport_issued_by : option string;
  passport_issued_date : option string
}.
End User.

Module Booking.
Record t : Type := mk {
  id : Z;
  tour_id : Z;
  user_id : Z;
  booking_date : string;
  travel_date : string;
  passengers : Z;
  total_price : Q;
  status : string
}.

Definition set_status (b : t) (s : string) : t :=
  mk (id b) (tour_id b) (user_id b) (booking_date b) (travel_date b)
     (passengers b) (total_price b) s.
End Booking.

Module Feedback.
Record t : Type := mk {
  id : Z;
  user_id : Z;
  subject : string;
  message : string;
  created_at : string;
  status : string;
  admin_response : option string;
  admin_id : option Z;
  responded_at : option string;
  priority : string;
  category : string
}.
End Feedback.

(** The normalized event dictionaries that [ticketmaster_service] hands to
    the catalog.  A key that is missing or holds [None] is [None] here. *)
Module Event.
Record t : Type := mk {
  id : option string;
  name : option string;
  city : option string;
  country : option string;
  address : option string;
  venue : option string;
  timezone : option string;
  image : option string;
  photo_url : option string;
  price_min : option Q;
  price_max : option Q;
  currency : option string;
  classification : option string;
  genres : list string;
  start_date : option string;
  end_date : option string;
  start_time : option string;
  url : option string;
  description : option string;
  lat : option string;
  lng : option string;
  duration_days : option Z
}.
End Event.

(* ================================================================== *)
(** ** [mikola/repository/tours_repo.py] *)

Module ToursRepository.
Section Repo.

(** [ticketmaster_service.fetch_events(city=, keyword=, classification_id=)]:
    the outbound call, an input of the model. *)
Variable fetch_events :
  option string -> option string -> option string -> list Event.t.

(** [_compose_description]: the text of a tour page, not modelled. *)
Variable _compose_description : Event.t -> string.

Definition _DEFAULT_PHOTO : string :=
  "https://images.unsplash.com/photo-1470229538611-16ba8c7ffbd7?q=80&w=1600&auto=format&fit=crop".

Definition _MIN_LEAD_DAYS : nat := 30.

Definition get_default (x : option string) (d : string) : string :=
  match x with Some s => s | None => d end.

(** [a or b] on optional strings. *)
Definition or_ostr (a b : option string) : option string :=
  if Py.truthy_ostr a then a else b.

(** The body of the loop of [_map_events] for the event numbered [idx]. *)
Definition map_event (idx : Z) (event : Event.t) : Tour.t :=
  let price_anchor :=
    Py.or_float (Event.price_min event) (Py.or_float (Event.price_max event) 0%Q) in
  let description := _compose_description event in
  let photo_url :=
    or_ostr (or_ostr (Event.image event) (Event.photo_url event))
            (Some _DEFAULT_PHOTO) in
  Tour.mk
    idx
    (get_default (Event.name event) "Live Experience")
    description
    (Some price_anchor)
    (get_default (Event.city event) "")
    (get_default (Event.country event) "")
    (get_default (Event.classification event) "experience")
    (if Py.truthy_oint (Event.duration_days event)
     then match Event.duration_days event with Some n => n | None => 1 end
     else 1)
    photo_url
    (Event.venue event)
    (Event.address event)
    (Event.timezone event)
    (Event.start_date event)
    (Event.end_date event)
    (Event.start_time event)
    (Event.url event)
    (Event.currency event)
    (Event.price_min event)
    (Event.price_max event)
    (Event.id event)
    (Event.lat event)
    (Event.lng event)
    (Event.genres event).

Fixpoint map_events_from (idx : Z) (events : list Event.t) : list Tour.t :=
  match events with
  | [] => []
  | event :: rest => map_event idx event :: map_events_from (idx + 1) rest
  end.

(** [enumerate(events, start=1)] *)
Definition _map_events (events : list Event.t) : list Tour.t :=
  map_events_from 1 events.

(** Whether the loop of [_filter_future_ready] appends [tour]. *)
Definition future_ready (threshold : Date.date) (tour : Tour.t) : bool :=
  match Tour.start_date tour with
  | None => true
  | Some s =>
      if negb (Py.truthy_str s) then true
      else match Date.strptime s with
           | None => true
           | Some start_date => Date.geb start_date threshold
           end
  end.

(** [today] is [datetime.utcnow().date()]; [None] is the [OverflowError]
    of [today + timedelta(days=30)] at the end of the calendar. *)
Definition _filter_future_ready (today : Date.date) (tours : list Tour.t)
  : option (list Tour.t) :=
  match tours with
  | [] => Some tours
  | _ =>
      match Date.add_days _MIN_LEAD_DAYS today with
      | None => None
      | Some threshold =>
          let filtered := filter (future_ready threshold) tours in
          Some (match filtered with [] => tours | _ => filtered end)
      end
  end.

(** The state of the repository is its list [_tours]. *)
Definition sync_events (today : Date.date) (_tours : list Tour.t)
    (city keyword classification_id : option string)
  : option (list Tour.t) :=
  let events := fetch_events city keyword classification_id in
  match events with
  | [] => Some _tours
  | _ => _filter_future_ready today (_map_events events)
  end.

Definition get_by_id (_tours : list Tour.t) (tour_id : Z) : option Tour.t :=
  find (fun t => Tour.id t =? tour_id) _tours.


Definition filter_location (location : string) (q : list Tour.t) :=
  if Py.truthy_str location then
    let loc := Py.lower location in
    filter (fun t => Py.contains loc (Py.lower (Tour.city t))
                     || Py.contains loc (Py.lower (Tour.country t))) q
  else q.

Definition filter_type (type : string) (q : list Tour.t) :=
  if Py.truthy_str type then
    filter (fun t => String.eqb (Py.lower (Tour.type_ t)) (Py.lower type)) q
  else q.

(** [(t.price or 0) >= min_price] *)
Definition price_ge_min (min_price : Q) (t : Tour.t) : bool :=
  Qle_bool min_price (Py.or_float (Tour.price t) 0%Q).

(** [(t.price or 0) <= max_price] *)
Definition price_le_max (max_price : Q) (t : Tour.t) : bool :=
  Qle_bool (Py.or_float (Tour.price t) 0%Q) max_price.

Definition filter_min_price (min_price : option Q) (q : list Tour.t) :=
  match min_price with
  | Some m => filter (price_ge_min m) q
  | None => q
  end.

Definition filter_max_price (max_price : option Q) (q : list Tour.t) :=
  match max_price with
  | Some m => filter (price_le_max m) q
  | None => q
  end.

Definition filter_duration (duration : option Z) (q : list Tour.t) :=
  match duration with
  | Some d => filter (fun t => Tour.duration_days t =? d) q
  | None => q
  end.

Definition filter_keyword (keyword : string) (q : list Tour.t) :=
  if Py.truthy_str keyword then
    let kw := Py.lower keyword in
    filter (fun t => Py.contains kw (Py.lower (Tour.title t))
                     || Py.contains kw (Py.lower (Tour.description t))) q
  else q.

(** The in-memory filtering of [search], after the refresh. *)
Definition search_filters (location type : string)
    (min_price max_price : option Q) (duration : option Z)
    (keyword : string) (q : list Tour.t) : list Tour.t :=
  filter_keyword keyword
    (filter_duration duration
      (filter_max_price max_price
        (filter_min_price min_price
          (filter_type type
            (filter_location location q))))).


(** [list_featured(limit)] with the refreshed [_tours]. *)
Definition list_featured (today : Date.date) (_tours : list Tour.t)
    (limit : nat) : option (list Tour.t * list Tour.t) :=
  match _tours with
  | [] =>
      match sync_events today _tours None None None with
      | None => None
      | Some _tours' => Some (firstn limit _tours', _tours')
      end
  | _ => Some (firstn limit _tours, _tours)
  end.

End Repo.
End ToursRepository.

(* ================================================================== *)
(** ** [mikola/repository/booking_repo.py] *)

Module BookingRepository.

Record t : Type := mk { _bookings : list Booking.t; _next_id : Z }.

Definition init : t := mk [] 1.

Definition get_next_id (r : t) : Z * t :=
  (_next_id r, mk (_bookings r) (_next_id r + 1)).

Definition add_booking (r : t) (booking : Booking.t) : t :=
  mk (_bookings r ++ [booking]) (_next_id r).

Definition get_by_id (r : t) (booking_id : Z) : option Booking.t :=
  find (fun b => Booking.id b =? booking_id) (_bookings r).

Definition get_by_user_id (r : t) (user_id : Z) : list Booking.t :=
  filter (fun b => Booking.user_id b =? user_id) (_bookings r).

(** The loop of [cancel_booking]: the first booking with the id gets
    status ["cancelled"]. *)
Fixpoint cancel_in (booking_id : Z) (l : list Booking.t)
  : bool * list Booking.t :=
  match l with
  | [] => (false, [])
  | booking :: rest =>
      if Booking.id booking =? booking_id
      then (true, Booking.set_status booking "cancelled" :: rest)
      else let '(ok, rest') := cancel_in booking_id rest in
           (ok, booking :: rest')
  end.

Definition cancel_booking (r : t) (booking_id : Z) : bool * t :=
  let '(ok, l) := cancel_in booking_id (_bookings r) in
  (ok, mk l (_next_id r)).

Definition get_by_tour_id (r : t) (tour_id : Z) : list Booking.t :=
  filter (fun b => Booking.tour_id b =? tour_id) (_bookings r).

(** [get_all]: a copy of the list. *)
Definition get_all (r : t) : list Booking.t := _bookings r.

(** The loop of [update_booking]: the first booking with the id of
    [booking] is replaced by it. *)
Fixpoint update_in (booking : Booking.t) (l : list Booking.t)
  : bool * list Booking.t :=
  match l with
  | [] => (false, [])
  | existing_booking :: rest =>
      if Booking.id existing_booking =? Booking.id booking
      then (true, booking :: rest)
      else let '(ok, rest') := update_in booking rest in
           (ok, existing_booking :: rest')
  end.

Definition update_booking (r : t) (booking : Booking.t) : bool * t :=
  let '(ok, l) := update_in booking (_bookings r) in
  (ok, mk l (_next_id r)).

Definition get_confirmed_bookings_for_tour (r : t) (tour_id : Z)
  : list Booking.t :=
  filter (fun b => (Booking.tour_id b =? tour_id)
                   && String.eqb (Booking.status b) "confirmed")
    (_bookings r).

End BookingRepository.

(* ================================================================== *)
(** ** [mikola/repository/user_repo.py] *)

Module UserRepository.
Section Repo.

(** [werkzeug.security.generate_password_hash], a black box. *)
Variable generate_password_hash : string -> string.

Record t : Type := mk { _users : list User.t; _next_id : Z }.

Definition init : t :=
  mk [ User.mk 1 (Some "admin@mikola.com")
         (generate_password_hash "admin123") "admin"
         (Some "Admin") (Some "User") None None None None ]
     2.

Definition get_next_id (r : t) : Z * t :=
  (_next_id r, mk (_users r) (_next_id r + 1)).

Definition add_user (r : t) (user : User.t) : t :=
  mk (_users r ++ [user]) (_next_id r).

Definition get_by_id (r : t) (user_id : Z) : option User.t :=
  find (fun u => User.id u =? user_id) (_users r).

Definition ostr_eqb (a b : option string) : bool :=
  match a, b with
  | Some x, Some y => String.eqb x y
  | None, None => true
  | _, _ => false
  end.

Definition get_by_email (r : t) (email : option string) : option User.t :=
  find (fun u => ostr_eqb (User.email u) email) (_users r).

End Repo.
End UserRepository.

(* ================================================================== *)
(** ** [mikola/repository/feedback_repo.py] *)

Module FeedbackRepository.

Record t : Type := mk { _feedback : list Feedback.t; _next_id : Z }.

Definition init : t := mk [] 1.

Definition get_next_id (r : t) : Z * t :=
  (_next_id r, mk (_feedback r) (_next_id r + 1)).

Definition add_feedback (r : t) (feedback : Feedback.t) : t :=
  mk (_feedback r ++ [feedback]) (_next_id r).

Definition get_by_id (r : t) (feedback_id : Z) : option Feedback.t :=
  find (fun f => Feedback.id f =? feedback_id) (_feedback r).

(** The loop shared by [respond_to_feedback], [change_status] and
    [change_priority]: the first record with the id is updated by [upd]. *)
Fixpoint update_first (upd : Feedback.t -> Feedback.t) (feedback_id : Z)
    (l : list Feedback.t) : bool * list Feedback.t :=
  match l with
  | [] => (false, [])
  | feedback :: rest =>
      if Feedback.id feedback =? feedback_id
      then (true, upd feedback :: rest)
      else let '(ok, rest') := update_first upd feedback_id rest in
           (ok, feedback :: rest')
  end.

(** The four assignments of [respond_to_feedback]; [now] is
    [datetime.now()]. *)
Definition respond (admin_response : string) (admin_id : Z)
    (now : DateTime.datetime) (f : Feedback.t) : Feedback.t :=
  Feedback.mk (Feedback.id f) (Feedback.user_id f) (Feedback.subject f)
    (Feedback.message f) (Feedback.created_at f)
    "resolved"
    (Some admin_response)
    (Some admin_id)
    (Some (DateTime.strftime_ymd_hms now))
    (Feedback.priority f) (Feedback.category f).

Definition respond_to_feedback (now : DateTime.datetime) (r : t)
    (feedback_id : Z) (admin_response : string) (admin_id : Z) : bool * t :=
  let '(ok, l) :=
    update_first (respond admin_response admin_id now) feedback_id
      (_feedback r) in
  (ok, mk l (_next_id r)).

Definition set_status (new_status : string) (f : Feedback.t) : Feedback.t :=
  Feedback.mk (Feedback.id f) (Feedback.user_id f) (Feedback.subject f)
    (Feedback.message f) (Feedback.created_at f) new_status
    (Feedback.admin_response f) (Feedback.admin_id f)
    (Feedback.responded_at f) (Feedback.priority f) (Feedback.category f).

Definition change_status (r : t) (feedback_id : Z) (new_status : string)
  : bool * t :=
  let '(ok, l) := update_first (set_status new_status) feedback_id
                    (_feedback r) in
  (ok, mk l (_next_id r)).

Definition set_priority (new_priority : string) (f : Feedback.t)
  : Feedback.t :=
  Feedback.mk (Feedback.id f) (Feedback.user_id f) (Feedback.subject f)
    (Feedback.message f) (Feedback.created_at f) (Feedback.status f)
    (Feedback.admin_response f) (Feedback.admin_id f)
    (Feedback.responded_at f) new_priority (Feedback.category f).

Definition change_priority (r : t) (feedback_id : Z) (new_priority : string)
  : bool * t :=
  let '(ok, l) := update_first (set_priority new_priority) feedback_id
                    (_feedback r) in
  (ok, mk l (_next_id r)).

Definition get_by_user_id (r : t) (user_id : Z) : list Feedback.t :=
  filter (fun f => Feedback.user_id f =? user_id) (_feedback r).

(** [get_all]: a copy of the list. *)
Definition get_all (r : t) : list Feedback.t := _feedback r.

Definition get_by_status (r : t) (status : string) : list Feedback.t :=
  filter (fun f => String.eqb (Feedback.status f) status) (_feedback r).

Definition get_by_priority (r : t) (priority : string) : list Feedback.t :=
  filter (fun f => String.eqb (Feedback.priority f) priority) (_feedback r).

Definition get_by_category (r : t) (category : string) : list Feedback.t :=
  filter (fun f => String.eqb (Feedback.category f) category) (_feedback r).

(** [len([f for f in l if p(f)])] *)
Definition count (p : Feedback.t -> bool) (l : list Feedback.t) : Z :=
  Z.of_nat (List.length (filter p l)).

Definition is_urgent_open (f : Feedback.t) : bool :=
  String.eqb (Feedback.priority f) "urgent"
  && negb (String.eqb (Feedback.status f) "closed").

Definition get_new_feedback_count (r : t) : Z :=
  count (fun f => String.eqb (Feedback.status f) "new") (_feedback r).

Definition get_urgent_feedback_count (r : t) : Z :=
  count is_urgent_open (_feedback r).

(** The loop of [update_feedback]. *)
Fixpoint update_in (feedback : Feedback.t) (l : list Feedback.t)
  : bool * list Feedback.t :=
  match l with
  | [] => (false, [])
  | existing_feedback :: rest =>
      if Feedback.id existing_feedback =? Feedback.id feedback
      then (true, feedback :: rest)
      else let '(ok, rest') := update_in feedback rest in
           (ok, existing_feedback :: rest')
  end.

Definition update_feedback (r : t) (feedback : Feedback.t) : bool * t :=
  let '(ok, l) := update_in feedback (_feedback r) in
  (ok, mk l (_next_id r)).

(** The loop of [delete_feedback]: the first record with the id goes. *)
Fixpoint delete_in (feedback_id : Z) (l : list Feedback.t)
  : bool * list Feedback.t :=
  match l with
  | [] => (false, [])
  | feedback :: rest =>
      if Feedback.id feedback =? feedback_id
      then (true, rest)
      else let '(ok, rest') := delete_in feedback_id rest in
           (ok, feedback :: rest')
  end.

Definition delete_feedback (r : t) (feedback_id : Z) : bool * t :=
  let '(ok, l) := delete_in feedback_id (_feedback r) in
  (ok, mk l (_next_id r)).

(** The dictionary of [get_feedback_stats]. *)
Record Stats : Type := mkStats {
  total : Z;
  new : Z;
  in_progress : Z;
  resolved : Z;
  closed : Z;
  urgent : Z
}.

Definition get_feedback_stats (r : t) : Stats :=
  let has s := fun f => String.eqb (Feedback.status f) s in
  mkStats
    (Z.of_nat (List.length (_feedback r)))
    (count (has "new") (_feedback r))
    (count (has "in_progress") (_feedback r))
    (count (has "resolved") (_feedback r))
    (count (has "closed") (_feedback r))
    (count is_urgent_open (_feedback r)).

End FeedbackRepository.

(* ================================================================== *)
(** ** The route handlers: [mikola/blueprints/public.py], [auth.py], [admin.py] *)

Module Routes.

(** [session["booking_data"]], the pending booking intent. *)
Record BookingData : Type := mkBookingData {
  bd_tour_id : Z;
  bd_travel_date : string;
  bd_passengers : Z
}.

(** The server-side session; an absent key is [None]. *)
Record Session : Type := mkSession {
  user_id : option Z;
  email : option string;
  role : option string;
  language : option string;
  booking_data : option BookingData
}.

Definition set_booking_data (s : Session) (bd : option BookingData)
  : Session :=
  mkSession (user_id s) (email s) (role s) (language s) bd.

(** [session["user_id"] = ...; session["email"] = ...; session["role"] = ...] *)
Definition log_in (s : Session) (u : User.t) : Session :=
  mkSession (Some (User.id u)) (User.email u) (Some (User.role u))
    (language s) (booking_data s).

(** The module-level repository instances. *)
Record World : Type := mkWorld {
  tours_repository : list Tour.t;
  user_repository : UserRepository.t;
  booking_repository : BookingRepository.t;
  feedback_repository : FeedbackRepository.t
}.

Inductive Endpoint : Type :=
| public_home
| public_tour_detail (tour_id : Z)
| public_my_bookings
| public_booking_confirmation (booking_id : Z)
| public_feedback_form
| public_my_feedback
| auth_login
| auth_register
| admin_view_feedback (feedback_id : Z).

(** The flashed messages, by handler, with their categories. *)
Inductive Msg : Type :=
(* book_tour *)
| passengers_out_of_range       (* error *)
| passengers_not_a_number       (* error *)
| travel_date_missing           (* error *)
| travel_date_in_past           (* error *)
| travel_date_too_far           (* error *)
| travel_date_bad_format        (* error *)
| register_to_finish_booking    (* info *)
(* cancel_booking *)
| login_needed_to_cancel        (* warning *)
| booking_not_found             (* error *)
| not_your_booking              (* error *)
| too_late_to_cancel            (* error *)
| travel_date_error             (* error *)
| booking_cancelled             (* success *)
| cancel_failed                 (* error *)
(* submit_feedback *)
| login_needed_for_feedback     (* warning *)
| subject_missing               (* error *)
| message_missing               (* error *)
| subject_too_long              (* error *)
| message_too_long              (* error *)
| feedback_sent                 (* success *)
(* register_post *)
| passwords_differ              (* error *)
| password_too_short            (* error *)
| email_taken                   (* error *)
| booking_data_invalid          (* error *)
| registered_and_booked         (* success *)
| registered_now_log_in         (* success *)
(* admin: change_feedback_priority *)
| priority_updated              (* success *)
| priority_update_failed        (* error *)
| priority_invalid.             (* error *)

Inductive Response : Type :=
| render_404
| render_booking (tour : Tour.t) (booking : Booking.t)
    (user : option User.t) (passengers : Z)
| redirect (target : Endpoint)
| uncaught_exception.

Record Outcome : Type := mkOutcome {
  response : Response;
  flashed : option Msg;
  world : World;
  session : Session
}.

(** *** The date checks of a booking

    The [try] block of [book_tour] (public.py, 73-89), which
    [register_post] repeats (auth.py, 84-103): [strptime], the comparison
    with today, [today.replace(year=today.year + 1)], the comparison with
    it.  Both [strptime] and [replace] can raise [ValueError]. *)
Inductive DateCheck : Type :=
| date_ok
| date_past
| date_too_far
| date_value_error.

Definition check_travel_date (today : Date.date) (travel_date : string)
  : DateCheck :=
  match Date.strptime travel_date with
  | None => date_value_error
  | Some travel_date_obj =>
      if Date.ltb travel_date_obj today then date_past
      else
        match Date.replace_year today (Date.year today + 1) with
        | None => date_value_error
        | Some max_future_date =>
            if Date.gtb travel_date_obj max_future_date then date_too_far
            else date_ok
        end
  end.

(** [unit_price] of [book_tour] *)
Definition unit_price (tour : Tour.t) : Q :=
  Py.or_float
    (match Tour.min_price tour with
     | Some m => Some m
     | None =>
         match Tour.max_price tour with
         | Some m => Some m
         | None => Tour.price tour
         end
     end) 0%Q.

Record BookForm : Type := mkBookForm {
  form_travel_date : option string;
  form_passengers : option string
}.

(** [POST /book/<tour_id>]; [now] is [datetime.now()]. *)
Definition book_tour (now : DateTime.datetime) (w : World) (s : Session)
    (tour_id : Z) (form : BookForm) : Outcome :=
  let back := redirect (public_tour_detail tour_id) in
  match ToursRepository.get_by_id (tours_repository w) tour_id with
  | None => mkOutcome render_404 None w s
  | Some tour =>
  let travel_date := form_travel_date form in
  match match form_passengers form with
        | Some p => Py.int p
        | None => Some 1
        end with
  | None => mkOutcome back (Some passengers_not_a_number) w s
  | Some passengers =>
  if (passengers <? 1) || (passengers >? 10)
  then mkOutcome back (Some passengers_out_of_range) w s
  else
  match travel_date with
  | None => mkOutcome back (Some travel_date_missing) w s
  | Some travel_date =>
  if negb (Py.truthy_str travel_date)
  then mkOutcome back (Some travel_date_missing) w s
  else
  match check_travel_date (DateTime.date now) travel_date with
  | date_past => mkOutcome back (Some travel_date_in_past) w s
  | date_too_far => mkOutcome back (Some travel_date_too_far) w s
  | date_value_error => mkOutcome back (Some travel_date_bad_format) w s
  | date_ok =>
  if negb (Py.truthy_oint (user_id s))
  then
    mkOutcome (redirect auth_register) (Some register_to_finish_booking) w
      (set_booking_data s
         (Some (mkBookingData tour_id travel_date passengers)))
  else
  match user_id s with
  | None => mkOutcome uncaught_exception None w s
  | Some uid =>
  let total_price := (unit_price tour * inject_Z passengers)%Q in
  let '(booking_id, repo1) :=
    BookingRepository.get_next_id (booking_repository w) in
  let booking :=
    Booking.mk booking_id tour_id uid
      (DateTime.strftime_ymd (DateTime.date now))
      travel_date passengers total_price "confirmed" in
  let repo2 := BookingRepository.add_booking repo1 booking in
  let user := UserRepository.get_by_id (user_repository w) uid in
  mkOutcome (render_booking tour booking user passengers) None
    (mkWorld (tours_repository w) (user_repository w) repo2
       (feedback_repository w))
    s
  end end end end end.

(** [POST /booking/<booking_id>/cancel] *)

(** [today.replace(day=today.day + 3) if today.day <= 28
     else today.replace(month=today.month + 1, day=3)] *)
Definition min_cancel_date (today : Date.date) : option Date.date :=
  if Date.day today <=? 28
  then Date.replace_day today (Date.day today + 3)
  else Date.replace_month_day today (Date.month today + 1) 3.

Inductive CancelCheck : Type :=
| cancel_allowed
| cancel_too_late
| cancel_value_error.

(** The [try] block of [cancel_booking] (public.py, 192-205). *)
Definition check_cancel (today : Date.date) (travel_date : string)
  : CancelCheck :=
  match Date.strptime travel_date with
  | None => cancel_value_error
  | Some travel_date_obj =>
      match min_cancel_date today with
      | None => cancel_value_error
      | Some min_cancel =>
          if Date.leb travel_date_obj min_cancel then cancel_too_late
          else cancel_allowed
      end
  end.

Definition with_bookings (w : World) (r : BookingRepository.t) : World :=
  mkWorld (tours_repository w) (user_repository w) r (feedback_repository w).

Definition cancel_booking (now : DateTime.datetime) (w : World)
    (s : Session) (booking_id : Z) : Outcome :=
  let list := redirect public_my_bookings in
  if negb (Py.truthy_oint (user_id s))
  then mkOutcome (redirect auth_login) (Some login_needed_to_cancel) w s
  else
  match BookingRepository.get_by_id (booking_repository w) booking_id with
  | None => mkOutcome list (Some booking_not_found) w s
  | Some booking =>
  if negb (match user_id s with
           | Some uid => Booking.user_id booking =? uid
           | None => false
           end)
  then mkOutcome list (Some not_your_booking) w s
  else
  match check_cancel (DateTime.date now) (Booking.travel_date booking) with
  | cancel_too_late => mkOutcome list (Some too_late_to_cancel) w s
  | cancel_value_error => mkOutcome list (Some travel_date_error) w s
  | cancel_allowed =>
      let '(ok, repo) :=
        BookingRepository.cancel_booking (booking_repository w) booking_id in
      mkOutcome list
        (Some (if ok then booking_cancelled else cancel_failed))
        (with_bookings w repo) s
  end end.

(** [POST /feedback] *)

Record FeedbackForm : Type := mkFeedbackForm {
  form_subject : option string;
  form_message : option string;
  form_category : option string;
  form_priority : option string
}.

Definition form_get (x : option string) (default : string) : string :=
  match x with Some v => v | None => default end.

Definition with_feedback (w : World) (r : FeedbackRepository.t) : World :=
  mkWorld (tours_repository w) (user_repository w) (booking_repository w) r.

Definition submit_feedback (now : DateTime.datetime) (w : World)
    (s : Session) (form : FeedbackForm) : Outcome :=
  let again := redirect public_feedback_form in
  if negb (Py.truthy_oint (user_id s))
  then mkOutcome (redirect auth_login) (Some login_needed_for_feedback) w s
  else
  match user_id s with
  | None => mkOutcome uncaught_exception None w s
  | Some uid =>
  let subject := Py.strip (form_get (form_subject form) "") in
  let message := Py.strip (form_get (form_message form) "") in
  let category := form_get (form_category form) "general" in
  let priority := form_get (form_priority form) "normal" in
  if negb (Py.truthy_str subject)
  then mkOutcome again (Some subject_missing) w s
  else if negb (Py.truthy_str message)
  then mkOutcome again (Some message_missing) w s
  else if Py.len subject >? 200
  then mkOutcome again (Some subject_too_long) w s
  else if Py.len message >? 2000
  then mkOutcome again (Some message_too_long) w s
  else
  let '(feedback_id, repo1) :=
    FeedbackRepository.get_next_id (feedback_repository w) in
  let feedback :=
    Feedback.mk feedback_id uid subject message
      (DateTime.strftime_ymd_hms now) "new" None None None
      priority category in
  let repo2 := FeedbackRepository.add_feedback repo1 feedback in
  mkOutcome (redirect public_my_feedback) (Some feedback_sent)
    (with_feedback w repo2) s
  end.

(** [POST /admin/feedback/<feedback_id>/priority] (admin.py) *)

Definition _is_admin (s : Session) : bool :=
  match role s with Some r => String.eqb r "admin" | None => false end.

Definition valid_priorities : list string :=
  ["low"; "normal"; "high"; "urgent"].

Definition str_in (x : option string) (l : list string) : bool :=
  match x with
  | Some v => existsb (String.eqb v) l
  | None => false
  end.

Definition change_feedback_priority (w : World) (s : Session)
    (feedback_id : Z) (form_priority : option string) : Outcome :=
  if negb (_is_admin s)
  then mkOutcome (redirect auth_login) None w s
  else
  let view := redirect (admin_view_feedback feedback_id) in
  match form_priority with
  | Some new_priority =>
      if str_in (Some new_priority) valid_priorities
      then
        let '(ok, repo) :=
          FeedbackRepository.change_priority (feedback_repository w)
            feedback_id new_priority in
        mkOutcome view
          (Some (if ok then priority_updated else priority_update_failed))
          (with_feedback w repo) s
      else mkOutcome view (Some priority_invalid) w s
  | None => mkOutcome view (Some priority_invalid) w s
  end.

(** [POST /register] (auth.py) *)

Section Register.

Variable generate_password_hash : string -> string.

Record RegisterForm : Type := mkRegisterForm {
  form_email : option string;
  form_password : option string;
  form_confirm_password : option string;
  form_first_name : option string;
  form_last_name : option string;
  form_phone : option string
}.

Definition with_users (w : World) (r : UserRepository.t) : World :=
  mkWorld (tours_repository w) r (booking_repository w)
    (feedback_repository w).

Definition register_post (now : DateTime.datetime) (w : World)
    (s : Session) (form : RegisterForm) : Outcome :=
  let again := redirect auth_register in
  let email := form_email form in
  let password := form_password form in
  let confirm_password := form_confirm_password form in
  if negb (UserRepository.ostr_eqb password confirm_password)
  then mkOutcome again (Some passwords_differ) w s
  else
  match password with
  | None => mkOutcome uncaught_exception None w s   (* len(None) *)
  | Some password =>
  if Py.len password <? 6
  then mkOutcome again (Some password_too_short) w s
  else
  match UserRepository.get_by_email (user_repository w) email with
  | Some _ => mkOutcome again (Some email_taken) w s
  | None =>
  let '(new_id, users1) :=
    UserRepository.get_next_id (user_repository w) in
  let user :=
    User.mk new_id email (generate_password_hash password) "client"
      (form_first_name form) (form_last_name form) (form_phone form)
      None None None in
  let w1 := with_users w (UserRepository.add_user users1 user) in
  let registered :=
    fun s' => mkOutcome (redirect auth_login)
                (Some registered_now_log_in) w1 s' in
  match booking_data s with
  | None => registered s
  | Some bd =>
  let drop := set_booking_data s None in
  match check_travel_date (DateTime.date now) (bd_travel_date bd) with
  | date_past =>
      mkOutcome (redirect public_home) (Some travel_date_in_past) w1 drop
  | date_too_far =>
      mkOutcome (redirect public_home) (Some travel_date_too_far) w1 drop
  | date_value_error =>
      mkOutcome (redirect public_home) (Some booking_data_invalid) w1 drop
  | date_ok =>
  (* Auto-login the user *)
  let s1 := log_in s user in
  match ToursRepository.get_by_id (tours_repository w1) (bd_tour_id bd) with
  | None => registered s1
  | Some tour =>
  let '(booking_id, repo1) :=
    BookingRepository.get_next_id (booking_repository w1) in
  match Tour.price tour with
  | None =>                                   (* None * int *)
      mkOutcome uncaught_exception None (with_bookings w1 repo1) s1
  | Some price =>
  let total_price := (price * inject_Z (bd_passengers bd))%Q in
  let booking :=
    Booking.mk booking_id (bd_tour_id bd) (User.id user)
      (DateTime.strftime_ymd (DateTime.date now))
      (bd_travel_date bd) (bd_passengers bd) total_price "confirmed" in
  let repo2 := BookingRepository.add_booking repo1 booking in
  mkOutcome (redirect (public_booking_confirmation booking_id))
    (Some registered_and_booked)
    (with_bookings w1 repo2)
    (set_booking_data s1 None)
  end end end end end end.

End Register.

End Routes.

(* ================================================================== *)
(** ** More of [public.py] and [auth.py]: pages, login, logout, language *)

Module Account.
Import Routes.

(** The id a handler reads after [if not session.get("user_id")]. *)
Definition current_user (s : Session) : option Z :=
  if Py.truthy_oint (user_id s) then user_id s else None.

Inductive Notice : Type :=
| login_needed_for_bookings           (* warning *)
| login_needed_for_feedback_history   (* warning *)
| login_succeeded                     (* success *)
| login_failed                        (* error *)
| logged_out.                         (* info *)

Inductive Page : Type :=
| to_login
| show_404
| show_my_bookings (bookings : list (Booking.t * option Tour.t))
| show_booking (tour : option Tour.t) (booking : Booking.t)
    (user : option User.t) (passengers : Z)
| show_my_feedback (feedback_list : list Feedback.t).

(** [GET /my-bookings] *)
Definition my_bookings (w : World) (s : Session) : Page * option Notice :=
  match current_user s with
  | None => (to_login, Some login_needed_for_bookings)
  | Some uid =>
      let bookings :=
        BookingRepository.get_by_user_id (booking_repository w) uid in
      (show_my_bookings
         (map (fun booking =>
                 (booking,
                  ToursRepository.get_by_id (tours_repository w)
                    (Booking.tour_id booking)))
              bookings),
       None)
  end.

(** [GET /booking/<booking_id>] *)
Definition booking_confirmation (w : World) (booking_id : Z) : Page :=
  match BookingRepository.get_by_id (booking_repository w) booking_id with
  | None => show_404
  | Some booking =>
      show_booking
        (ToursRepository.get_by_id (tours_repository w)
           (Booking.tour_id booking))
        booking
        (UserRepository.get_by_id (user_repository w)
           (Booking.user_id booking))
        (Booking.passengers booking)
  end.

(** [GET /my-feedback] *)
Definition my_feedback (w : World) (s : Session) : Page * option Notice :=
  match current_user s with
  | None => (to_login, Some login_needed_for_feedback_history)
  | Some uid =>
      (show_my_feedback
         (FeedbackRepository.get_by_user_id (feedback_repository w) uid),
       None)
  end.

(** [GET /set_language/<language>]: the session afterwards. *)
Definition set_language (s : Session) (language : string) : Session :=
  if existsb (String.eqb language) ["ru"; "en"; "es"]
  then mkSession (user_id s) (email s) (role s) (Some language)
         (booking_data s)
  else s.

(** [get_current_language] of translations.py *)
Definition get_current_language (s : Session) : string :=
  match Routes.language s with Some l => l | None => "ru" end.

Inductive Target : Type :=
| to_home
| to_admin_dashboard
| to_login_page (admin : bool)
| raised.

Record AuthOutcome : Type := mkAuthOutcome {
  target : Target;
  notice : option Notice;
  next_session : Session
}.

(** [GET /logout]: [session.clear()] *)
Definition logout (s : Session) : AuthOutcome :=
  mkAuthOutcome to_home (Some logged_out)
    (mkSession None None None None None).

Record LoginForm : Type := mkLoginForm {
  login_email : option string;
  login_password : option string;
  login_admin : option string
}.

Section Login.

(** [werkzeug.security.check_password_hash], a black box on strings. *)
Variable check_password_hash : string -> string -> bool.

(** [POST /login]; with a stored user and no password field the check
    itself raises. *)
Definition login_post (w : World) (s : Session) (form : LoginForm)
  : AuthOutcome :=
  let admin_mode :=
    match login_admin form with
    | Some a => String.eqb a "1"
    | None => false
    end in
  let refused :=
    mkAuthOutcome (to_login_page admin_mode) (Some login_failed) s in
  match UserRepository.get_by_email (user_repository w) (login_email form) with
  | None => refused
  | Some user =>
      match login_password form with
      | None => mkAuthOutcome raised None s
      | Some password =>
          if check_password_hash (User.password_hash user) password
          then
            mkAuthOutcome
              (if admin_mode && String.eqb (User.role user) "admin"
               then to_admin_dashboard else to_home)
              (Some login_succeeded)
              (log_in s user)
          else refused
      end
  end.

End Login.

End Account.

(* ================================================================== *)
(** ** More of [admin.py]: answering feedback and changing its status *)

Module Admin.
Import Routes.

Inductive Target : Type :=
| to_admin_login
| to_feedback_management
| to_view_feedback (feedback_id : Z)
| raised.

Inductive Notice : Type :=
| feedback_not_found      (* error *)
| reply_missing           (* error *)
| reply_too_long          (* error *)
| reply_sent              (* success *)
| reply_failed            (* error *)
| status_updated          (* success *)
| status_update_failed    (* error *)
| status_invalid.         (* error *)

Record Outcome : Type := mkOutcome {
  target : Target;
  notice : option Notice;
  next_world : World
}.

Definition valid_statuses : list string :=
  ["new"; "in_progress"; "resolved"; "closed"].

(** [POST /admin/feedback/<feedback_id>/respond] *)
Definition respond_to_feedback (now : DateTime.datetime) (w : World)
    (s : Session) (feedback_id : Z) (form_admin_response : option string)
  : Outcome :=
  if negb (_is_admin s) then mkOutcome to_admin_login None w
  else
  match FeedbackRepository.get_by_id (feedback_repository w) feedback_id with
  | None => mkOutcome to_feedback_management (Some feedback_not_found) w
  | Some _ =>
  let view := to_view_feedback feedback_id in
  let admin_response := Py.strip (form_get form_admin_response "") in
  if negb (Py.truthy_str admin_response)
  then mkOutcome view (Some reply_missing) w
  else if Py.len admin_response >? 2000
  then mkOutcome view (Some reply_too_long) w
  else
  match user_id s with
  | None => mkOutcome raised None w              (* session["user_id"] *)
  | Some admin_id =>
      let '(ok, repo) :=
        FeedbackRepository.respond_to_feedback now (feedback_repository w)
          feedback_id admin_response admin_id in
      mkOutcome view (Some (if ok then reply_sent else reply_failed))
        (with_feedback w repo)
  end
  end.

(** [POST /admin/feedback/<feedback_id>/status] *)
Definition change_feedback_status (w : World) (s : Session)
    (feedback_id : Z) (form_status : option string) : Outcome :=
  if negb (_is_admin s) then mkOutcome to_admin_login None w
  else
  let view := to_view_feedback feedback_id in
  match form_status with
  | Some new_status =>
      if str_in (Some new_status) valid_statuses
      then
        let '(ok, repo) :=
          FeedbackRepository.change_status (feedback_repository w)
            feedback_id new_status in
        mkOutcome view
          (Some (if ok then status_updated else status_update_failed))
          (with_feedback w repo)
      else mkOutcome view (Some status_invalid) w
  | None => mkOutcome view (Some status_invalid) w
  end.

End Admin.

(* ================================================================== *)
(** * Properties *)

(** ** Python's [or] on prices *)

Module PyFacts.

(** [x or 0] is [x], and 0 when [x] is [None]. *)
Lemma or_float_value (x : option Q) :
  (Py.or_float x 0 == match x with Some q => q | None => 0 end)%Q.
Proof.
  destruct x as [q|]; simpl; [| reflexivity].
  destruct (Qeq_bool q 0) eqn:E; [| reflexivity].
  apply Qeq_bool_iff in E. now rewrite E.
Qed.

(** The text primitives work on characters.  Six Cyrillic letters are
    twelve bytes; white space of any script is stripped. *)
Example len_and_strip_on_characters :
  Py.len "пароль" = 6
  /\ String.length "пароль" = 12%nat
  /\ Py.chars "Да" = [1044; 1072]
  /\ Py.strip (Py.str [12288; 1044; 1072; 160; 10]) = "Да"
  /\ Py.str (Py.chars "Горно-Алтайск") = "Горно-Алтайск".
Proof.
  split; [vm_compute; reflexivity |]. split; [vm_compute; reflexivity |].
  split; [vm_compute; reflexivity |]. split; vm_compute; reflexivity.
Qed.

(** [lower] folds every cased script; a capital sigma at the end of a
    word becomes the final sigma, and U+0130 becomes two characters. *)
Example lower_on_characters :
  Py.lower "МОСКВА" = "москва"
  /\ Py.lower "Zürich ÉTÉ" = "zürich été"
  /\ Py.lower "ΑΘΗΝΑΣ ΣΟΦΙΑ" = "αθηνας σοφια"
  /\ Py.chars (Py.lower (Py.str [304])) = [105; 775].
Proof.
  split; [vm_compute; reflexivity |]. split; [vm_compute; reflexivity |].
  split; vm_compute; reflexivity.
Qed.

(** [int] reads the decimal digits of any script, single underscores
    between digits and white space around the number; the ASCII controls
    28-31 are white space for [strip] but not for [int]. *)
Example int_on_characters :
  Py.int " 12 " = Some 12
  /\ Py.int "-1_000" = Some (-1000)
  /\ Py.int "1__0" = None
  /\ Py.int "٣" = Some 3
  /\ Py.int "１０" = Some 10
  /\ Py.int (Py.str [160; 53; 8195]) = Some 5
  /\ Py.int (Py.str [28; 53]) = None
  /\ Py.strip (Py.str [28; 53]) = "5"
  /\ Py.int "" = None
  /\ Py.int "2.0" = None.
Proof.
  repeat (split; [vm_compute; reflexivity |]). vm_compute; reflexivity.
Qed.

(** [strptime] reads what the regular expression of ["%Y-%m-%d"] matches
    and [strftime] writes the year without leading zeros. *)
Example dates_on_characters :
  Date.strptime "2025-07-01" = Some (Date.mkDate 2025 7 1)
  /\ Date.strptime "2025-7-1" = Some (Date.mkDate 2025 7 1)
  /\ Date.strptime "２０２５-07-1٣" = Some (Date.mkDate 2025 7 13)
  /\ Date.strptime "2025-02-29" = None
  /\ Date.strptime "2025-07-01 " = None
  /\ Date.strptime "999-06-01" = None
  /\ DateTime.strftime_ymd (Date.mkDate 999 6 1) = "999-06-01"
  /\ DateTime.strftime_ymd (Date.mkDate 2025 6 1) = "2025-06-01".
Proof.
  repeat (split; [vm_compute; reflexivity |]). vm_compute; reflexivity.
Qed.

End PyFacts.

(** ** The order on dates *)

Module DateFacts.
Import Date.

Ltac order_cases :=
  unfold leb, geb, gtb, ltb, eqb;
  repeat match goal with
         | |- context [Z.ltb ?a ?b] => destruct (Z.ltb_spec a b)
         | |- context [Z.eqb ?a ?b] => destruct (Z.eqb_spec a b)
         end;
  simpl; try reflexivity; try discriminate; try lia.

(** The order is total: what is not before [b] is [b] or after it. *)
Lemma ltb_false_leb (a b : date) : ltb a b = false -> leb b a = true.
Proof. order_cases. Qed.

Lemma gtb_false_leb (a b : date) : gtb a b = false -> leb a b = true.
Proof. unfold gtb. apply ltb_false_leb. Qed.

Lemma leb_false_ltb (a b : date) : leb a b = false -> ltb b a = true.
Proof. order_cases. Qed.

Lemma leb_true_ltb (a b : date) : leb a b = true -> ltb b a = false.
Proof. order_cases. Qed.


End DateFacts.

(** ** What [book_tour] does, case by case *)

Module BookTourFacts.
Import Routes.

(** The passenger count [book_tour] reads from the form. *)
Definition read_passengers (form : BookForm) : option Z :=
  match form_passengers form with
  | Some p => Py.int p
  | None => Some 1
  end.

(** The booking a logged-in user gets. *)
Definition new_booking (now : DateTime.datetime) (w : World) (uid : Z)
    (tour : Tour.t) (tour_id : Z) (travel_date : string) (passengers : Z)
  : Booking.t :=
  Booking.mk (BookingRepository._next_id (booking_repository w))
    tour_id uid (DateTime.strftime_ymd (DateTime.date now)) travel_date
    passengers (unit_price tour * inject_Z passengers)%Q "confirmed".

Definition bookings_of (w : World) : list Booking.t :=
  BookingRepository._bookings (booking_repository w).

(** Either nothing is stored, or the request passed every check: then
    an anonymous caller gets the intent stashed and a logged-in caller
    gets the booking. *)
Lemma book_tour_cases now w s tour_id form :
  let o := book_tour now w s tour_id form in
  (world o = w /\ session o = s)
  \/ exists tour passengers travel_date,
       ToursRepository.get_by_id (tours_repository w) tour_id = Some tour
       /\ read_passengers form = Some passengers
       /\ 1 <= passengers <= 10
       /\ form_travel_date form = Some travel_date
       /\ check_travel_date (DateTime.date now) travel_date = date_ok
       /\ ((Py.truthy_oint (user_id s) = false
            /\ world o = w
            /\ session o =
                 set_booking_data s
                   (Some (mkBookingData tour_id travel_date passengers)))
           \/ exists uid,
                user_id s = Some uid
                /\ session o = s
                /\ tours_repository (world o) = tours_repository w
                /\ bookings_of (world o) =
                     (bookings_of w ++
                      [new_booking now w uid tour tour_id travel_date
                         passengers])%list).
Proof.
  unfold book_tour, read_passengers.
  destruct (ToursRepository.get_by_id _ _) as [tour|]; [| now left].
  destruct (match form_passengers form with
            | Some p => Py.int p | None => Some 1 end) as [n|];
    [| now left].
  destruct ((n <? 1) || (n >? 10)) eqn:Hr; [now left |].
  destruct (form_travel_date form) as [td|]; [| now left].
  destruct (negb (Py.truthy_str td)); [now left |].
  destruct (check_travel_date _ td) eqn:Hd; try (now left).
  right. exists tour, n, td.
  apply orb_false_iff in Hr. destruct Hr as [H1 H2].
  apply Z.ltb_ge in H1. rewrite Z.gtb_ltb in H2. apply Z.ltb_ge in H2.
  repeat split; try assumption.
  destruct (Py.truthy_oint (user_id s)) eqn:Hu; simpl.
  - right. destruct (user_id s) as [uid|]; [| discriminate].
    exists uid. cbn. repeat split.
  - left. repeat split.
Qed.

(** A booking list that changed has a booking appended. *)
Lemma book_tour_created now w s tour_id form :
  bookings_of (world (book_tour now w s tour_id form)) <> bookings_of w ->
  exists tour passengers travel_date uid,
    ToursRepository.get_by_id (tours_repository w) tour_id = Some tour
    /\ read_passengers form = Some passengers
    /\ 1 <= passengers <= 10
    /\ form_travel_date form = Some travel_date
    /\ check_travel_date (DateTime.date now) travel_date = date_ok
    /\ user_id s = Some uid
    /\ bookings_of (world (book_tour now w s tour_id form)) =
         (bookings_of w ++
          [new_booking now w uid tour tour_id travel_date passengers])%list.
Proof.
  intros Hch.
  destruct (book_tour_cases now w s tour_id form)
    as [[Hw _] | (tour & n & td & Ht & Hp & Hn & Hf & Hd & Hcase)].
  - rewrite Hw in Hch. now elim Hch.
  - destruct Hcase as [(_ & Hw & _) | (uid & Hu & _ & _ & Hb)].
    + rewrite Hw in Hch. now elim Hch.
    + exists tour, n, td, uid. repeat split; try assumption; apply Hn.
Qed.

(** What [date_ok] means. *)
Lemma check_travel_date_ok today travel_date :
  check_travel_date today travel_date = date_ok ->
  exists d max_future_date,
    Date.strptime travel_date = Some d
    /\ Date.replace_year today (Date.year today + 1) = Some max_future_date
    /\ Date.leb today d = true
    /\ Date.leb d max_future_date = true.
Proof.
  unfold check_travel_date.
  destruct (Date.strptime travel_date) as [d|]; [| discriminate].
  destruct (Date.ltb d today) eqn:Hlt; [discriminate |].
  destruct (Date.replace_year today _) as [m|]; [| discriminate].
  destruct (Date.gtb d m) eqn:Hgt; [discriminate |].
  intros _. exists d, m. repeat split.
  - now apply DateFacts.ltb_false_leb.
  - now apply DateFacts.gtb_false_leb.
Qed.

End BookTourFacts.

(** ** What [register_post] does, case by case *)

Module RegisterFacts.
Import Routes.
Export BookTourFacts.

Section Facts.

Variable generate_password_hash : string -> string.

(** The form passes the three checks of [register_post]: the two
    passwords agree, the password has six characters or more, and the
    email is not taken. *)
Definition accepted (w : World) (form : RegisterForm) (password : string)
  : Prop :=
  form_password form = Some password
  /\ form_confirm_password form = Some password
  /\ 6 <= Py.len password
  /\ UserRepository.get_by_email (user_repository w) (form_email form)
     = None.

Definition new_user (w : World) (form : RegisterForm) (password : string)
  : User.t :=
  User.mk (UserRepository._next_id (user_repository w))
    (form_email form) (generate_password_hash password) "client"
    (form_first_name form) (form_last_name form) (form_phone form)
    None None None.

Definition users_of (w : World) : list User.t :=
  UserRepository._users (user_repository w).

(** The booking [register_post] makes of a pending intent. *)
Definition deferred_booking (now : DateTime.datetime) (w : World)
    (user : User.t) (price : Q) (bd : BookingData) : Booking.t :=
  Booking.mk (BookingRepository._next_id (booking_repository w))
    (bd_tour_id bd) (User.id user)
    (DateTime.strftime_ymd (DateTime.date now))
    (bd_travel_date bd) (bd_passengers bd)
    (price * inject_Z (bd_passengers bd))%Q "confirmed".

(** What happens to an accepted registration, by the pending intent. *)
Inductive after_registration (now : DateTime.datetime) (w : World)
    (s : Session) (user : User.t) (o : Outcome) : Prop :=
| no_intent :
    booking_data s = None ->
    response o = redirect auth_login ->
    flashed o = Some registered_now_log_in ->
    session o = s ->
    bookings_of (world o) = bookings_of w ->
    after_registration now w s user o
| intent_date_refused (bd : BookingData) :
    booking_data s = Some bd ->
    check_travel_date (DateTime.date now) (bd_travel_date bd) <> date_ok ->
    response o = redirect public_home ->
    session o = set_booking_data s None ->
    bookings_of (world o) = bookings_of w ->
    after_registration now w s user o
| intent_tour_gone (bd : BookingData) :
    booking_data s = Some bd ->
    check_travel_date (DateTime.date now) (bd_travel_date bd) = date_ok ->
    ToursRepository.get_by_id (tours_repository w) (bd_tour_id bd) = None ->
    response o = redirect auth_login ->
    flashed o = Some registered_now_log_in ->
    session o = log_in s user ->
    bookings_of (world o) = bookings_of w ->
    after_registration now w s user o
| intent_tour_unpriced (bd : BookingData) (tour : Tour.t) :
    booking_data s = Some bd ->
    check_travel_date (DateTime.date now) (bd_travel_date bd) = date_ok ->
    ToursRepository.get_by_id (tours_repository w) (bd_tour_id bd)
    = Some tour ->
    Tour.price tour = None ->
    response o = uncaught_exception ->
    session o = log_in s user ->
    bookings_of (world o) = bookings_of w ->
    after_registration now w s user o
| intent_booked (bd : BookingData) (tour : Tour.t) (price : Q) :
    booking_data s = Some bd ->
    check_travel_date (DateTime.date now) (bd_travel_date bd) = date_ok ->
    ToursRepository.get_by_id (tours_repository w) (bd_tour_id bd)
    = Some tour ->
    Tour.price tour = Some price ->
    response o =
      redirect (public_booking_confirmation
                  (BookingRepository._next_id (booking_repository w))) ->
    flashed o = Some registered_and_booked ->
    session o = set_booking_data (log_in s user) None ->
    bookings_of (world o) =
      (bookings_of w ++ [deferred_booking now w user price bd])%list ->
    after_registration now w s user o.

(** Either the form is refused and nothing changes, or the user is
    added and the pending intent decides the rest. *)
Lemma register_post_cases now w s form :
  let o := register_post generate_password_hash now w s form in
  (world o = w /\ session o = s
   /\ forall password, ~ accepted w form password)
  \/ exists password,
       accepted w form password
       /\ users_of (world o) =
            (users_of w ++ [new_user w form password])%list
       /\ tours_repository (world o) = tours_repository w
       /\ after_registration now w s (new_user w form password) o.
Proof.
  unfold register_post, accepted.
  destruct (form_password form) as [pw|] eqn:Hpw;
    destruct (form_confirm_password form) as [cpw|] eqn:Hcpw; simpl;
    try (left; repeat split; intros p (H1 & H2 & _); congruence).
  destruct (String.eqb_spec pw cpw) as [<- | Hne]; simpl;
    [| left; repeat split; intros p (H1 & H2 & _); congruence].
  destruct (Z.ltb_spec (Py.len pw) 6) as [Hlen | Hlen];
    [left; repeat split; intros p (H1 & _ & H3 & _);
     injection H1 as <-; lia |].
  destruct (UserRepository.get_by_email _ _) as [u|] eqn:Hmail;
    [left; repeat split; intros p (_ & _ & _ & H4); congruence |].
  right. exists pw. split; [repeat split; assumption |].
  split; [| split].
  - destruct (booking_data s) as [bd|]; [| reflexivity].
    destruct (check_travel_date _ _); try reflexivity.
    simpl. destruct (ToursRepository.get_by_id _ _) as [tour|];
      [| reflexivity].
    destruct (Tour.price tour); reflexivity.
  - destruct (booking_data s) as [bd|]; [| reflexivity].
    destruct (check_travel_date _ _); try reflexivity.
    simpl. destruct (ToursRepository.get_by_id _ _) as [tour|];
      [| reflexivity].
    destruct (Tour.price tour); reflexivity.
  - destruct (booking_data s) as [bd|] eqn:Hbd;
      [| now apply no_intent].
    destruct (check_travel_date _ _) eqn:Hd;
      try (apply intent_date_refused with bd;
           [assumption | congruence | reflexivity ..]).
    simpl.
    destruct (ToursRepository.get_by_id _ _) as [tour|] eqn:Ht;
      [| now apply intent_tour_gone with bd].
    destruct (Tour.price tour) as [price|] eqn:Hp.
    + now apply intent_booked with bd tour price.
    + now apply intent_tour_unpriced with bd tour.
Qed.

End Facts.

End RegisterFacts.

(* ================================================================== *)
(** * Sample data *)

Module Fixtures.
Import Routes.

Definition hash (password : string) : string := "pbkdf2:" ++ password.

Definition describe (e : Event.t) : string :=
  match Event.description e with Some d => d | None => "" end.

Definition event (name : string) (price_min price_max : option Q)
    (start_date : option string) : Event.t :=
  Event.mk (Some "ev") (Some name) (Some "Kyiv") (Some "Ukraine") None None
    None None None price_min price_max (Some "USD") (Some "Music") []
    start_date None None None None None None (Some 1).

(** An event with free entry and paid upgrades, as a price range 0 - 50. *)
Definition free_entry : Event.t :=
  event "Open Air" (Some 0%Q) (Some 50%Q) (Some "2025-07-01").

Definition ranged : Event.t :=
  event "Night Tour" (Some 1190%Q) (Some 1490%Q) (Some "2025-03-20").

Definition catalog : list Tour.t :=
  ToursRepository._map_events describe [free_entry; ranged].

Definition world0 : World :=
  mkWorld catalog (UserRepository.init hash) BookingRepository.init
    FeedbackRepository.init.

Definition anonymous : Session := mkSession None None None None None.

Definition client (uid : Z) : Session :=
  mkSession (Some uid) (Some "client@example.com") (Some "client") None None.

Definition at_noon (y m d : Z) : DateTime.datetime :=
  DateTime.mk (Date.mkDate y m d) 12 0 0.

Definition signup : RegisterForm :=
  mkRegisterForm (Some "new@example.com") (Some "secret1") (Some "secret1")
    (Some "New") (Some "User") None.

Definition first_tour : Tour.t :=
  ToursRepository.map_event describe 1 free_entry.

(** A text of [n] Cyrillic letters, two bytes of UTF-8 each. *)
Definition letters (n : nat) : string := Py.str (repeat 1103 n).

Definition signup_with (password : string) : RegisterForm :=
  mkRegisterForm (Some "new@example.com") (Some password) (Some password)
    (Some "New") (Some "User") None.

(** An anonymous visitor asked for two places on tour 1 for 2025-07-01. *)
Definition intent : BookingData := mkBookingData 1 "2025-07-01" 2.

Definition pending : Session := set_booking_data anonymous (Some intent).

Definition booking (id user_id : Z) (booking_date travel_date : string)
  : Booking.t :=
  Booking.mk id 1 user_id booking_date travel_date 2 100%Q "confirmed".

Definition with_booking (b : Booking.t) : World :=
  mkWorld catalog (UserRepository.init hash)
    (BookingRepository.mk [b] (Booking.id b + 1)) FeedbackRepository.init.

End Fixtures.

(* ================================================================== *)
(** * Total price of a booking *)

Module TotalPrice.
Import Routes RegisterFacts.

(** The unit price in the words of the data model: [min_price] if
    present, else [max_price] if present, else [price], else 0. *)
Definition spec_unit_price (tour : Tour.t) : Q :=
  match Tour.min_price tour with
  | Some m => m
  | None =>
      match Tour.max_price tour with
      | Some m => m
      | None =>
          match Tour.price tour with
          | Some p => p
          | None => 0%Q
          end
      end
  end.

(** [unit_price] of [book_tour] is that unit price. *)
Lemma unit_price_spec (tour : Tour.t) :
  (unit_price tour == spec_unit_price tour)%Q.
Proof.
  unfold unit_price, spec_unit_price. rewrite PyFacts.or_float_value.
  destruct (Tour.min_price tour); [reflexivity |].
  destruct (Tour.max_price tour); [reflexivity |].
  destruct (Tour.price tour); reflexivity.
Qed.

(** The direct path: a booking made by [book_tour] costs the unit price
    times the passengers. *)
Lemma book_tour_total_price now w s tour_id form :
  bookings_of (world (book_tour now w s tour_id form)) <> bookings_of w ->
  exists tour b,
    ToursRepository.get_by_id (tours_repository w) tour_id = Some tour
    /\ bookings_of (world (book_tour now w s tour_id form)) =
         (bookings_of w ++ [b])%list
    /\ (Booking.total_price b ==
        spec_unit_price tour * inject_Z (Booking.passengers b))%Q.
Proof.
  intros H.
  destruct (book_tour_created now w s tour_id form H)
    as (tour & n & td & uid & Ht & _ & _ & _ & _ & _ & Hb).
  exists tour, (new_booking now w uid tour tour_id td n).
  repeat split; try assumption.
  simpl. now rewrite unit_price_spec.
Qed.

(** C1, at a tour with price range 0 - 50 (so [price] 50, [min_price] 0)
    and two passengers: the unit price is 0 and a logged-in user is
    charged 0 by [book_tour], while the booking that [register_post]
    makes of the same intent is charged [price] times passengers, 100. *)
Theorem C1_deferred_booking_charges_anchor_price :
  let now := Fixtures.at_noon 2025 3 10 in
  let o := register_post Fixtures.hash now Fixtures.world0
             Fixtures.pending
             Fixtures.signup in
  let direct := book_tour now Fixtures.world0 (Fixtures.client 2) 1
                  (mkBookForm (Some "2025-07-01") (Some "2")) in
  ToursRepository.get_by_id (tours_repository Fixtures.world0) 1
  = Some Fixtures.first_tour
  /\ Tour.price Fixtures.first_tour = Some 50%Q
  /\ Tour.min_price Fixtures.first_tour = Some 0%Q
  /\ (spec_unit_price Fixtures.first_tour == 0)%Q
  /\ (exists b, bookings_of (world direct) = [b]
                /\ Booking.passengers b = 2
                /\ (Booking.total_price b == 0)%Q)
  /\ (exists b, bookings_of (world o) = [b]
                /\ Booking.passengers b = 2
                /\ (Booking.total_price b == 100)%Q
                /\ ~ (Booking.total_price b ==
                      spec_unit_price Fixtures.first_tour
                      * inject_Z (Booking.passengers b))%Q).
Proof.
  cbv zeta. repeat split.
  - eexists. repeat split.
  - eexists. split; [reflexivity |]. repeat split. discriminate.
Qed.

End TotalPrice.

(* ================================================================== *)
(** * The travel date of a booking *)

Module TravelDate.
Import Routes RegisterFacts.

(** The window in the words of the testable property:
    [today <= d <= today + 365 days]. *)
Definition spec_date_window (today d : Date.date) : bool :=
  Date.leb today d
  && match Date.add_days 365 today with
     | Some limit => Date.leb d limit
     | None => true
     end.

(** The window of the handlers: from today to the same month and day of
    the next year. *)
Definition in_year_window (today : Date.date) (travel_date : string)
  : Prop :=
  exists d max_future_date,
    Date.strptime travel_date = Some d
    /\ Date.replace_year today (Date.year today + 1) = Some max_future_date
    /\ Date.leb today d = true
    /\ Date.leb d max_future_date = true.

(** C2 as stated fails: on 2023-06-01 a logged-in user books a tour for
    2024-06-01, which is 366 days ahead (2024 is a leap year); today + 365
    days is 2024-05-31. *)
Lemma C2_year_window_exceeds_365_days :
  let today := Date.mkDate 2023 6 1 in
  let o := book_tour (Fixtures.at_noon 2023 6 1) Fixtures.world0
             (Fixtures.client 2) 1
             (mkBookForm (Some "2024-06-01") (Some "1")) in
  bookings_of Fixtures.world0 = []
  /\ (exists b, bookings_of (world o) = [b]
                /\ Booking.travel_date b = "2024-06-01")
  /\ Date.strptime "2024-06-01" = Some (Date.mkDate 2024 6 1)
  /\ Date.add_days 365 today = Some (Date.mkDate 2024 5 31)
  /\ spec_date_window today (Date.mkDate 2024 6 1) = false.
Proof.
  cbv zeta. repeat split. eexists. split; reflexivity.
Qed.

(** C2, amended: [book_tour] and [register_post] add a booking only
    when the travel date parses and lies between today and the same
    month and day of the next year; for any other travel date the list of
    bookings is left as it was. *)
Theorem C2_booking_only_within_a_year
    (generate_password_hash : string -> string)
    (now : DateTime.datetime) (w : World) (s : Session) :
  (forall tour_id form,
      bookings_of (world (book_tour now w s tour_id form)) <> bookings_of w ->
      exists travel_date,
        form_travel_date form = Some travel_date
        /\ in_year_window (DateTime.date now) travel_date)
  /\ (forall form,
        bookings_of (world (register_post generate_password_hash now w s form))
        <> bookings_of w ->
        exists bd,
          booking_data s = Some bd
          /\ in_year_window (DateTime.date now) (bd_travel_date bd)).
Proof.
  split.
  - intros tour_id form H.
    destruct (book_tour_created now w s tour_id form H)
      as (_ & _ & td & _ & _ & _ & _ & Hf & Hd & _).
    exists td. split; [assumption |].
    now apply check_travel_date_ok.
  - intros form H.
    destruct (register_post_cases generate_password_hash now w s form)
      as [(Hw & _) | (pw & _ & _ & _ & Hafter)].
    + rewrite Hw in H. now elim H.
    + destruct Hafter as [ ? ? ? ? Hb | bd ? ? ? ? Hb | bd ? ? ? ? ? ? Hb
                         | bd tour ? ? ? ? ? ? Hb
                         | bd tour price Hbd Hd ? ? ? ? ? Hb ];
        try (rewrite Hb in H; now elim H).
      exists bd. split; [assumption |].
      now apply check_travel_date_ok.
Qed.

Lemma C2_booking_only_within_a_year_witness :
  (exists travel_date,
      form_travel_date (mkBookForm (Some "2024-06-01") (Some "1"))
      = Some travel_date
      /\ in_year_window (Date.mkDate 2023 6 1) travel_date)
  /\ (exists bd,
        booking_data Fixtures.pending = Some bd
        /\ in_year_window (Date.mkDate 2025 3 10) (bd_travel_date bd)).
Proof.
  split.
  - apply (proj1 (C2_booking_only_within_a_year Fixtures.hash
                    (Fixtures.at_noon 2023 6 1) Fixtures.world0
                    (Fixtures.client 2)) 1
                 (mkBookForm (Some "2024-06-01") (Some "1"))).
    vm_compute. discriminate.
  - apply (proj2 (C2_booking_only_within_a_year Fixtures.hash
                    (Fixtures.at_noon 2025 3 10) Fixtures.world0
                    Fixtures.pending) Fixtures.signup).
    vm_compute. discriminate.
Defined.

(** On a 29 February [today.replace(year=today.year + 1)] raises, and a
    request for the following week is answered as a badly formatted date. *)
Example leap_day_refuses_every_date :
  let o := book_tour (Fixtures.at_noon 2024 2 29) Fixtures.world0
             (Fixtures.client 2) 1
             (mkBookForm (Some "2024-03-07") (Some "1")) in
  flashed o = Some travel_date_bad_format /\ world o = Fixtures.world0.
Proof. split; reflexivity. Qed.

End TravelDate.

(* ================================================================== *)
(** * The passenger count of a booking *)

Module Passengers.
Import Routes BookTourFacts.

Lemma book_tour_bad_count now w s tour_id form :
  (read_passengers form = None
   \/ exists n, read_passengers form = Some n /\ (n < 1 \/ 10 < n)) ->
  world (book_tour now w s tour_id form) = w
  /\ session (book_tour now w s tour_id form) = s.
Proof.
  intros H.
  destruct (book_tour_cases now w s tour_id form)
    as [Hsame | (_ & n & _ & _ & Hp & Hn & _)]; [exact Hsame |].
  destruct H as [H | (m & H & Hm)]; rewrite H in Hp.
  - discriminate.
  - injection Hp as ->. lia.
Qed.

(** C5: with a passenger form value [p], [book_tour] adds a booking only
    if [int(p)] succeeds with a value from 1 to 10; a value that is not a
    number, or a number below 1 or above 10, leaves the stores and the
    session as they were. *)
Theorem C5_passengers_between_1_and_10
    (now : DateTime.datetime) (w : World) (s : Session) (tour_id : Z)
    (form : BookForm) (p : string) :
  form_passengers form = Some p ->
  let o := book_tour now w s tour_id form in
  (bookings_of (world o) <> bookings_of w ->
   exists n, Py.int p = Some n /\ 1 <= n <= 10)
  /\ (Py.int p = None -> world o = w /\ session o = s)
  /\ (forall n, Py.int p = Some n -> n < 1 \/ 10 < n ->
                world o = w /\ session o = s).
Proof.
  intros Hp o. subst o.
  assert (Hread : read_passengers form = Py.int p)
    by (unfold read_passengers; now rewrite Hp).
  split; [| split].
  - intros H.
    destruct (book_tour_created now w s tour_id form H)
      as (_ & n & _ & _ & _ & Hn & Hr & _).
    exists n. split; [congruence | assumption].
  - intros Hnone. apply book_tour_bad_count. left. congruence.
  - intros n Hsome Hout.
    apply (book_tour_bad_count now w s tour_id form).
    right. exists n. split; [congruence | assumption].
Qed.

(** The three rejected values of the testable property. *)
Example passengers_0_11_abc :
  Py.int "0" = Some 0 /\ Py.int "11" = Some 11 /\ Py.int "abc" = None.
Proof. repeat split. Qed.

Lemma C5_passengers_between_1_and_10_witness :
  let now := Fixtures.at_noon 2025 3 10 in
  let w := Fixtures.world0 in
  let s := Fixtures.client 2 in
  let form p := mkBookForm (Some "2025-07-01") (Some p) in
  (exists n, Py.int "2" = Some n /\ 1 <= n <= 10)
  /\ world (book_tour now w s 1 (form "11")) = w
  /\ world (book_tour now w s 1 (form "0")) = w
  /\ world (book_tour now w s 1 (form "abc")) = w.
Proof.
  intros now w s form.
  split; [| split; [| split]].
  - apply (proj1 (C5_passengers_between_1_and_10 now w s 1 (form "2") "2"
                    eq_refl)).
    vm_compute. discriminate.
  - apply (proj2 (proj2 (C5_passengers_between_1_and_10 now w s 1
                           (form "11") "11" eq_refl)) 11 eq_refl).
    right. lia.
  - apply (proj2 (proj2 (C5_passengers_between_1_and_10 now w s 1
                           (form "0") "0" eq_refl)) 0 eq_refl).
    left. lia.
  - apply (proj1 (proj2 (C5_passengers_between_1_and_10 now w s 1
                           (form "abc") "abc" eq_refl)) eq_refl).
Defined.

End Passengers.

(* ================================================================== *)
(** * Cancelling a booking *)

Module Cancellation.
Import Routes BookTourFacts.

(** The minimum-cancellable date in the words of the workflow: today with
    day + 3 when today's day of month is at most 28, otherwise day 3 of the
    next month.  The triple is written down as it is, whether or not the
    calendar has such a day. *)
Definition spec_min_cancel_date (today : Date.date) : Date.date :=
  if Date.day today <=? 28
  then Date.mkDate (Date.year today) (Date.month today) (Date.day today + 3)
  else Date.mkDate (Date.year today) (Date.month today + 1) 3.

(** Where [replace] succeeds it returns that triple. *)
Lemma min_cancel_date_spec (today m : Date.date) :
  min_cancel_date today = Some m -> m = spec_min_cancel_date today.
Proof.
  unfold min_cancel_date, spec_min_cancel_date, Date.replace_day,
    Date.replace_month_day, Date.new.
  destruct (Date.day today <=? 28);
    match goal with |- context [Date.valid ?y ?mo ?d] =>
      destruct (Date.valid y mo d) end;
    congruence.
Qed.

Lemma days_in_month_ge_28 (y m : Z) : 28 <= Date.days_in_month y m.
Proof.
  unfold Date.days_in_month.
  destruct (m =? 2); [destruct (Date.is_leap y); lia |].
  destruct ((m =? 4) || (m =? 6) || (m =? 9) || (m =? 11)); lia.
Qed.

(** The days on which [replace] raises: day + 3 is past the end of the
    month, or the month after December is asked for. *)
Lemma min_cancel_date_raises (today : Date.date) :
  Date.valid (Date.year today) (Date.month today) (Date.day today) = true ->
  (min_cancel_date today = None
   <-> (Date.day today <= 28
        /\ Date.days_in_month (Date.year today) (Date.month today)
           < Date.day today + 3)
       \/ (28 < Date.day today /\ Date.month today = 12)).
Proof.
  destruct today as [y m d]. simpl.
  unfold min_cancel_date, Date.replace_day, Date.replace_month_day, Date.new,
    Date.valid, Date.MINYEAR, Date.MAXYEAR. simpl.
  pose proof (days_in_month_ge_28 y (m + 1)) as Hnext.
  intros Hv.
  repeat (apply andb_true_iff in Hv; destruct Hv as [Hv ?]).
  repeat match goal with
         | H : (_ <=? _) = true |- _ => apply Z.leb_le in H
         end.
  destruct (Z.leb_spec d 28) as [Hd | Hd].
  - destruct (Date.days_in_month y m <? d + 3) eqn:E.
    + apply Z.ltb_lt in E.
      replace (d + 3 <=? Date.days_in_month y m) with false
        by (symmetry; apply Z.leb_gt; lia).
      rewrite !andb_false_r. split; [intros _; left; lia | reflexivity].
    + apply Z.ltb_ge in E.
      replace (d + 3 <=? Date.days_in_month y m) with true
        by (symmetry; apply Z.leb_le; lia).
      replace (1 <=? y) with true by (symmetry; apply Z.leb_le; lia).
      replace (y <=? 9999) with true by (symmetry; apply Z.leb_le; lia).
      replace (1 <=? m) with true by (symmetry; apply Z.leb_le; lia).
      replace (m <=? 12) with true by (symmetry; apply Z.leb_le; lia).
      replace (1 <=? d + 3) with true by (symmetry; apply Z.leb_le; lia).
      simpl. split; [discriminate | lia].
  - replace (1 <=? y) with true by (symmetry; apply Z.leb_le; lia).
    replace (y <=? 9999) with true by (symmetry; apply Z.leb_le; lia).
    replace (1 <=? m + 1) with true by (symmetry; apply Z.leb_le; lia).
    replace (3 <=? Date.days_in_month y (m + 1)) with true
      by (symmetry; apply Z.leb_le; lia).
    simpl. rewrite !andb_true_r.
    destruct (Z.leb_spec (m + 1) 12); split;
      try discriminate; try lia; try reflexivity.
Qed.

Lemma cancel_in_missing (booking_id : Z) (l : list Booking.t) :
  find (fun b => Booking.id b =? booking_id) l = None ->
  BookingRepository.cancel_in booking_id l = (false, l).
Proof.
  induction l as [| b rest IH]; simpl; [reflexivity |].
  destruct (Booking.id b =? booking_id); [discriminate |].
  intros H. now rewrite (IH H).
Qed.

Lemma cancel_in_found (booking_id : Z) (l : list Booking.t) (b : Booking.t) :
  find (fun b => Booking.id b =? booking_id) l = Some b ->
  exists l',
    BookingRepository.cancel_in booking_id l = (true, l')
    /\ find (fun b => Booking.id b =? booking_id) l'
       = Some (Booking.set_status b "cancelled").
Proof.
  induction l as [| x rest IH]; simpl; [discriminate |].
  destruct (Booking.id x =? booking_id) eqn:E.
  - intros [= ->]. eexists. split; [reflexivity |].
    simpl. now rewrite E.
  - intros H. destruct (IH H) as (l' & -> & Hf).
    eexists. split; [reflexivity |]. simpl. now rewrite E.
Qed.

(** Every request either leaves the stores as they were, or it is the
    owner's, the minimum-cancellable date exists, the travel date lies
    strictly after it, and the booking's status becomes ["cancelled"]. *)
Lemma cancel_booking_cases now w s booking_id :
  let o := cancel_booking now w s booking_id in
  (world o = w /\ flashed o <> Some booking_cancelled)
  \/ exists b uid d m,
       user_id s = Some uid
       /\ BookingRepository.get_by_id (booking_repository w) booking_id
          = Some b
       /\ Booking.user_id b = uid
       /\ Date.strptime (Booking.travel_date b) = Some d
       /\ min_cancel_date (DateTime.date now) = Some m
       /\ Date.ltb m d = true
       /\ flashed o = Some booking_cancelled
       /\ BookingRepository.get_by_id (booking_repository (world o)) booking_id
          = Some (Booking.set_status b "cancelled").
Proof.
  unfold cancel_booking.
  destruct (Py.truthy_oint (user_id s)) eqn:Hu; simpl;
    [| left; split; [reflexivity | discriminate]].
  destruct (user_id s) as [uid|]; [| discriminate].
  destruct (BookingRepository.get_by_id _ _) as [b|] eqn:Hb;
    [| left; split; [reflexivity | discriminate]].
  destruct (Z.eqb_spec (Booking.user_id b) uid) as [Hown | Hown]; simpl;
    [| left; split; [reflexivity | discriminate]].
  unfold check_cancel.
  destruct (Date.strptime _) as [d|] eqn:Hd;
    [| left; split; [reflexivity | discriminate]].
  destruct (min_cancel_date _) as [m|] eqn:Hm;
    [| left; split; [reflexivity | discriminate]].
  destruct (Date.leb d m) eqn:Hle;
    [left; split; [reflexivity | discriminate] |].
  right. exists b, uid, d, m.
  unfold BookingRepository.get_by_id in Hb.
  destruct (cancel_in_found _ _ _ Hb) as (l' & Hc & Hf).
  unfold BookingRepository.cancel_booking. rewrite Hc. simpl.
  repeat split; try assumption; try reflexivity.
  now apply DateFacts.leb_false_ltb.
Qed.

(** Conversely, the owner's request is carried out whenever the
    minimum-cancellable date exists and the travel date lies after it. *)
Lemma cancel_booking_allowed now w s booking_id b uid d m :
  user_id s = Some uid ->
  uid <> 0 ->
  BookingRepository.get_by_id (booking_repository w) booking_id = Some b ->
  Booking.user_id b = uid ->
  Date.strptime (Booking.travel_date b) = Some d ->
  min_cancel_date (DateTime.date now) = Some m ->
  Date.ltb m d = true ->
  let o := cancel_booking now w s booking_id in
  flashed o = Some booking_cancelled
  /\ BookingRepository.get_by_id (booking_repository (world o)) booking_id
     = Some (Booking.set_status b "cancelled").
Proof.
  intros Hu Hnz Hb Hown Hd Hm Hlt. unfold cancel_booking, check_cancel.
  rewrite Hu, Hb, Hd, Hm, Hown. simpl Py.truthy_oint.
  destruct (Z.eqb_spec uid 0) as [| _]; [contradiction |].
  rewrite Z.eqb_refl. simpl negb. cbv iota.
  destruct (Date.leb d m) eqn:Hle;
    [apply DateFacts.leb_true_ltb in Hle; congruence |].
  unfold BookingRepository.get_by_id in Hb.
  destruct (cancel_in_found _ _ _ Hb) as (l' & Hc & Hf).
  unfold BookingRepository.cancel_booking. rewrite Hc. simpl.
  split; [reflexivity | exact Hf].
Qed.

(** C3, on days whose day + 3 (or month + 1) the calendar does not have.
    On 2025-02-27 and on 2025-12-30 the owner asks to cancel a booking for
    June of the next season: the booking exists, the requester owns it and
    the travel date is strictly after the minimum-cancellable date, yet
    [today.replace] raises [ValueError], the handler reports an error in
    the travel date and the booking stays ["confirmed"]. *)
Theorem C3_cancel_refused_when_replace_raises :
  let b1 := Fixtures.booking 1 2 "2025-01-10" "2025-06-01" in
  let b2 := Fixtures.booking 1 2 "2025-08-01" "2026-06-01" in
  let o1 := cancel_booking (Fixtures.at_noon 2025 2 27)
              (Fixtures.with_booking b1) (Fixtures.client 2) 1 in
  let o2 := cancel_booking (Fixtures.at_noon 2025 12 30)
              (Fixtures.with_booking b2) (Fixtures.client 2) 1 in
  (BookingRepository.get_by_id
     (booking_repository (Fixtures.with_booking b1)) 1 = Some b1
   /\ Booking.user_id b1 = 2
   /\ user_id (Fixtures.client 2) = Some 2
   /\ Date.strptime (Booking.travel_date b1) = Some (Date.mkDate 2025 6 1)
   /\ spec_min_cancel_date (Date.mkDate 2025 2 27) = Date.mkDate 2025 2 30
   /\ Date.ltb (spec_min_cancel_date (Date.mkDate 2025 2 27))
        (Date.mkDate 2025 6 1) = true
   /\ min_cancel_date (Date.mkDate 2025 2 27) = None
   /\ flashed o1 = Some travel_date_error
   /\ world o1 = Fixtures.with_booking b1
   /\ option_map Booking.status
        (BookingRepository.get_by_id (booking_repository (world o1)) 1)
      = Some "confirmed")
  /\ (BookingRepository.get_by_id
        (booking_repository (Fixtures.with_booking b2)) 1 = Some b2
      /\ Date.strptime (Booking.travel_date b2) = Some (Date.mkDate 2026 6 1)
      /\ spec_min_cancel_date (Date.mkDate 2025 12 30) = Date.mkDate 2025 13 3
      /\ Date.ltb (Date.mkDate 2026 1 3) (Date.mkDate 2026 6 1) = true
      /\ min_cancel_date (Date.mkDate 2025 12 30) = None
      /\ flashed o2 = Some travel_date_error
      /\ world o2 = Fixtures.with_booking b2).
Proof.
  cbv zeta. repeat split.
Qed.

(** On a day where the minimum-cancellable date exists the same request
    goes through. *)
Example cancel_on_an_ordinary_day :
  let b1 := Fixtures.booking 1 2 "2025-01-10" "2025-06-01" in
  let o := cancel_booking (Fixtures.at_noon 2025 2 20)
             (Fixtures.with_booking b1) (Fixtures.client 2) 1 in
  flashed o = Some booking_cancelled
  /\ bookings_of (world o) = [Booking.set_status b1 "cancelled"].
Proof. cbv zeta. split; reflexivity. Qed.

End Cancellation.

(* ================================================================== *)
(** * The catalog after a refresh *)

Module Catalog.
Import ToursRepository.


Lemma strptime_empty : Date.strptime "" = None.
Proof. reflexivity. Qed.



Section Refresh.

Variable fetch_events :
  option string -> option string -> option string -> list Event.t.
Variable compose : Event.t -> string.





End Refresh.

(** A source whose two events both start within 30 days of 2025-06-15:
    the filter would drop both, and both stay. *)
Definition soon : list Event.t :=
  [ Fixtures.free_entry; Fixtures.ranged ].

Definition source (city keyword classification_id : option string)
  : list Event.t := soon.


(** With today 2025-06-01 only the event of 2025-03-20 is dropped. *)
Example one_tour_dropped :
  option_map (map Tour.title)
    (_filter_future_ready (Date.mkDate 2025 6 1)
       (_map_events Fixtures.describe soon))
  = Some ["Open Air"].
Proof. reflexivity. Qed.

End Catalog.

(* ================================================================== *)
(** * The price bounds of a search *)

Module PriceFilter.
Import ToursRepository.

(** The price a bound is compared with: the tour's price, 0 when absent. *)
Definition price_or_zero (tour : Tour.t) : Q :=
  match Tour.price tour with
  | Some p => p
  | None => 0%Q
  end.

Lemma price_ge_min_iff (lo : Q) (tour : Tour.t) :
  price_ge_min lo tour = true <-> (lo <= price_or_zero tour)%Q.
Proof.
  unfold price_ge_min, price_or_zero.
  rewrite Qle_bool_iff. now rewrite PyFacts.or_float_value.
Qed.

Lemma price_le_max_iff (hi : Q) (tour : Tour.t) :
  price_le_max hi tour = true <-> (price_or_zero tour <= hi)%Q.
Proof.
  unfold price_le_max, price_or_zero.
  rewrite Qle_bool_iff. now rewrite PyFacts.or_float_value.
Qed.

Lemma filter_duration_incl duration q t :
  In t (filter_duration duration q) -> In t q.
Proof.
  unfold filter_duration. destruct duration; [| trivial].
  rewrite filter_In. tauto.
Qed.

Lemma filter_keyword_incl keyword q t :
  In t (filter_keyword keyword q) -> In t q.
Proof.
  unfold filter_keyword. destruct (Py.truthy_str keyword); [| trivial].
  rewrite filter_In. tauto.
Qed.

(** Without the other parameters only the two price filters act. *)
Lemma price_filters_only (min_price max_price : option Q) (q : list Tour.t) :
  search_filters "" "" min_price max_price None "" q
  = filter_max_price max_price (filter_min_price min_price q).
Proof. reflexivity. Qed.

Definition unpriced : Tour.t :=
  Tour.mk 7 "Walk" "" None "Lviv" "Ukraine" "city" 1 None None None None None
    None None None None None None None None None [].

(** C6 as stated fails for the upper bound: a tour without a price passes
    [max_price] 5 and 0 and fails [max_price] -1, that is, it is compared
    as price 0 there as well as at the lower bound. *)
Lemma C6_absent_price_is_zero_at_upper_bound :
  Tour.price unpriced = None
  /\ search_filters "" "" None (Some 5%Q) None "" [unpriced] = [unpriced]
  /\ search_filters "" "" None (Some 0%Q) None "" [unpriced] = [unpriced]
  /\ search_filters "" "" None (Some (-1)%Q) None "" [unpriced] = []
  /\ search_filters "" "" (Some 0%Q) None None "" [unpriced] = [unpriced]
  /\ search_filters "" "" (Some 1%Q) None None "" [unpriced] = [].
Proof. repeat split. Qed.

(** C6, amended: both price bounds of [search] are inclusive, and a tour
    with an absent price is compared as price 0 at the lower and at the
    upper bound. *)
Theorem C6_price_bounds_inclusive_absent_is_zero
    (lo hi : Q) (q : list Tour.t) (t : Tour.t) :
  (In t (search_filters "" "" (Some lo) None None "" q)
   <-> In t q /\ (lo <= price_or_zero t)%Q)
  /\ (In t (search_filters "" "" None (Some hi) None "" q)
      <-> In t q /\ (price_or_zero t <= hi)%Q)
  /\ (In t (search_filters "" "" (Some lo) (Some hi) None "" q)
      <-> In t q /\ (lo <= price_or_zero t)%Q /\ (price_or_zero t <= hi)%Q)
  /\ (forall location type duration keyword,
        In t (search_filters location type (Some lo) (Some hi) duration
                keyword q) ->
        (lo <= price_or_zero t)%Q /\ (price_or_zero t <= hi)%Q).
Proof.
  rewrite !price_filters_only.
  unfold filter_max_price, filter_min_price.
  split; [| split; [| split]].
  - rewrite filter_In. now rewrite price_ge_min_iff.
  - rewrite filter_In. now rewrite price_le_max_iff.
  - rewrite !filter_In. rewrite price_ge_min_iff, price_le_max_iff.
    tauto.
  - intros location type duration keyword H. unfold search_filters in H.
    apply filter_keyword_incl, filter_duration_incl in H.
    unfold filter_max_price, filter_min_price in H.
    rewrite !filter_In in H.
    rewrite price_ge_min_iff, price_le_max_iff in H. tauto.
Qed.

End PriceFilter.

(* ================================================================== *)
(** * Answering feedback *)

Module FeedbackReply.
Import FeedbackRepository.

Lemma update_first_missing upd (feedback_id : Z) (l : list Feedback.t) :
  find (fun f => Feedback.id f =? feedback_id) l = None ->
  update_first upd feedback_id l = (false, l).
Proof.
  induction l as [| f rest IH]; simpl; [reflexivity |].
  destruct (Feedback.id f =? feedback_id); [discriminate |].
  intros H. now rewrite (IH H).
Qed.

Lemma update_first_found upd (feedback_id : Z) (l : list Feedback.t)
    (f : Feedback.t) :
  (forall x, Feedback.id (upd x) = Feedback.id x) ->
  find (fun f => Feedback.id f =? feedback_id) l = Some f ->
  exists l',
    update_first upd feedback_id l = (true, l')
    /\ find (fun f => Feedback.id f =? feedback_id) l' = Some (upd f).
Proof.
  intros Hid.
  induction l as [| x rest IH]; simpl; [discriminate |].
  destruct (Feedback.id x =? feedback_id) eqn:E.
  - intros [= ->]. eexists. split; [reflexivity |].
    simpl. now rewrite Hid, E.
  - intros H. destruct (IH H) as (l' & -> & Hf).
    eexists. split; [reflexivity |]. simpl. now rewrite E.
Qed.

Lemma strftime_nonempty (now : DateTime.datetime) :
  DateTime.strftime_ymd_hms now <> "".
Proof.
  unfold DateTime.strftime_ymd_hms, DateTime.strftime_ymd,
    DateTime.year_digits.
  destruct (1000 <=? _), (100 <=? _), (10 <=? _); discriminate.
Qed.

(** C7: answering an existing feedback record succeeds, and [get_by_id]
    then returns the record with status ["resolved"] whatever it was
    before, the response text, the admin's id and a non-empty
    [responded_at]; the other fields keep their values.  On an id that
    is not in the store the call returns [False] and the store is as it
    was. *)
Theorem C7_respond_then_get_by_id
    (now : DateTime.datetime) (r : t) (feedback_id : Z)
    (text : string) (admin : Z) :
  (forall f0,
      get_by_id r feedback_id = Some f0 ->
      exists r' f,
        respond_to_feedback now r feedback_id text admin = (true, r')
        /\ get_by_id r' feedback_id = Some f
        /\ Feedback.status f = "resolved"
        /\ Feedback.admin_response f = Some text
        /\ Feedback.admin_id f = Some admin
        /\ (exists stamp, Feedback.responded_at f = Some stamp /\ stamp <> "")
        /\ Feedback.id f = Feedback.id f0
        /\ Feedback.user_id f = Feedback.user_id f0
        /\ Feedback.subject f = Feedback.subject f0
        /\ Feedback.message f = Feedback.message f0
        /\ Feedback.created_at f = Feedback.created_at f0
        /\ Feedback.priority f = Feedback.priority f0
        /\ Feedback.category f = Feedback.category f0)
  /\ (get_by_id r feedback_id = None ->
      respond_to_feedback now r feedback_id text admin = (false, r)).
Proof.
  split.
  - intros f0 H. unfold get_by_id in H.
    destruct (update_first_found (respond text admin now) _ _ _
                (fun x => eq_refl) H) as (l' & Hu & Hf).
    exists (mk l' (_next_id r)), (respond text admin now f0).
    unfold respond_to_feedback. rewrite Hu.
    split; [reflexivity |]. split; [exact Hf |].
    repeat split.
    exists (DateTime.strftime_ymd_hms now).
    split; [reflexivity | apply strftime_nonempty].
  - intros H. unfold get_by_id in H. unfold respond_to_feedback.
    rewrite (update_first_missing _ _ _ H). now destruct r.
Qed.

Definition closed_ticket : Feedback.t :=
  Feedback.mk 1 2 "Refund" "Please refund my booking" "2025-03-01 09:00:00"
    "closed" None None None "high" "booking".

Definition store : t := mk [closed_ticket] 2.

Lemma C7_respond_then_get_by_id_witness :
  (exists r' f,
      respond_to_feedback (Fixtures.at_noon 2025 3 10) store 1 "Done" 1
      = (true, r')
      /\ get_by_id r' 1 = Some f
      /\ Feedback.status f = "resolved"
      /\ Feedback.admin_response f = Some "Done"
      /\ Feedback.admin_id f = Some 1
      /\ Feedback.responded_at f = Some "2025-03-10 12:00:00")
  /\ respond_to_feedback (Fixtures.at_noon 2025 3 10) store 5 "Done" 1
     = (false, store).
Proof.
  pose proof (C7_respond_then_get_by_id (Fixtures.at_noon 2025 3 10) store 1
                "Done" 1) as [Hfound _].
  pose proof (C7_respond_then_get_by_id (Fixtures.at_noon 2025 3 10) store 5
                "Done" 1) as [_ Hmissing].
  split.
  - destruct (Hfound closed_ticket eq_refl)
      as (r' & f & Hr & Hg & Hs & Ha & Hi & _).
    exists r', f. repeat split; try assumption.
    vm_compute in Hr. injection Hr as <-.
    vm_compute in Hg. injection Hg as <-. reflexivity.
  - apply Hmissing. reflexivity.
Defined.

End FeedbackReply.

(* ================================================================== *)
(** * The priority of submitted feedback *)

Module FeedbackPriority.
Import Routes.

Definition feedback_of (w : World) : list Feedback.t :=
  FeedbackRepository._feedback (feedback_repository w).

(** An accepted submission stores the priority field of the form as it
    is, and ["normal"] only when the field is absent. *)
Lemma submit_feedback_stores_form_priority now w s form :
  flashed (submit_feedback now w s form) = Some feedback_sent ->
  exists f,
    feedback_of (world (submit_feedback now w s form))
    = (feedback_of w ++ [f])%list
    /\ Feedback.priority f = form_get (form_priority form) "normal".
Proof.
  unfold submit_feedback.
  destruct (negb (Py.truthy_oint (user_id s))); [discriminate |].
  destruct (user_id s) as [uid|]; [| discriminate].
  destruct (negb (Py.truthy_str _)); [discriminate |].
  destruct (negb (Py.truthy_str _)); [discriminate |].
  destruct (_ >? 200); [discriminate |].
  destruct (_ >? 2000); [discriminate |].
  intros _. eexists. split; reflexivity.
Qed.

Definition bogus : FeedbackForm :=
  mkFeedbackForm (Some "Hello") (Some "A question") None (Some "bogus").

Definition admin_session : Session :=
  mkSession (Some 1) (Some "admin@mikola.com") (Some "admin") None None.

(** C8, at a submission whose priority field is ["bogus"]: the form is
    accepted and the record is stored with priority ["bogus"], which is
    not one of the four priorities.  The admin route that changes a
    priority refuses the same value. *)
Theorem C8_submitted_priority_is_not_checked :
  let now := Fixtures.at_noon 2025 3 10 in
  let o := submit_feedback now Fixtures.world0 (Fixtures.client 2) bogus in
  flashed o = Some feedback_sent
  /\ response o = redirect public_my_feedback
  /\ (exists f, feedback_of (world o) = [f]
                /\ Feedback.priority f = "bogus"
                /\ str_in (Some (Feedback.priority f)) valid_priorities
                   = false)
  /\ (let o' := change_feedback_priority (world o) admin_session 1
                  (Some "bogus") in
      flashed o' = Some priority_invalid /\ world o' = world o).
Proof.
  cbv zeta. repeat split. eexists. repeat split.
Qed.

(** The same form without the field is stored as ["normal"]. *)
Example absent_priority_is_normal :
  let form := mkFeedbackForm (Some "Hello") (Some "A question") None None in
  let o := submit_feedback (Fixtures.at_noon 2025 3 10) Fixtures.world0
             (Fixtures.client 2) form in
  map Feedback.priority (feedback_of (world o)) = ["normal"].
Proof. reflexivity. Qed.

End FeedbackPriority.

(* ================================================================== *)
(** * Registration and the pending booking intent *)

Module Registration.
Import Routes RegisterFacts.

Section Claims.

Variable generate_password_hash : string -> string.

Lemma accepted_unique w form p1 p2 :
  accepted w form p1 -> accepted w form p2 -> p1 = p2.
Proof. intros (H1 & _) (H2 & _). congruence. Qed.

(** C9: [register_post] changes the session's [user_id], [email] or
    [role] only when a booking intent is pending and its travel date
    passes the checks again, and then it sets them to the new user's.
    An accepted registration without a pending intent adds the user,
    leaves the session as it was (so without [user_id] if it had none)
    and redirects to the login page. *)
Theorem C9_registration_logs_in_only_with_valid_intent
    (now : DateTime.datetime) (w : World) (s : Session)
    (form : RegisterForm) :
  let o := register_post generate_password_hash now w s form in
  ((user_id (session o) <> user_id s
    \/ email (session o) <> email s
    \/ role (session o) <> role s) ->
   exists bd,
     booking_data s = Some bd
     /\ check_travel_date (DateTime.date now) (bd_travel_date bd) = date_ok)
  /\ (forall password bd,
        accepted w form password ->
        booking_data s = Some bd ->
        check_travel_date (DateTime.date now) (bd_travel_date bd) = date_ok ->
        user_id (session o)
        = Some (UserRepository._next_id (user_repository w))
        /\ email (session o) = form_email form
        /\ role (session o) = Some "client")
  /\ (forall password,
        accepted w form password ->
        booking_data s = None ->
        users_of (world o)
        = (users_of w
           ++ [new_user generate_password_hash w form password])%list
        /\ session o = s
        /\ (user_id s = None -> user_id (session o) = None)
        /\ response o = redirect auth_login
        /\ flashed o = Some registered_now_log_in).
Proof.
  cbv zeta.
  destruct (register_post_cases generate_password_hash now w s form)
    as [(Hw & Hs & Hno) | (pw & Hacc & Hu & _ & Hafter)].
  - split; [| split].
    + rewrite Hs. intros [H | [H | H]]; now elim H.
    + intros p bd Hp. now elim (Hno p).
    + intros p Hp. now elim (Hno p).
  - split; [| split].
    + intros Hch.
      destruct Hafter as [ ? ? ? Hs ? | bd ? ? ? Hs ? | bd Hbd Hd ? ? ? ? ?
                         | bd tour Hbd Hd ? ? ? ? ?
                         | bd tour price Hbd Hd ? ? ? ? ? ? ].
      * rewrite Hs in Hch. destruct Hch as [K | [K | K]]; now elim K.
      * rewrite Hs in Hch. destruct Hch as [K | [K | K]]; now elim K.
      * now exists bd.
      * now exists bd.
      * now exists bd.
    + intros p bd Hp Hbd Hd.
      destruct Hafter as [ Hn ? ? ? ? | bd' Hbd' Hd' ? ? ?
                         | bd' ? ? ? ? ? Hs ?
                         | bd' tour ? ? ? ? ? Hs ?
                         | bd' tour price ? ? ? ? ? ? Hs ? ];
        try congruence; rewrite Hs; repeat split.
    + intros p Hp Hbd.
      rewrite (accepted_unique _ _ _ _ Hp Hacc).
      destruct Hafter as [ ? Hr Hf Hs ? | bd' ? ? ? ? ? | bd' ? ? ? ? ? ? ?
                         | bd' tour ? ? ? ? ? ? ?
                         | bd' tour price ? ? ? ? ? ? ? ? ];
        try congruence.
      repeat split; try assumption. now rewrite Hs.
Qed.

(** C10, amended: when the pending intent's travel date passes the
    checks again and its [tour_id] is not in the catalog, an accepted
    registration adds the user and reports success with a redirect to
    the login page; no booking is added and the intent stays in the
    session (which by then carries the new user's id). *)
Theorem C10_stale_intent_is_kept
    (now : DateTime.datetime) (w : World) (s : Session)
    (form : RegisterForm) (password : string) (bd : BookingData) :
  accepted w form password ->
  booking_data s = Some bd ->
  check_travel_date (DateTime.date now) (bd_travel_date bd) = date_ok ->
  ToursRepository.get_by_id (tours_repository w) (bd_tour_id bd) = None ->
  let o := register_post generate_password_hash now w s form in
  users_of (world o)
  = (users_of w ++ [new_user generate_password_hash w form password])%list
  /\ response o = redirect auth_login
  /\ flashed o = Some registered_now_log_in
  /\ bookings_of (world o) = bookings_of w
  /\ booking_data (session o) = Some bd
  /\ user_id (session o) = Some (UserRepository._next_id (user_repository w)).
Proof.
  intros Hp Hbd Hd Ht. cbv zeta.
  destruct (register_post_cases generate_password_hash now w s form)
    as [(_ & _ & Hno) | (pw & Hacc & Hu & _ & Hafter)].
  - now elim (Hno password).
  - rewrite (accepted_unique _ _ _ _ Hp Hacc).
    destruct Hafter as [ ? ? ? ? ? | bd' ? ? ? ? ? | bd' ? ? ? Hr Hf Hs Hb
                       | bd' tour ? ? ? ? ? ? ?
                       | bd' tour price ? ? ? ? ? ? ? ? ];
      try congruence.
    rewrite Hs. repeat split; assumption.
Qed.

End Claims.

Definition no_intent_session : Session := Fixtures.anonymous.

Definition stale : BookingData := mkBookingData 99 "2025-07-01" 2.

Definition stale_session : Session :=
  set_booking_data Fixtures.anonymous (Some stale).

Lemma accepted_signup : accepted Fixtures.world0 Fixtures.signup "secret1".
Proof. repeat split. discriminate. Defined.

(** The password is measured in characters, not in bytes: three Cyrillic
    letters (six bytes) are refused as too short and nothing is stored;
    six letters are accepted. *)
Example password_length_in_characters :
  let o := register_post Fixtures.hash (Fixtures.at_noon 2025 3 10)
             Fixtures.world0 Fixtures.anonymous
             (Fixtures.signup_with "пар") in
  Py.len "пар" = 3
  /\ flashed o = Some password_too_short
  /\ world o = Fixtures.world0
  /\ (forall password,
        ~ accepted Fixtures.world0 (Fixtures.signup_with "пар") password)
  /\ accepted Fixtures.world0 (Fixtures.signup_with "пароль") "пароль".
Proof.
  cbv zeta. split; [vm_compute; reflexivity |].
  split; [vm_compute; reflexivity |]. split; [vm_compute; reflexivity |].
  split.
  - intros password (H1 & _ & H3 & _). cbn in H1. injection H1 as <-.
    vm_compute in H3. now apply H3.
  - split; [reflexivity |]. split; [reflexivity |].
    split; [vm_compute; discriminate | vm_compute; reflexivity].
Qed.

(** C10 as stated fails: the travel date of the intent is checked before
    its tour is looked up.  An intent for tour 99, which is not in the
    catalog, with travel date 2025-07-01 is pending when the visitor
    registers on 2025-08-01.  The form is accepted and the user is added,
    but the answer is the error for a date in the past and a redirect to
    the home page, the intent is removed from the session and nobody is
    logged in. *)
Lemma C10_stale_intent_with_past_date_is_removed :
  let o := register_post Fixtures.hash (Fixtures.at_noon 2025 8 1)
             Fixtures.world0 stale_session Fixtures.signup in
  accepted Fixtures.world0 Fixtures.signup "secret1"
  /\ booking_data stale_session = Some stale
  /\ ToursRepository.get_by_id (tours_repository Fixtures.world0)
       (bd_tour_id stale) = None
  /\ users_of (world o)
     = (users_of Fixtures.world0
        ++ [new_user Fixtures.hash Fixtures.world0 Fixtures.signup
              "secret1"])%list
  /\ bookings_of (world o) = []
  /\ response o = redirect public_home
  /\ flashed o = Some travel_date_in_past
  /\ booking_data (session o) = None
  /\ user_id (session o) = None.
Proof.
  cbv zeta. split; [exact accepted_signup |].
  repeat (split; [vm_compute; reflexivity |]). vm_compute; reflexivity.
Qed.

Lemma C9_registration_logs_in_only_with_valid_intent_witness :
  let now := Fixtures.at_noon 2025 3 10 in
  (exists bd,
      booking_data Fixtures.pending = Some bd
      /\ check_travel_date (Date.mkDate 2025 3 10) (bd_travel_date bd)
         = date_ok)
  /\ session (register_post Fixtures.hash now Fixtures.world0
                no_intent_session Fixtures.signup)
     = no_intent_session.
Proof.
  intros now. split.
  - apply (proj1 (C9_registration_logs_in_only_with_valid_intent
                    Fixtures.hash now Fixtures.world0 Fixtures.pending
                    Fixtures.signup)).
    left. vm_compute. discriminate.
  - apply (proj2 (proj2 (C9_registration_logs_in_only_with_valid_intent
                           Fixtures.hash now Fixtures.world0
                           no_intent_session Fixtures.signup))
             "secret1" accepted_signup eq_refl).
Defined.

Lemma C10_stale_intent_is_kept_witness :
  let o := register_post Fixtures.hash (Fixtures.at_noon 2025 3 10)
             Fixtures.world0 stale_session Fixtures.signup in
  response o = redirect auth_login
  /\ bookings_of (world o) = []
  /\ booking_data (session o) = Some stale.
Proof.
  pose proof (C10_stale_intent_is_kept Fixtures.hash
                (Fixtures.at_noon 2025 3 10) Fixtures.world0 stale_session
                Fixtures.signup "secret1" stale accepted_signup eq_refl
                eq_refl eq_refl) as (_ & Hr & _ & Hb & Hs & _).
  cbv zeta. split; [exact Hr |]. split; [exact Hb | exact Hs].
Defined.

End Registration.

(* ================================================================== *)
(** * The booking store under the handlers *)

Module BookingStore.
Import Routes BookTourFacts RegisterFacts.

(** Ids are distinct and below the counter. *)
Definition fresh (r : BookingRepository.t) : Prop :=
  NoDup (map Booking.id (BookingRepository._bookings r))
  /\ Forall (fun b => Booking.id b < BookingRepository._next_id r)
       (BookingRepository._bookings r).

(** How a handler can leave the store: as it was, with the counter
    advanced, or with the counter advanced and a booking with the old
    counter as id appended. *)
Inductive step (r r' : BookingRepository.t) : Prop :=
| step_same : r' = r -> step r r'
| step_skip :
    r' = BookingRepository.mk (BookingRepository._bookings r)
           (BookingRepository._next_id r + 1) ->
    step r r'
| step_append (b : Booking.t) :
    Booking.id b = BookingRepository._next_id r ->
    r' = BookingRepository.mk (BookingRepository._bookings r ++ [b])
           (BookingRepository._next_id r + 1) ->
    step r r'.

Lemma fresh_step (r r' : BookingRepository.t) :
  fresh r -> step r r' -> fresh r'.
Proof.
  intros [Hnd Hlt] [-> | -> | b Hb ->]; [now split | |]; split; simpl.
  - exact Hnd.
  - eapply Forall_impl; [| exact Hlt]. simpl. intros; lia.
  - rewrite map_app. simpl.
    apply NoDup_app; [exact Hnd | repeat constructor; now intros [] |].
    intros x Hx [<- | []]. apply in_map_iff in Hx.
    destruct Hx as (y & Hy & Hin).
    rewrite Forall_forall in Hlt. specialize (Hlt y Hin). lia.
  - apply Forall_app. split.
    + eapply Forall_impl; [| exact Hlt]. simpl. intros; lia.
    + repeat constructor. lia.
Qed.

Lemma book_tour_step now w s tour_id form :
  step (booking_repository w)
    (booking_repository (world (book_tour now w s tour_id form))).
Proof.
  unfold book_tour.
  destruct (ToursRepository.get_by_id _ _) as [tour|]; [| now apply step_same].
  destruct (match form_passengers form with
            | Some p => Py.int p | None => Some 1 end) as [n|];
    [| now apply step_same].
  destruct ((n <? 1) || (n >? 10)); [now apply step_same |].
  destruct (form_travel_date form) as [td|]; [| now apply step_same].
  destruct (negb (Py.truthy_str td)); [now apply step_same |].
  destruct (check_travel_date _ td); try (now apply step_same).
  destruct (negb (Py.truthy_oint (user_id s))); [now apply step_same |].
  destruct (user_id s) as [uid|]; [| now apply step_same].
  simpl. eapply step_append; [| reflexivity]. reflexivity.
Qed.

Lemma register_post_step hash now w s form :
  step (booking_repository w)
    (booking_repository (world (register_post hash now w s form))).
Proof.
  unfold register_post.
  destruct (negb (UserRepository.ostr_eqb _ _)); [now apply step_same |].
  destruct (form_password form) as [pw|]; [| now apply step_same].
  destruct (_ <? 6); [now apply step_same |].
  destruct (UserRepository.get_by_email _ _); [now apply step_same |].
  simpl.
  destruct (booking_data s) as [bd|]; [| now apply step_same].
  destruct (check_travel_date _ _); try (now apply step_same).
  simpl.
  destruct (ToursRepository.get_by_id _ _) as [tour|];
    [| now apply step_same].
  destruct (Tour.price tour) as [price|]; simpl.
  - eapply step_append; [| reflexivity]. reflexivity.
  - now apply step_skip.
Qed.

Lemma cancel_in_ids (booking_id : Z) (l : list Booking.t) :
  map Booking.id (snd (BookingRepository.cancel_in booking_id l))
  = map Booking.id l.
Proof.
  induction l as [| b rest IH]; simpl; [reflexivity |].
  destruct (Booking.id b =? booking_id); [reflexivity |].
  destruct (BookingRepository.cancel_in booking_id rest) as [ok rest'].
  simpl in *. now rewrite IH.
Qed.

Lemma Forall_by_id (P : Z -> Prop) (l l' : list Booking.t) :
  map Booking.id l' = map Booking.id l ->
  Forall (fun b => P (Booking.id b)) l ->
  Forall (fun b => P (Booking.id b)) l'.
Proof.
  intros Hm H.
  rewrite <- (Forall_map Booking.id P) in *. now rewrite Hm.
Qed.

Lemma cancel_booking_repo_fresh (r : BookingRepository.t) (booking_id : Z) :
  fresh r -> fresh (snd (BookingRepository.cancel_booking r booking_id)).
Proof.
  intros [Hnd Hlt]. unfold BookingRepository.cancel_booking.
  pose proof (cancel_in_ids booking_id (BookingRepository._bookings r)) as Hm.
  destruct (BookingRepository.cancel_in _ _) as [ok l]. simpl in *.
  split; simpl.
  - now rewrite Hm.
  - apply (Forall_by_id (fun i => i < BookingRepository._next_id r) _ _ Hm Hlt).
Qed.

Lemma cancel_booking_world now w s booking_id :
  booking_repository (world (cancel_booking now w s booking_id))
  = booking_repository w
  \/ booking_repository (world (cancel_booking now w s booking_id))
     = snd (BookingRepository.cancel_booking (booking_repository w)
              booking_id).
Proof.
  unfold cancel_booking.
  destruct (negb (Py.truthy_oint (user_id s))); [now left |].
  destruct (BookingRepository.get_by_id _ _) as [b|]; [| now left].
  destruct (negb _); [now left |].
  destruct (check_cancel _ _); try (now left).
  right.
  destruct (BookingRepository.cancel_booking _ _) as [ok repo]. reflexivity.
Qed.

(** X1: booking ids stay distinct and below the counter under the three
    handlers that touch the booking store. *)
Theorem booking_ids_stay_fresh
    (generate_password_hash : string -> string)
    (now : DateTime.datetime) (w : World) (s : Session) :
  fresh (booking_repository w) ->
  (forall tour_id form,
      fresh (booking_repository (world (book_tour now w s tour_id form))))
  /\ (forall form,
        fresh (booking_repository
                 (world (register_post generate_password_hash now w s form))))
  /\ (forall booking_id,
        fresh (booking_repository
                 (world (cancel_booking now w s booking_id)))).
Proof.
  intros Hf. split; [| split].
  - intros. eapply fresh_step; [exact Hf | apply book_tour_step].
  - intros. eapply fresh_step; [exact Hf | apply register_post_step].
  - intros booking_id.
    destruct (cancel_booking_world now w s booking_id) as [-> | ->].
    + exact Hf.
    + now apply cancel_booking_repo_fresh.
Qed.

Lemma fresh_world0 : fresh (booking_repository Fixtures.world0).
Proof. split; constructor. Defined.

Lemma booking_ids_stay_fresh_witness :
  fresh (booking_repository
           (world (book_tour (Fixtures.at_noon 2025 3 10) Fixtures.world0
                     (Fixtures.client 2) 1
                     (mkBookForm (Some "2025-07-01") (Some "2"))))).
Proof.
  apply (proj1 (booking_ids_stay_fresh Fixtures.hash
                  (Fixtures.at_noon 2025 3 10) Fixtures.world0
                  (Fixtures.client 2) fresh_world0)).
Defined.

End BookingStore.

(* ================================================================== *)
(** * Looking bookings up *)

Module BookingLookup.
Import Routes BookTourFacts.

Lemma find_app_old {A : Type} (p : A -> bool) (l : list A) (x y : A) :
  find p l = Some y -> find p (l ++ [x]) = Some y.
Proof.
  induction l as [| a l IH]; simpl; [discriminate |].
  destruct (p a); [trivial | exact IH].
Qed.

Lemma find_app_new {A : Type} (p : A -> bool) (l : list A) (x : A) :
  Forall (fun a => p a = false) l -> p x = true ->
  find p (l ++ [x]) = Some x.
Proof.
  induction 1 as [| a l Ha _ IH]; simpl; intros Hx.
  - now rewrite Hx.
  - rewrite Ha. now apply IH.
Qed.

Lemma find_app_none {A : Type} (p : A -> bool) (l : list A) (x : A) :
  find p l = None -> p x = false -> find p (l ++ [x]) = None.
Proof.
  induction l as [| a l IH]; simpl; intros H Hx.
  - now rewrite Hx.
  - destruct (p a); [discriminate | now apply IH].
Qed.

(** X2: with ids below the counter, the booking that [book_tour] adds is
    the one [get_by_id] and the confirmation page return for the new id,
    and every booking that could be looked up before still is. *)
Theorem booked_then_confirmation_page now w s tour_id form :
  BookingStore.fresh (booking_repository w) ->
  bookings_of (world (book_tour now w s tour_id form)) <> bookings_of w ->
  let w' := world (book_tour now w s tour_id form) in
  let new_id := BookingRepository._next_id (booking_repository w) in
  exists tour b,
    ToursRepository.get_by_id (tours_repository w) tour_id = Some tour
    /\ BookingRepository.get_by_id (booking_repository w') new_id = Some b
    /\ Booking.id b = new_id
    /\ Booking.tour_id b = tour_id
    /\ user_id s = Some (Booking.user_id b)
    /\ Booking.status b = "confirmed"
    /\ 1 <= Booking.passengers b <= 10
    /\ Account.booking_confirmation w' new_id
       = Account.show_booking (Some tour) b
           (UserRepository.get_by_id (user_repository w) (Booking.user_id b))
           (Booking.passengers b)
    /\ (forall id old,
           BookingRepository.get_by_id (booking_repository w) id = Some old ->
           BookingRepository.get_by_id (booking_repository w') id = Some old).
Proof.
  intros [_ Hlt] Hch. cbv zeta.
  destruct (book_tour_created now w s tour_id form Hch)
    as (tour & n & td & uid & Ht & _ & Hn & _ & _ & Hu & Hb).
  destruct (book_tour_cases now w s tour_id form)
    as [[Hw _] | (tour' & n' & td' & _ & _ & _ & _ & _ & Hcase)];
    [rewrite Hw in Hch; now elim Hch |].
  destruct Hcase as [(_ & Hw & _) | (uid' & _ & _ & Htours & _)];
    [rewrite Hw in Hch; now elim Hch |].
  set (b := new_booking now w uid tour tour_id td n) in *.
  assert (Hfind :
    BookingRepository.get_by_id
      (booking_repository (world (book_tour now w s tour_id form)))
      (BookingRepository._next_id (booking_repository w)) = Some b).
  { unfold BookingRepository.get_by_id.
    unfold bookings_of in Hb. rewrite Hb.
    apply find_app_new; [| apply Z.eqb_refl].
    eapply Forall_impl; [| exact Hlt]. simpl. intros a Ha.
    apply Z.eqb_neq. lia. }
  assert (Husers :
    user_repository (world (book_tour now w s tour_id form))
    = user_repository w).
  { clear. unfold book_tour.
    repeat match goal with
           | |- context [match ?x with _ => _ end] => destruct x
           end; reflexivity. }
  exists tour, b. repeat split; try assumption; try apply Hn.
  - unfold Account.booking_confirmation. rewrite Hfind, Htours, Husers.
    simpl. now rewrite Ht.
  - intros id old Hold. unfold BookingRepository.get_by_id in *.
    unfold bookings_of in Hb. rewrite Hb. now apply find_app_old.
Qed.

Lemma booked_then_confirmation_page_witness :
  exists tour b,
    ToursRepository.get_by_id (tours_repository Fixtures.world0) 1 = Some tour
    /\ BookingRepository.get_by_id
         (booking_repository
            (world (book_tour (Fixtures.at_noon 2025 3 10) Fixtures.world0
                      (Fixtures.client 2) 1
                      (mkBookForm (Some "2025-07-01") (Some "2"))))) 1
       = Some b
    /\ Booking.id b = 1.
Proof.
  destruct (booked_then_confirmation_page (Fixtures.at_noon 2025 3 10)
              Fixtures.world0 (Fixtures.client 2) 1
              (mkBookForm (Some "2025-07-01") (Some "2"))
              BookingStore.fresh_world0 ltac:(vm_compute; discriminate))
    as (tour & b & Ht & Hb & Hid & _).
  exists tour, b. split; [exact Ht |]. split; [exact Hb | exact Hid].
Defined.

End BookingLookup.

(* ================================================================== *)
(** * Cancelling, again and around *)

Module CancelFacts.
Import Routes BookTourFacts.

Lemma cancel_in_twice (booking_id : Z) (l : list Booking.t) :
  BookingRepository.cancel_in booking_id
    (snd (BookingRepository.cancel_in booking_id l))
  = BookingRepository.cancel_in booking_id l.
Proof.
  induction l as [| b rest IH]; simpl; [reflexivity |].
  destruct (Booking.id b =? booking_id) eqn:E; simpl.
  - now rewrite E.
  - destruct (BookingRepository.cancel_in booking_id rest) as [ok rest'].
    simpl in *. rewrite E. now rewrite IH.
Qed.

Lemma cancel_booking_twice (r : BookingRepository.t) (booking_id : Z) :
  BookingRepository.cancel_booking
    (snd (BookingRepository.cancel_booking r booking_id)) booking_id
  = BookingRepository.cancel_booking r booking_id.
Proof.
  unfold BookingRepository.cancel_booking.
  pose proof (cancel_in_twice booking_id (BookingRepository._bookings r)) as H.
  destruct (BookingRepository.cancel_in booking_id
              (BookingRepository._bookings r)) as [ok l].
  simpl in *. now rewrite H.
Qed.

Lemma cancel_booking_session now w s booking_id :
  session (cancel_booking now w s booking_id) = s.
Proof.
  unfold cancel_booking.
  destruct (negb (Py.truthy_oint (user_id s))); [reflexivity |].
  destruct (BookingRepository.get_by_id _ _) as [b|]; [| reflexivity].
  destruct (negb _); [reflexivity |].
  destruct (check_cancel _ _); try reflexivity.
  now destruct (BookingRepository.cancel_booking _ _).
Qed.

Lemma cancel_booking_success now w s booking_id :
  flashed (cancel_booking now w s booking_id) = Some booking_cancelled ->
  Py.truthy_oint (user_id s) = true
  /\ world (cancel_booking now w s booking_id)
     = with_bookings w
         (snd (BookingRepository.cancel_booking (booking_repository w)
                 booking_id)).
Proof.
  unfold cancel_booking.
  destruct (Py.truthy_oint (user_id s)); simpl; [| discriminate].
  destruct (BookingRepository.get_by_id _ _) as [b|]; [| discriminate].
  destruct (negb _); [discriminate |].
  destruct (check_cancel _ _); try discriminate.
  destruct (BookingRepository.cancel_booking _ _) as [ok repo].
  simpl. now split.
Qed.

(** X3: the cancel route does not look at the status.  A request that
    was carried out can be sent again by the same user at the same
    time: it is answered as a success once more and changes nothing. *)
Theorem cancel_route_twice now w s booking_id :
  let o := cancel_booking now w s booking_id in
  flashed o = Some booking_cancelled ->
  let o' := cancel_booking now (world o) (session o) booking_id in
  flashed o' = Some booking_cancelled
  /\ world o' = world o
  /\ session o' = s.
Proof.
  cbv zeta. intros Hfl.
  destruct (cancel_booking_success _ _ _ _ Hfl) as [Htr Hw].
  rewrite cancel_booking_session.
  destruct (Cancellation.cancel_booking_cases now w s booking_id)
    as [[_ Hno] | (b & uid & d & m & Hu & Hb & Hown & Hd & Hm & Hlt & _ & Hb')];
    [now elim Hno |].
  assert (Hnz : uid <> 0).
  { rewrite Hu in Htr. simpl in Htr. intros ->. discriminate. }
  destruct (Cancellation.cancel_booking_allowed now
              (world (cancel_booking now w s booking_id)) s booking_id
              (Booking.set_status b "cancelled") uid d m
              Hu Hnz Hb' Hown Hd Hm Hlt) as [Hfl' _].
  split; [exact Hfl' |]. split; [| apply cancel_booking_session].
  destruct (cancel_booking_success _ _ _ _ Hfl') as [_ Hw'].
  rewrite Hw'. rewrite Hw at 1 2. simpl.
  rewrite cancel_booking_twice. now rewrite Hw.
Qed.

Lemma cancel_route_twice_witness :
  let b1 := Fixtures.booking 1 2 "2025-01-10" "2025-06-01" in
  let now := Fixtures.at_noon 2025 2 20 in
  let o := cancel_booking now (Fixtures.with_booking b1) (Fixtures.client 2)
             1 in
  bookings_of (world (cancel_booking now (world o) (session o) 1))
  = [Booking.set_status b1 "cancelled"].
Proof.
  intros b1 now o. subst o.
  rewrite (proj1 (proj2 (cancel_route_twice now (Fixtures.with_booking b1)
                           (Fixtures.client 2) 1 eq_refl))).
  reflexivity.
Defined.

(** Position by position, cancelling keeps a booking or changes its
    status. *)
Lemma cancel_in_pointwise (booking_id : Z) (l : list Booking.t) :
  Forall2 (fun b b' => b' = b \/ (Booking.id b = booking_id
                                  /\ b' = Booking.set_status b "cancelled"))
    l (snd (BookingRepository.cancel_in booking_id l)).
Proof.
  induction l as [| b rest IH]; simpl; [constructor |].
  destruct (Booking.id b =? booking_id) eqn:E; simpl.
  - constructor.
    + right. split; [now apply Z.eqb_eq | reflexivity].
    + clear. induction rest; constructor; auto.
  - destruct (BookingRepository.cancel_in booking_id rest) as [ok rest'].
    simpl in *. constructor; [now left | exact IH].
Qed.

Lemma cancel_in_other (booking_id other : Z) (l : list Booking.t) :
  other <> booking_id ->
  find (fun b => Booking.id b =? other)
    (snd (BookingRepository.cancel_in booking_id l))
  = find (fun b => Booking.id b =? other) l.
Proof.
  intros Hne. induction l as [| b rest IH]; simpl; [reflexivity |].
  destruct (Z.eqb_spec (Booking.id b) booking_id) as [Heq | Hneq]; simpl.
  - rewrite Heq. destruct (Z.eqb_spec booking_id other); [congruence |].
    reflexivity.
  - destruct (BookingRepository.cancel_in booking_id rest) as [ok rest'].
    simpl in *. now rewrite IH.
Qed.

(** X4: [BookingRepository.cancel_booking] never removes, adds, reorders
    or renumbers a booking: the counter and every other id's lookup are
    as before, each position holds the same booking or the same booking
    with status ["cancelled"], and the result is [True] exactly when the
    id was in the store. *)
Theorem cancel_booking_changes_one_status
    (r : BookingRepository.t) (booking_id : Z) :
  let ok := fst (BookingRepository.cancel_booking r booking_id) in
  let r' := snd (BookingRepository.cancel_booking r booking_id) in
  BookingRepository._next_id r' = BookingRepository._next_id r
  /\ Forall2 (fun b b' =>
                b' = b \/ (Booking.id b = booking_id
                           /\ b' = Booking.set_status b "cancelled"))
       (BookingRepository._bookings r) (BookingRepository._bookings r')
  /\ (forall other, other <> booking_id ->
        BookingRepository.get_by_id r' other
        = BookingRepository.get_by_id r other)
  /\ (ok = true <-> BookingRepository.get_by_id r booking_id <> None)
  /\ (ok = false -> r' = r).
Proof.
  cbv zeta. unfold BookingRepository.cancel_booking,
    BookingRepository.get_by_id.
  pose proof (cancel_in_pointwise booking_id (BookingRepository._bookings r))
    as Hp.
  pose proof (fun o => cancel_in_other booking_id o
                         (BookingRepository._bookings r)) as Ho.
  destruct (find (fun b => Booking.id b =? booking_id)
              (BookingRepository._bookings r)) as [b|] eqn:Hf.
  - destruct (Cancellation.cancel_in_found _ _ _ Hf) as (l' & Hc & _).
    rewrite Hc in *. simpl in *.
    repeat split; try assumption; try discriminate.
  - rewrite (Cancellation.cancel_in_missing _ _ Hf) in *. simpl in *.
    repeat split; try assumption; try discriminate.
    + intros H. now elim H.
    + now destruct r.
Qed.

(** X5: with distinct ids, a cancelled booking leaves the list of
    confirmed bookings of its tour and every other entry of that list
    stays, in order. *)
Theorem cancelled_leaves_confirmed_list
    (r : BookingRepository.t) (booking_id tour_id : Z) :
  NoDup (map Booking.id (BookingRepository._bookings r)) ->
  BookingRepository.get_by_id r booking_id <> None ->
  let r' := snd (BookingRepository.cancel_booking r booking_id) in
  BookingRepository.get_confirmed_bookings_for_tour r' tour_id
  = filter (fun b => negb (Booking.id b =? booking_id))
      (BookingRepository.get_confirmed_bookings_for_tour r tour_id).
Proof.
  unfold BookingRepository.cancel_booking,
    BookingRepository.get_confirmed_bookings_for_tour,
    BookingRepository.get_by_id.
  destruct r as [l n]. simpl. intros Hnd Hin.
  set (p := fun b => (Booking.tour_id b =? tour_id)
                     && String.eqb (Booking.status b) "confirmed").
  assert (H : snd (BookingRepository.cancel_in booking_id l)
              = snd (BookingRepository.cancel_in booking_id l)) by reflexivity.
  destruct (BookingRepository.cancel_in booking_id l) as [ok l'] eqn:Hc.
  simpl. clear H.
  revert ok l' Hc Hnd Hin.
  induction l as [| b rest IH]; simpl; intros ok l' Hc Hnd Hin;
    [now elim Hin |].
  inversion Hnd as [| x xs Hnotin Hnd' ]; subst.
  destruct (Z.eqb_spec (Booking.id b) booking_id) as [Heq | Hneq].
  - injection Hc as <- <-. simpl.
    replace (p (Booking.set_status b "cancelled")) with false
      by (unfold p; simpl; now rewrite andb_false_r).
    assert (Hrest : filter (fun b0 => negb (Booking.id b0 =? booking_id))
                      (filter p rest) = filter p rest).
    { clear - Hnotin Heq. induction rest as [| c rest IH]; [reflexivity |].
      simpl. simpl in Hnotin.
      assert (Hc : Booking.id c <> booking_id) by (intros E; apply Hnotin;
                                                   left; congruence).
      destruct (p c); simpl.
      - apply Z.eqb_neq in Hc. rewrite Hc. simpl. f_equal.
        apply IH. tauto.
      - apply IH. tauto. }
    destruct (p b); simpl.
    + apply Z.eqb_eq in Heq. rewrite Heq. simpl. now rewrite Hrest.
    + now rewrite Hrest.
  - destruct (BookingRepository.cancel_in booking_id rest) as [ok' rest']
      eqn:Hc'.
    injection Hc as <- <-. simpl.
    specialize (IH ok' rest' eq_refl Hnd' Hin).
    destruct (p b); simpl.
    + apply Z.eqb_neq in Hneq. rewrite Hneq. simpl. now rewrite IH.
    + exact IH.
Qed.

Lemma cancelled_leaves_confirmed_list_witness :
  let b1 := Fixtures.booking 1 2 "2025-01-10" "2025-06-01" in
  BookingRepository.get_confirmed_bookings_for_tour
    (snd (BookingRepository.cancel_booking
            (booking_repository (Fixtures.with_booking b1)) 1)) 1
  = [].
Proof.
  intros b1.
  rewrite (cancelled_leaves_confirmed_list
             (booking_repository (Fixtures.with_booking b1)) 1 1).
  - reflexivity.
  - simpl. repeat constructor. now intros [].
  - discriminate.
Defined.

End CancelFacts.

(* ================================================================== *)
(** * Replacing a booking, listing one's bookings *)

Module BookingViews.
Import Routes BookTourFacts.

Lemma update_in_found (booking : Booking.t) (l : list Booking.t) :
  find (fun b => Booking.id b =? Booking.id booking) l <> None ->
  fst (BookingRepository.update_in booking l) = true
  /\ find (fun b => Booking.id b =? Booking.id booking)
       (snd (BookingRepository.update_in booking l)) = Some booking.
Proof.
  induction l as [| x rest IH]; simpl; [intros H; now elim H |].
  destruct (Booking.id x =? Booking.id booking) eqn:E; simpl.
  - intros _. now rewrite Z.eqb_refl.
  - intros H. destruct (IH H) as [Hok Hf].
    destruct (BookingRepository.update_in booking rest) as [ok rest'].
    simpl in *. now rewrite E.
Qed.

Lemma update_in_missing (booking : Booking.t) (l : list Booking.t) :
  find (fun b => Booking.id b =? Booking.id booking) l = None ->
  BookingRepository.update_in booking l = (false, l).
Proof.
  induction l as [| x rest IH]; simpl; [reflexivity |].
  destruct (Booking.id x =? Booking.id booking); [discriminate |].
  intros H. now rewrite (IH H).
Qed.

Lemma update_in_other (booking : Booking.t) (other : Z) (l : list Booking.t) :
  other <> Booking.id booking ->
  find (fun b => Booking.id b =? other)
    (snd (BookingRepository.update_in booking l))
  = find (fun b => Booking.id b =? other) l.
Proof.
  intros Hne. induction l as [| x rest IH]; simpl; [reflexivity |].
  destruct (Z.eqb_spec (Booking.id x) (Booking.id booking)) as [Heq | Hneq];
    simpl.
  - rewrite Heq. destruct (Z.eqb_spec (Booking.id booking) other);
      [congruence | reflexivity].
  - destruct (BookingRepository.update_in booking rest) as [ok rest'].
    simpl in *. now rewrite IH.
Qed.

(** X6: [update_booking] succeeds exactly when the id of the given
    booking is in the store; then [get_by_id] returns the given booking
    for that id, and in both cases every other id is looked up as
    before; a failed update leaves the store as it was. *)
Theorem update_booking_then_get_by_id
    (r : BookingRepository.t) (booking : Booking.t) :
  let ok := fst (BookingRepository.update_booking r booking) in
  let r' := snd (BookingRepository.update_booking r booking) in
  (ok = true
   <-> BookingRepository.get_by_id r (Booking.id booking) <> None)
  /\ (ok = true ->
      BookingRepository.get_by_id r' (Booking.id booking) = Some booking)
  /\ (ok = false -> r' = r)
  /\ (forall other, other <> Booking.id booking ->
        BookingRepository.get_by_id r' other
        = BookingRepository.get_by_id r other)
  /\ BookingRepository._next_id r' = BookingRepository._next_id r.
Proof.
  cbv zeta. unfold BookingRepository.update_booking,
    BookingRepository.get_by_id.
  pose proof (fun o => update_in_other booking o
                         (BookingRepository._bookings r)) as Ho.
  destruct (find (fun b => Booking.id b =? Booking.id booking)
              (BookingRepository._bookings r)) as [b|] eqn:Hf.
  - destruct (update_in_found booking (BookingRepository._bookings r))
      as [Hok Hnew]; [congruence |].
    destruct (BookingRepository.update_in booking _) as [ok l].
    simpl in *. subst ok.
    repeat split; try assumption; try discriminate; auto.
  - rewrite (update_in_missing _ _ Hf) in *. simpl in *.
    repeat split; try assumption; try discriminate.
    + intros H. now elim H.
    + now destruct r.
Qed.

Lemma book_tour_changed_logged_in now w s tour_id form :
  bookings_of (world (book_tour now w s tour_id form)) <> bookings_of w ->
  Py.truthy_oint (user_id s) = true.
Proof.
  intros Hch. destruct (Py.truthy_oint (user_id s)) eqn:Hu; [reflexivity |].
  elim Hch. unfold book_tour.
  repeat match goal with
         | |- context [match ?x with _ => _ end] =>
             lazymatch x with
             | negb (Py.truthy_oint (user_id s)) => rewrite Hu; simpl
             | _ => destruct x
             end
         end; reflexivity.
Qed.

Definition row (w : World) (b : Booking.t) : Booking.t * option Tour.t :=
  (b, ToursRepository.get_by_id (tours_repository w) (Booking.tour_id b)).

(** X7: a user's page of bookings lists only that user's bookings, and
    right after a booking by [book_tour] it is the page from before with
    the new booking and its tour appended. *)
Theorem my_bookings_after_booking now w s tour_id form :
  bookings_of (world (book_tour now w s tour_id form)) <> bookings_of w ->
  let o := book_tour now w s tour_id form in
  exists uid tour b rows,
    user_id s = Some uid
    /\ ToursRepository.get_by_id (tours_repository w) tour_id = Some tour
    /\ Booking.user_id b = uid
    /\ Booking.tour_id b = tour_id
    /\ Account.my_bookings w s = (Account.show_my_bookings rows, None)
    /\ Account.my_bookings (world o) (session o)
       = (Account.show_my_bookings (rows ++ [(b, Some tour)]), None)
    /\ Forall (fun r => Booking.user_id (fst r) = uid) rows.
Proof.
  intros Hch. cbv zeta.
  pose proof (book_tour_changed_logged_in _ _ _ _ _ Hch) as Hlog.
  destruct (book_tour_created now w s tour_id form Hch)
    as (tour & n & td & uid & Ht & _ & _ & _ & _ & Hu & Hb).
  destruct (book_tour_cases now w s tour_id form)
    as [[Hw _] | (tour' & n' & td' & _ & _ & _ & _ & _ & Hcase)];
    [rewrite Hw in Hch; now elim Hch |].
  destruct Hcase as [(_ & Hw & _) | (uid' & _ & Hs & Htours & _)];
    [rewrite Hw in Hch; now elim Hch |].
  exists uid, tour, (new_booking now w uid tour tour_id td n),
    (map (row w) (BookingRepository.get_by_user_id (booking_repository w) uid)).
  unfold Account.my_bookings, Account.current_user.
  rewrite Hs, Hlog, Hu.
  split; [reflexivity |]. split; [exact Ht |].
  split; [reflexivity |]. split; [reflexivity |].
  split; [reflexivity |]. split.
  - unfold BookingRepository.get_by_user_id. unfold bookings_of in Hb.
    rewrite Hb, Htours. rewrite filter_app, map_app. simpl.
    rewrite Z.eqb_refl. simpl. now rewrite Ht.
  - apply Forall_map. unfold BookingRepository.get_by_user_id.
    apply Forall_forall. intros b Hin. apply filter_In in Hin.
    simpl. now apply Z.eqb_eq.
Qed.

Lemma my_bookings_after_booking_witness :
  exists b tour,
    Account.my_bookings
      (world (book_tour (Fixtures.at_noon 2025 3 10) Fixtures.world0
                (Fixtures.client 2) 1
                (mkBookForm (Some "2025-07-01") (Some "2"))))
      (Fixtures.client 2)
    = (Account.show_my_bookings [(b, Some tour)], None)
    /\ Booking.user_id b = 2.
Proof.
  destruct (my_bookings_after_booking (Fixtures.at_noon 2025 3 10)
              Fixtures.world0 (Fixtures.client 2) 1
              (mkBookForm (Some "2025-07-01") (Some "2"))
              ltac:(vm_compute; discriminate))
    as (uid & tour & b & rows & Hu & _ & Hb & _ & Hrows & Hpage & _).
  exists b, tour. injection Hu as <-.
  vm_compute in Hrows. injection Hrows as <-.
  split; [exact Hpage | exact Hb].
Defined.

End BookingViews.

(* ================================================================== *)
(** * From an anonymous request to a booking *)

Module DeferredBooking.
Import Routes RegisterFacts.

(** A redirect to the registration page means that every check passed
    and the intent is in the session. *)
Lemma book_tour_stashed now w s tour_id form :
  response (book_tour now w s tour_id form) = redirect auth_register ->
  exists tour passengers travel_date,
    ToursRepository.get_by_id (tours_repository w) tour_id = Some tour
    /\ read_passengers form = Some passengers
    /\ 1 <= passengers <= 10
    /\ form_travel_date form = Some travel_date
    /\ check_travel_date (DateTime.date now) travel_date = date_ok
    /\ world (book_tour now w s tour_id form) = w
    /\ session (book_tour now w s tour_id form)
       = set_booking_data s
           (Some (mkBookingData tour_id travel_date passengers)).
Proof.
  unfold book_tour, read_passengers.
  destruct (ToursRepository.get_by_id _ _) as [tour|]; [| discriminate].
  destruct (match form_passengers form with
            | Some p => Py.int p | None => Some 1 end) as [n|];
    [| discriminate].
  destruct ((n <? 1) || (n >? 10)) eqn:Hr; [discriminate |].
  destruct (form_travel_date form) as [td|]; [| discriminate].
  destruct (negb (Py.truthy_str td)); [discriminate |].
  destruct (check_travel_date _ td) eqn:Hd; try discriminate.
  destruct (negb (Py.truthy_oint (user_id s))).
  - intros _. exists tour, n, td.
    apply orb_false_iff in Hr. destruct Hr as [H1 H2].
    apply Z.ltb_ge in H1. rewrite Z.gtb_ltb in H2. apply Z.ltb_ge in H2.
    repeat split; assumption.
  - destruct (user_id s); discriminate.
Qed.

(** X8: an anonymous request that [book_tour] sends on to the
    registration page, followed at once by an accepted registration,
    ends in exactly one new booking: for the requested tour, date and
    passenger count, owned by the new user, ["confirmed"], priced at the
    tour's [price] times the passengers; the user is logged in and the
    intent is gone from the session. *)
Theorem anonymous_request_booked_at_registration
    (generate_password_hash : string -> string)
    (now : DateTime.datetime) (w : World) (s : Session) (tour_id : Z)
    (form : BookForm) (signup : RegisterForm) (password : string)
    (tour : Tour.t) (price : Q) :
  response (book_tour now w s tour_id form) = redirect auth_register ->
  accepted w signup password ->
  ToursRepository.get_by_id (tours_repository w) tour_id = Some tour ->
  Tour.price tour = Some price ->
  let o1 := book_tour now w s tour_id form in
  let o2 := register_post generate_password_hash now (world o1) (session o1)
              signup in
  let new_user_id := UserRepository._next_id (user_repository w) in
  let new_booking_id := BookingRepository._next_id (booking_repository w) in
  exists passengers travel_date,
    read_passengers form = Some passengers
    /\ 1 <= passengers <= 10
    /\ form_travel_date form = Some travel_date
    /\ bookings_of (world o2)
       = (bookings_of w
          ++ [Booking.mk new_booking_id tour_id new_user_id
                (DateTime.strftime_ymd (DateTime.date now)) travel_date
                passengers (price * inject_Z passengers)%Q "confirmed"])%list
    /\ response o2 = redirect (public_booking_confirmation new_booking_id)
    /\ user_id (session o2) = Some new_user_id
    /\ booking_data (session o2) = None.
Proof.
  intros Hredir Hacc Ht Hp. cbv zeta.
  destruct (book_tour_stashed _ _ _ _ _ Hredir)
    as (tour' & n & td & Ht' & Hn & Hrange & Hf & Hd & Hw & Hs).
  rewrite Hw, Hs.
  exists n, td. split; [exact Hn |]. split; [exact Hrange |].
  split; [exact Hf |].
  destruct (register_post_cases generate_password_hash now w
              (set_booking_data s (Some (mkBookingData tour_id td n))) signup)
    as [(_ & _ & Hno) | (pw & _ & _ & _ & Hafter)];
    [now elim (Hno password) |].
  destruct Hafter as [ Hbd ? ? ? ? | bd Hbd Hd' ? ? ? | bd Hbd ? Ht'' ? ? ? ?
                     | bd tour'' Hbd ? Ht'' Hp'' ? ? ?
                     | bd tour'' price'' Hbd ? Ht'' Hp'' Hr ? Hs2 Hb ];
    simpl in Hbd; try discriminate; injection Hbd as <-; simpl in *;
    try congruence.
  assert (tour'' = tour) by congruence. subst tour''.
  assert (price'' = price) by congruence. subst price''.
  rewrite Hb, Hr, Hs2. unfold deferred_booking. simpl.
  repeat split.
Qed.

Lemma anonymous_request_booked_at_registration_witness :
  let now := Fixtures.at_noon 2025 3 10 in
  let o1 := book_tour now Fixtures.world0 Fixtures.anonymous 1
              (mkBookForm (Some "2025-07-01") (Some "2")) in
  exists b,
    bookings_of (world (register_post Fixtures.hash now (world o1)
                          (session o1) Fixtures.signup))
    = [b]
    /\ Booking.passengers b = 2
    /\ Booking.status b = "confirmed".
Proof.
  intros now o1. subst o1.
  destruct (anonymous_request_booked_at_registration Fixtures.hash now
              Fixtures.world0 Fixtures.anonymous 1
              (mkBookForm (Some "2025-07-01") (Some "2")) Fixtures.signup
              "secret1" Fixtures.first_tour 50%Q eq_refl
              Registration.accepted_signup eq_refl eq_refl)
    as (n & td & Hn & _ & _ & Hb & _).
  injection Hn as <-.
  eexists. split; [exact Hb |]. split; reflexivity.
Defined.

(** Every stored travel date is one [strptime] reads. *)
Definition dates_parse (w : World) : Prop :=
  Forall (fun b => Date.strptime (Booking.travel_date b) <> None)
    (bookings_of w).

Lemma date_ok_parses today travel_date :
  check_travel_date today travel_date = date_ok ->
  Date.strptime travel_date <> None.
Proof.
  intros H. destruct (check_travel_date_ok _ _ H) as (d & _ & -> & _).
  discriminate.
Qed.

(** X9: the travel dates in the store are always dates: [book_tour] and
    [register_post] store only strings that [strptime] reads, and
    [cancel_booking] keeps them.  So when the cancel route answers with
    the travel-date error for a booking of the store, the date at fault
    is the one [today.replace] could not build. *)
Theorem stored_travel_dates_parse
    (generate_password_hash : string -> string)
    (now : DateTime.datetime) (w : World) (s : Session) :
  dates_parse w ->
  (forall tour_id form,
      dates_parse (world (book_tour now w s tour_id form)))
  /\ (forall form,
        dates_parse (world (register_post generate_password_hash now w s
                              form)))
  /\ (forall booking_id,
        dates_parse (world (cancel_booking now w s booking_id)))
  /\ (forall booking_id,
        flashed (cancel_booking now w s booking_id) = Some travel_date_error ->
        min_cancel_date (DateTime.date now) = None).
Proof.
  intros Hdp. unfold dates_parse in *. split; [| split; [| split]].
  - intros tour_id form.
    destruct (book_tour_cases now w s tour_id form)
      as [[-> _] | (tour & n & td & _ & _ & _ & _ & Hd & Hcase)];
      [exact Hdp |].
    destruct Hcase as [(_ & -> & _) | (uid & _ & _ & _ & ->)]; [exact Hdp |].
    apply Forall_app. split; [exact Hdp |].
    repeat constructor. simpl. now apply date_ok_parses with (DateTime.date now).
  - intros form.
    destruct (register_post_cases generate_password_hash now w s form)
      as [(-> & _) | (pw & _ & _ & _ & Hafter)]; [exact Hdp |].
    destruct Hafter as [ ? ? ? ? Hb | bd ? ? ? ? Hb | bd ? ? ? ? ? ? Hb
                       | bd tour ? ? ? ? ? ? Hb
                       | bd tour price ? Hd ? ? ? ? ? Hb ];
      rewrite Hb; try exact Hdp.
    apply Forall_app. split; [exact Hdp |].
    repeat constructor. simpl. now apply date_ok_parses with (DateTime.date now).
  - intros booking_id.
    destruct (BookingStore.cancel_booking_world now w s booking_id)
      as [Hw | Hw]; unfold bookings_of; rewrite Hw; [exact Hdp |].
    unfold BookingRepository.cancel_booking.
    pose proof (CancelFacts.cancel_in_pointwise booking_id (bookings_of w))
      as Hp.
    unfold bookings_of in Hp.
    destruct (BookingRepository.cancel_in booking_id _) as [ok l].
    simpl in *. unfold bookings_of in Hdp.
    revert Hdp. induction Hp as [| b b' l0 l0' Hb _ IH]; [trivial |].
    intros Hall. inversion Hall; subst. constructor; [| now apply IH].
    destruct Hb as [-> | [_ ->]]; assumption.
  - intros booking_id. unfold cancel_booking, check_cancel.
    destruct (negb (Py.truthy_oint (user_id s))); [discriminate |].
    destruct (BookingRepository.get_by_id _ _) as [b|] eqn:Hb;
      [| discriminate].
    destruct (negb _); [discriminate |].
    assert (Hparse : Date.strptime (Booking.travel_date b) <> None).
    { unfold BookingRepository.get_by_id in Hb. apply find_some in Hb.
      rewrite Forall_forall in Hdp. apply Hdp. apply Hb. }
    destruct (Date.strptime (Booking.travel_date b)) as [d|];
      [| now elim Hparse].
    destruct (min_cancel_date _) as [m|]; [| reflexivity].
    destruct (Date.leb d m); [discriminate |].
    destruct (BookingRepository.cancel_booking _ _) as [[] ?]; discriminate.
Qed.

Lemma stored_travel_dates_parse_witness :
  let b1 := Fixtures.booking 1 2 "2025-01-10" "2025-06-01" in
  dates_parse (world (cancel_booking (Fixtures.at_noon 2025 2 20)
                        (Fixtures.with_booking b1) (Fixtures.client 2) 1)).
Proof.
  intros b1.
  apply (proj1 (proj2 (proj2
           (stored_travel_dates_parse Fixtures.hash
              (Fixtures.at_noon 2025 2 20) (Fixtures.with_booking b1)
              (Fixtures.client 2)
              ltac:(repeat constructor; discriminate))))).
Defined.

End DeferredBooking.

(* ================================================================== *)
(** * The feedback store under the handlers *)

Module FeedbackStore.
Import Routes.

Definition feedback_of (w : World) : list Feedback.t :=
  FeedbackRepository._feedback (feedback_repository w).

Definition valid_status (f : Feedback.t) : Prop :=
  str_in (Some (Feedback.status f)) Admin.valid_statuses = true.

Definition statuses_valid (w : World) : Prop :=
  Forall valid_status (feedback_of w).

Lemma valid_status_cases (f : Feedback.t) :
  valid_status f ->
  Feedback.status f = "new" \/ Feedback.status f = "in_progress"
  \/ Feedback.status f = "resolved" \/ Feedback.status f = "closed".
Proof.
  unfold valid_status, str_in, Admin.valid_statuses. simpl. intros H.
  destruct (String.eqb_spec (Feedback.status f) "new"); [tauto |].
  destruct (String.eqb_spec (Feedback.status f) "in_progress"); [tauto |].
  destruct (String.eqb_spec (Feedback.status f) "resolved"); [tauto |].
  destruct (String.eqb_spec (Feedback.status f) "closed"); [tauto |].
  discriminate.
Qed.

Lemma count_cons (p : Feedback.t -> bool) (f : Feedback.t)
    (l : list Feedback.t) :
  FeedbackRepository.count p (f :: l)
  = (if p f then 1 else 0) + FeedbackRepository.count p l.
Proof.
  unfold FeedbackRepository.count. simpl filter.
  destruct (p f); simpl List.length; lia.
Qed.

Ltac eval_eqb :=
  repeat match goal with
         | |- context [String.eqb ?a ?b] =>
             let v := eval vm_compute in (String.eqb a b) in
             change (String.eqb a b) with v
         end.

(** X10: when every stored status is one of the four, the counts of
    [get_feedback_stats] by status add up to the total, and the count of
    urgent messages is at most the number of messages that are not
    closed. *)
Theorem feedback_stats_add_up (r : FeedbackRepository.t) :
  Forall valid_status (FeedbackRepository._feedback r) ->
  let st := FeedbackRepository.get_feedback_stats r in
  FeedbackRepository.total st
  = FeedbackRepository.new st + FeedbackRepository.in_progress st
    + FeedbackRepository.resolved st + FeedbackRepository.closed st
  /\ 0 <= FeedbackRepository.urgent st
     <= FeedbackRepository.total st - FeedbackRepository.closed st
  /\ FeedbackRepository.urgent st
     = FeedbackRepository.get_urgent_feedback_count r
  /\ FeedbackRepository.new st = FeedbackRepository.get_new_feedback_count r.
Proof.
  intros H. cbv zeta. unfold FeedbackRepository.get_feedback_stats.
  cbv zeta.
  cbn [FeedbackRepository.total FeedbackRepository.new
       FeedbackRepository.in_progress FeedbackRepository.resolved
       FeedbackRepository.closed FeedbackRepository.urgent].
  split; [| split; [| split; reflexivity]].
  - induction H as [| f l Hf _ IH]; [reflexivity |].
    rewrite !count_cons. cbv beta.
    change (List.length (f :: l)) with (S (List.length l)).
    rewrite Nat2Z.inj_succ.
    destruct (valid_status_cases f Hf) as [E | [E | [E | E]]]; rewrite E;
      eval_eqb; cbv iota; lia.
  - induction H as [| f l Hf _ IH];
      [unfold FeedbackRepository.count; simpl; lia |].
    rewrite !count_cons. cbv beta.
    change (List.length (f :: l)) with (S (List.length l)).
    rewrite Nat2Z.inj_succ.
    assert (Hopen : FeedbackRepository.is_urgent_open f = true ->
                    String.eqb (Feedback.status f) "closed" = false).
    { unfold FeedbackRepository.is_urgent_open.
      destruct (String.eqb (Feedback.status f) "closed");
        [rewrite andb_false_r; discriminate | reflexivity]. }
    destruct (FeedbackRepository.is_urgent_open f);
      destruct (String.eqb (Feedback.status f) "closed");
      try (specialize (Hopen eq_refl); discriminate); lia.
Qed.

Lemma feedback_stats_add_up_witness :
  let st := FeedbackRepository.get_feedback_stats FeedbackReply.store in
  FeedbackRepository.total st
  = FeedbackRepository.new st + FeedbackRepository.in_progress st
    + FeedbackRepository.resolved st + FeedbackRepository.closed st.
Proof.
  apply (proj1 (feedback_stats_add_up FeedbackReply.store
                  ltac:(constructor; [reflexivity | constructor]))).
Defined.

Lemma update_first_keeps (P : Feedback.t -> Prop) upd (feedback_id : Z)
    (l : list Feedback.t) :
  (forall f, P f -> P (upd f)) ->
  Forall P l ->
  Forall P (snd (FeedbackRepository.update_first upd feedback_id l)).
Proof.
  intros Hupd. induction 1 as [| f l Hf Hl IH]; simpl; [constructor |].
  destruct (Feedback.id f =? feedback_id); simpl.
  - constructor; [now apply Hupd | assumption].
  - destruct (FeedbackRepository.update_first upd feedback_id l) as [ok l'].
    simpl in *. now constructor.
Qed.

(** X11: the handlers keep every stored status within new, in_progress,
    resolved, closed: a submission is stored as new, an answer sets
    resolved, the status route refuses any other value, and the priority
    route does not touch the status. *)
Theorem statuses_stay_valid
    (now : DateTime.datetime) (w : World) (s : Session) :
  statuses_valid w ->
  (forall form, statuses_valid (world (submit_feedback now w s form)))
  /\ (forall feedback_id reply,
        statuses_valid
          (Admin.next_world
             (Admin.respond_to_feedback now w s feedback_id reply)))
  /\ (forall feedback_id status,
        statuses_valid
          (Admin.next_world
             (Admin.change_feedback_status w s feedback_id status)))
  /\ (forall feedback_id priority,
        statuses_valid
          (world (change_feedback_priority w s feedback_id priority))).
Proof.
  unfold statuses_valid, feedback_of. intros Hv.
  split; [| split; [| split]].
  - intros form. unfold submit_feedback.
    destruct (negb (Py.truthy_oint (user_id s))); [exact Hv |].
    destruct (user_id s) as [uid|]; [| exact Hv].
    destruct (negb (Py.truthy_str _)); [exact Hv |].
    destruct (negb (Py.truthy_str _)); [exact Hv |].
    destruct (_ >? 200); [exact Hv |].
    destruct (_ >? 2000); [exact Hv |].
    simpl. apply Forall_app. split; [exact Hv |].
    repeat constructor.
  - intros feedback_id reply. unfold Admin.respond_to_feedback.
    destruct (negb (_is_admin s)); [exact Hv |].
    destruct (FeedbackRepository.get_by_id _ _); [| exact Hv].
    destruct (negb (Py.truthy_str _)); [exact Hv |].
    destruct (_ >? 2000); [exact Hv |].
    destruct (user_id s) as [uid|]; [| exact Hv].
    unfold FeedbackRepository.respond_to_feedback.
    pose proof (update_first_keeps valid_status
                  (FeedbackRepository.respond
                     (Py.strip (form_get reply "")) uid now)
                  feedback_id _ (fun f _ => eq_refl) Hv) as Hk.
    destruct (FeedbackRepository.update_first _ _ _) as [ok l].
    exact Hk.
  - intros feedback_id status. unfold Admin.change_feedback_status.
    destruct (negb (_is_admin s)); [exact Hv |].
    destruct status as [st|]; [| exact Hv].
    destruct (str_in (Some st) Admin.valid_statuses) eqn:Hst; [| exact Hv].
    unfold FeedbackRepository.change_status.
    pose proof (update_first_keeps valid_status
                  (FeedbackRepository.set_status st)
                  feedback_id _ (fun f _ => Hst) Hv) as Hk.
    destruct (FeedbackRepository.update_first _ _ _) as [ok l].
    exact Hk.
  - intros feedback_id priority. unfold change_feedback_priority.
    destruct (negb (_is_admin s)); [exact Hv |].
    destruct priority as [p|]; [| exact Hv].
    destruct (str_in (Some p) valid_priorities); [| exact Hv].
    unfold FeedbackRepository.change_priority.
    pose proof (update_first_keeps valid_status
                  (FeedbackRepository.set_priority p)
                  feedback_id _ (fun f H => H) Hv) as Hk.
    destruct (FeedbackRepository.update_first _ _ _) as [ok l].
    exact Hk.
Qed.

Definition desk : World :=
  mkWorld Fixtures.catalog (UserRepository.init Fixtures.hash)
    BookingRepository.init FeedbackReply.store.

Lemma statuses_stay_valid_witness :
  statuses_valid
    (Admin.next_world
       (Admin.change_feedback_status desk FeedbackPriority.admin_session 1
          (Some "in_progress"))).
Proof.
  apply (proj1 (proj2 (proj2
           (statuses_stay_valid (Fixtures.at_noon 2025 3 10) desk
              FeedbackPriority.admin_session
              ltac:(constructor; [reflexivity | constructor]))))).
Defined.

End FeedbackStore.

(* ================================================================== *)
(** * The admin's feedback routes *)

Module AdminFeedback.
Import Routes.

Lemma with_feedback_same (w : World) :
  with_feedback w (feedback_repository w) = w.
Proof. now destruct w. Qed.

Lemma update_first_other upd (feedback_id other : Z) (l : list Feedback.t) :
  (forall x, Feedback.id (upd x) = Feedback.id x) ->
  other <> feedback_id ->
  find (fun f => Feedback.id f =? other)
    (snd (FeedbackRepository.update_first upd feedback_id l))
  = find (fun f => Feedback.id f =? other) l.
Proof.
  intros Hid Hne. induction l as [| x rest IH]; simpl; [reflexivity |].
  destruct (Z.eqb_spec (Feedback.id x) feedback_id) as [Heq | Hneq]; simpl.
  - rewrite Hid, Heq. destruct (Z.eqb_spec feedback_id other);
      [congruence | reflexivity].
  - destruct (FeedbackRepository.update_first upd feedback_id rest)
      as [ok rest']. simpl in *. now rewrite IH.
Qed.

(** X12: the status route changes the store only for an admin and one
    of the four statuses.  Then the record with the id, if there is one,
    gets the new status and keeps its other fields, and the other
    records are looked up as before; any other request, such as status
    ["bogus"], leaves the store as it was. *)
Theorem change_feedback_status_checked
    (w : World) (s : Session) (feedback_id : Z) (status : option string) :
  let o := Admin.change_feedback_status w s feedback_id status in
  (Admin.notice o <> Some Admin.status_updated -> Admin.next_world o = w)
  /\ (Admin.notice o = Some Admin.status_updated ->
      exists st f0,
        _is_admin s = true
        /\ status = Some st
        /\ In st Admin.valid_statuses
        /\ FeedbackRepository.get_by_id (feedback_repository w) feedback_id
           = Some f0
        /\ FeedbackRepository.get_by_id
             (feedback_repository (Admin.next_world o)) feedback_id
           = Some (FeedbackRepository.set_status st f0)
        /\ forall other, other <> feedback_id ->
             FeedbackRepository.get_by_id
               (feedback_repository (Admin.next_world o)) other
             = FeedbackRepository.get_by_id (feedback_repository w) other).
Proof.
  cbv zeta. unfold Admin.change_feedback_status.
  destruct (_is_admin s); simpl negb; cbv iota;
    [| split; [reflexivity | discriminate]].
  destruct status as [st|]; [| split; [reflexivity | discriminate]].
  destruct (str_in (Some st) Admin.valid_statuses) eqn:Hst;
    [| split; [reflexivity | discriminate]].
  assert (Hin : In st Admin.valid_statuses).
  { unfold str_in in Hst. apply existsb_exists in Hst.
    destruct Hst as (x & Hin & Heq). apply String.eqb_eq in Heq. now subst. }
  clear Hst.
  unfold FeedbackRepository.change_status, FeedbackRepository.get_by_id.
  pose proof (fun o => update_first_other (FeedbackRepository.set_status st)
                         feedback_id o
                         (FeedbackRepository._feedback (feedback_repository w))
                         (fun x => eq_refl)) as Hother.
  destruct (find (fun f => Feedback.id f =? feedback_id)
              (FeedbackRepository._feedback (feedback_repository w)))
    as [f0|] eqn:Hf.
  - destruct (FeedbackReply.update_first_found
                (FeedbackRepository.set_status st) _ _ _
                (fun x => eq_refl) Hf) as (l' & Hu & Hnew).
    rewrite Hu in *. simpl in *. split; [intros H; now elim H |].
    intros _. exists st, f0. repeat split; assumption.
  - rewrite (FeedbackReply.update_first_missing _ _ _ Hf). simpl.
    split; [| discriminate]. intros _.
    destruct w as [t u b [fl fn]]. reflexivity.
Qed.

(** The scenario of the test suite: status ["bogus"] is refused. *)
Example bogus_status_refused :
  let o := Admin.change_feedback_status FeedbackStore.desk
             FeedbackPriority.admin_session 1 (Some "bogus") in
  Admin.notice o = Some Admin.status_invalid
  /\ Admin.next_world o = FeedbackStore.desk.
Proof. split; reflexivity. Qed.

Lemma change_feedback_status_checked_witness :
  exists f,
    FeedbackRepository.get_by_id
      (feedback_repository
         (Admin.next_world
            (Admin.change_feedback_status FeedbackStore.desk
               FeedbackPriority.admin_session 1 (Some "in_progress")))) 1
    = Some f
    /\ Feedback.status f = "in_progress".
Proof.
  destruct (proj2 (change_feedback_status_checked FeedbackStore.desk
                     FeedbackPriority.admin_session 1 (Some "in_progress"))
              eq_refl)
    as (st & f0 & _ & Hst & _ & _ & Hnew & _).
  injection Hst as <-.
  eexists. split; [exact Hnew | reflexivity].
Defined.

(** X13: the answer route stores an answer only for an admin, an
    existing record and a reply that is neither empty after stripping
    nor longer than 2000 characters; the stored text is the stripped
    reply (white space of any script removed at both ends) and the
    admin id is the session's [user_id].  The route's branch for a
    failed store update is never taken, and without a success the store
    is as it was. *)
Theorem admin_reply_checked
    (now : DateTime.datetime) (w : World) (s : Session) (feedback_id : Z)
    (reply : option string) :
  let o := Admin.respond_to_feedback now w s feedback_id reply in
  let text := Py.strip (form_get reply "") in
  Admin.notice o <> Some Admin.reply_failed
  /\ (Admin.notice o <> Some Admin.reply_sent -> Admin.next_world o = w)
  /\ (Admin.notice o = Some Admin.reply_sent ->
      exists f0 admin_id,
        _is_admin s = true
        /\ user_id s = Some admin_id
        /\ text <> ""
        /\ Py.len text <= 2000
        /\ FeedbackRepository.get_by_id (feedback_repository w) feedback_id
           = Some f0
        /\ FeedbackRepository.get_by_id
             (feedback_repository (Admin.next_world o)) feedback_id
           = Some (FeedbackRepository.respond text admin_id now f0)).
Proof.
  cbv zeta. unfold Admin.respond_to_feedback.
  destruct (_is_admin s); simpl negb; cbv iota;
    [| split; [discriminate | split; [reflexivity | discriminate]]].
  destruct (FeedbackRepository.get_by_id _ _) as [f0|] eqn:Hf;
    [| split; [discriminate | split; [reflexivity | discriminate]]].
  destruct (Py.strip (form_get reply "")) as [| c text] eqn:Htext;
    simpl Py.truthy_str; simpl negb; cbv iota;
    [split; [discriminate | split; [reflexivity | discriminate]] |].
  destruct (Z.gtb_spec (Py.len (String c text)) 2000)
    as [Hlen | Hlen];
    [split; [discriminate | split; [reflexivity | discriminate]] |].
  destruct (user_id s) as [admin_id|];
    [| split; [discriminate | split; [reflexivity | discriminate]]].
  unfold FeedbackRepository.respond_to_feedback.
  unfold FeedbackRepository.get_by_id in Hf.
  destruct (FeedbackReply.update_first_found
              (FeedbackRepository.respond (String c text) admin_id now)
              _ _ _ (fun x => eq_refl) Hf) as (l' & Hu & Hnew).
  rewrite Hu. simpl.
  split; [discriminate |]. split; [intros H; now elim H |].
  intros _. exists f0, admin_id.
  repeat split; try assumption; try discriminate.
Qed.

Lemma admin_reply_checked_witness :
  exists f,
    FeedbackRepository.get_by_id
      (feedback_repository
         (Admin.next_world
            (Admin.respond_to_feedback (Fixtures.at_noon 2025 3 10)
               FeedbackStore.desk FeedbackPriority.admin_session 1
               (Some "  Refunded.  ")))) 1
    = Some f
    /\ Feedback.admin_response f = Some "Refunded.".
Proof.
  destruct (proj2 (proj2 (admin_reply_checked (Fixtures.at_noon 2025 3 10)
                            FeedbackStore.desk FeedbackPriority.admin_session
                            1 (Some "  Refunded.  ")))
              eq_refl)
    as (f0 & admin_id & _ & _ & _ & _ & _ & Hnew).
  eexists. split; [exact Hnew | reflexivity].
Defined.

(** The limit counts characters: a reply of 2000 Cyrillic letters, 4000
    bytes of UTF-8, is stored, and one of 2001 letters is refused.  A
    no-break space around the reply is stripped like any other. *)
Example reply_length_in_characters :
  let answer := fun text =>
    Admin.respond_to_feedback (Fixtures.at_noon 2025 3 10)
      FeedbackStore.desk FeedbackPriority.admin_session 1 (Some text) in
  Py.len (Fixtures.letters 2000) = 2000
  /\ Admin.notice (answer (Fixtures.letters 2000)) = Some Admin.reply_sent
  /\ Admin.notice (answer (Fixtures.letters 2001))
     = Some Admin.reply_too_long
  /\ Py.strip (Py.str [160; 1044; 1072; 8195]) = Py.str [1044; 1072].
Proof.
  cbv zeta. split; [vm_compute; reflexivity |].
  split; [vm_compute; reflexivity |].
  split; vm_compute; reflexivity.
Qed.

End AdminFeedback.

(* ================================================================== *)
(** * Submitting and deleting feedback *)

Module FeedbackFlow.
Import Routes.

Lemma delete_in_missing (feedback_id : Z) (l : list Feedback.t) :
  find (fun f => Feedback.id f =? feedback_id) l = None ->
  FeedbackRepository.delete_in feedback_id l = (false, l).
Proof.
  induction l as [| f rest IH]; simpl; [reflexivity |].
  destruct (Feedback.id f =? feedback_id); [discriminate |].
  intros H. now rewrite (IH H).
Qed.

Lemma delete_in_found (feedback_id : Z) (l : list Feedback.t) :
  find (fun f => Feedback.id f =? feedback_id) l <> None ->
  fst (FeedbackRepository.delete_in feedback_id l) = true
  /\ S (List.length (snd (FeedbackRepository.delete_in feedback_id l)))
     = List.length l
  /\ (NoDup (map Feedback.id l) ->
      find (fun f => Feedback.id f =? feedback_id)
        (snd (FeedbackRepository.delete_in feedback_id l)) = None).
Proof.
  induction l as [| f rest IH]; simpl; [intros H; now elim H |].
  destruct (Z.eqb_spec (Feedback.id f) feedback_id) as [Heq | Hneq]; simpl.
  - intros _. split; [reflexivity |]. split; [reflexivity |].
    intros Hnd. inversion Hnd as [| x xs Hnotin _]; subst.
    clear - Hnotin.
    induction rest as [| g rest IH]; [reflexivity |]. simpl in *.
    destruct (Z.eqb_spec (Feedback.id g) (Feedback.id f)); [tauto |].
    apply IH. tauto.
  - intros H. destruct (IH H) as (Hok & Hlen & Hgone).
    destruct (FeedbackRepository.delete_in feedback_id rest) as [ok rest'].
    simpl in *. split; [exact Hok |]. split; [now rewrite Hlen |].
    intros Hnd. inversion Hnd; subst.
    destruct (Z.eqb_spec (Feedback.id f) feedback_id); [contradiction |].
    now apply Hgone.
Qed.

Lemma delete_in_other (feedback_id other : Z) (l : list Feedback.t) :
  other <> feedback_id ->
  find (fun f => Feedback.id f =? other)
    (snd (FeedbackRepository.delete_in feedback_id l))
  = find (fun f => Feedback.id f =? other) l.
Proof.
  intros Hne. induction l as [| f rest IH]; simpl; [reflexivity |].
  destruct (Z.eqb_spec (Feedback.id f) feedback_id) as [Heq | Hneq]; simpl.
  - rewrite Heq. destruct (Z.eqb_spec feedback_id other);
      [congruence | reflexivity].
  - destruct (FeedbackRepository.delete_in feedback_id rest) as [ok rest'].
    simpl in *. now rewrite IH.
Qed.

(** X14: [delete_feedback] returns [True] exactly when the id is in the
    store and then removes one record; with distinct ids the id can no
    longer be looked up.  Other ids are looked up as before, and a
    failed deletion leaves the store as it was. *)
Theorem delete_feedback_then_get_by_id
    (r : FeedbackRepository.t) (feedback_id : Z) :
  let ok := fst (FeedbackRepository.delete_feedback r feedback_id) in
  let r' := snd (FeedbackRepository.delete_feedback r feedback_id) in
  (ok = true <-> FeedbackRepository.get_by_id r feedback_id <> None)
  /\ (ok = true ->
      S (List.length (FeedbackRepository._feedback r'))
      = List.length (FeedbackRepository._feedback r)
      /\ (NoDup (map Feedback.id (FeedbackRepository._feedback r)) ->
          FeedbackRepository.get_by_id r' feedback_id = None))
  /\ (ok = false -> r' = r)
  /\ (forall other, other <> feedback_id ->
        FeedbackRepository.get_by_id r' other
        = FeedbackRepository.get_by_id r other).
Proof.
  cbv zeta. unfold FeedbackRepository.delete_feedback,
    FeedbackRepository.get_by_id.
  pose proof (fun o => delete_in_other feedback_id o
                         (FeedbackRepository._feedback r)) as Ho.
  destruct (find (fun f => Feedback.id f =? feedback_id)
              (FeedbackRepository._feedback r)) as [f|] eqn:Hf.
  - destruct (delete_in_found feedback_id (FeedbackRepository._feedback r))
      as (Hok & Hlen & Hgone); [congruence |].
    destruct (FeedbackRepository.delete_in feedback_id _) as [ok l].
    simpl in *. subst ok.
    split; [split; [discriminate | reflexivity] |].
    split; [intros _; split; assumption |].
    split; [discriminate | exact Ho].
  - rewrite (delete_in_missing _ _ Hf) in *. simpl in *.
    split; [split; [discriminate | intros H; now elim H] |].
    split; [discriminate |].
    split; [intros _; now destruct r | exact Ho].
Qed.

Definition feedback_of (w : World) : list Feedback.t :=
  FeedbackRepository._feedback (feedback_repository w).

(** X15: [submit_feedback] stores a message only for a logged-in user
    whose subject and message are non-empty after stripping and at most
    200 and 2000 characters long; the record holds the stripped texts,
    status new and the sender's id, and the sender's feedback page then
    shows it after the messages it showed before.  A refused submission
    leaves the stores as they were. *)
Theorem submitted_feedback_is_listed
    (now : DateTime.datetime) (w : World) (s : Session)
    (form : FeedbackForm) :
  let o := submit_feedback now w s form in
  let subject := Py.strip (form_get (form_subject form) "") in
  let message := Py.strip (form_get (form_message form) "") in
  (flashed o <> Some feedback_sent -> world o = w)
  /\ (flashed o = Some feedback_sent ->
      exists uid f before,
        Account.current_user s = Some uid
        /\ subject <> "" /\ Py.len subject <= 200
        /\ message <> "" /\ Py.len message <= 2000
        /\ Feedback.user_id f = uid
        /\ Feedback.subject f = subject
        /\ Feedback.message f = message
        /\ Feedback.status f = "new"
        /\ Feedback.admin_response f = None
        /\ Feedback.id f
           = FeedbackRepository._next_id (feedback_repository w)
        /\ feedback_of (world o) = (feedback_of w ++ [f])%list
        /\ Account.my_feedback w s = (Account.show_my_feedback before, None)
        /\ Account.my_feedback (world o) (session o)
           = (Account.show_my_feedback (before ++ [f]), None)).
Proof.
  cbv zeta. unfold submit_feedback, Account.my_feedback, Account.current_user.
  destruct (Py.truthy_oint (user_id s)) eqn:Hu; simpl negb; cbv iota;
    [| split; [reflexivity | discriminate]].
  destruct (user_id s) as [uid|] eqn:Huid;
    [| split; [reflexivity | discriminate]].
  destruct (Py.strip (form_get (form_subject form) "")) as [| c1 subj]
    eqn:Hsubj; simpl Py.truthy_str; simpl negb; cbv iota;
    [split; [reflexivity | discriminate] |].
  destruct (Py.strip (form_get (form_message form) "")) as [| c2 msg]
    eqn:Hmsg; simpl Py.truthy_str; simpl negb; cbv iota;
    [split; [reflexivity | discriminate] |].
  destruct (Z.gtb_spec (Py.len (String c1 subj)) 200);
    [split; [reflexivity | discriminate] |].
  destruct (Z.gtb_spec (Py.len (String c2 msg)) 2000);
    [split; [reflexivity | discriminate] |].
  split; [intros K; now elim K |]. intros _.
  exists uid,
    (Feedback.mk (FeedbackRepository._next_id (feedback_repository w)) uid
       (String c1 subj) (String c2 msg) (DateTime.strftime_ymd_hms now)
       "new" None None None (form_get (form_priority form) "normal")
       (form_get (form_category form) "general")),
    (FeedbackRepository.get_by_user_id (feedback_repository w) uid).
  unfold FeedbackRepository.get_next_id. cbv beta iota zeta.
  cbn [session world]. rewrite ?Huid, ?Hu.
  repeat (split; [first [reflexivity | assumption | discriminate] |]).
  unfold FeedbackRepository.get_by_user_id. simpl.
  rewrite filter_app. simpl. now rewrite Z.eqb_refl.
Qed.

Lemma submitted_feedback_is_listed_witness :
  exists f,
    Account.my_feedback
      (world (submit_feedback (Fixtures.at_noon 2025 3 10) Fixtures.world0
                (Fixtures.client 2)
                (mkFeedbackForm (Some " Hello ") (Some "A question") None
                   None)))
      (Fixtures.client 2)
    = (Account.show_my_feedback [f], None)
    /\ Feedback.subject f = "Hello".
Proof.
  destruct (proj2 (submitted_feedback_is_listed (Fixtures.at_noon 2025 3 10)
                     Fixtures.world0 (Fixtures.client 2)
                     (mkFeedbackForm (Some " Hello ") (Some "A question")
                        None None))
              eq_refl)
    as (uid & f & before & _ & _ & _ & _ & _ & _ & Hs & _ & _ & _ & _ & _
        & Hb & Hpage).
  exists f. vm_compute in Hb. injection Hb as <-.
  split; [exact Hpage | exact Hs].
Defined.

(** The limits count characters: a subject of 200 Cyrillic letters and a
    message of 2000 are stored; a subject of 201 letters is refused, and
    so is a message of 2001. *)
Example feedback_length_in_characters :
  let send := fun subject message =>
    flashed (submit_feedback (Fixtures.at_noon 2025 3 10) Fixtures.world0
               (Fixtures.client 2)
               (mkFeedbackForm (Some subject) (Some message) None None)) in
  send (Fixtures.letters 200) (Fixtures.letters 2000) = Some feedback_sent
  /\ send (Fixtures.letters 201) (Fixtures.letters 5)
     = Some subject_too_long
  /\ send (Fixtures.letters 5) (Fixtures.letters 2001)
     = Some message_too_long.
Proof.
  cbv zeta. split; [vm_compute; reflexivity |].
  split; vm_compute; reflexivity.
Qed.

End FeedbackFlow.

(* ================================================================== *)
(** * Accounts: registering, then logging in *)

Module AuthFlow.
Import Routes RegisterFacts.

Lemma find_none_all {A : Type} (p : A -> bool) (l : list A) :
  find p l = None -> Forall (fun a => p a = false) l.
Proof.
  induction l as [| a l IH]; simpl; [constructor |].
  destruct (p a) eqn:E; [discriminate |]. intros H. constructor; auto.
Qed.

Lemma ostr_eqb_refl (a : option string) : UserRepository.ostr_eqb a a = true.
Proof. destruct a; simpl; [apply String.eqb_refl | reflexivity]. Qed.

Lemma ostr_eqb_eq (a b : option string) :
  UserRepository.ostr_eqb a b = true -> a = b.
Proof.
  destruct a, b; simpl; try discriminate; [| reflexivity].
  intros H. apply String.eqb_eq in H. now subst.
Qed.

Section Flow.

Variable generate_password_hash : string -> string.
Variable check_password_hash : string -> string -> bool.

(** After an accepted registration the new user is the one found by
    the email of the form. *)
Lemma registered_user_found now w s form password :
  accepted w form password ->
  UserRepository.get_by_email
    (user_repository (world (register_post generate_password_hash now w s
                               form)))
    (form_email form)
  = Some (new_user generate_password_hash w form password).
Proof.
  intros Hacc.
  destruct (register_post_cases generate_password_hash now w s form)
    as [(_ & _ & Hno) | (pw & Hacc' & Hu & _ & _)];
    [now elim (Hno password) |].
  rewrite (Registration.accepted_unique _ _ _ _ Hacc Hacc').
  unfold UserRepository.get_by_email. unfold users_of in Hu. rewrite Hu.
  destruct Hacc' as (_ & _ & _ & Hfree).
  apply BookingLookup.find_app_new.
  - now apply find_none_all.
  - apply ostr_eqb_refl.
Qed.

(** X16: when the password check accepts the hash of the password it
    was made from, a user who has just registered can log in with the
    same email and password: the session gets the new id, the email and
    role client, and the redirect goes to the home page even if the
    admin flag is sent. *)
Theorem registered_user_can_log_in
    (now : DateTime.datetime) (w : World) (s s' : Session)
    (form : RegisterForm) (password : string) (admin : option string) :
  accepted w form password ->
  check_password_hash (generate_password_hash password) password = true ->
  let o := register_post generate_password_hash now w s form in
  let o' := Account.login_post check_password_hash (world o) s'
              (Account.mkLoginForm (form_email form) (Some password) admin) in
  Account.notice o' = Some Account.login_succeeded
  /\ Account.target o' = Account.to_home
  /\ user_id (Account.next_session o')
     = Some (UserRepository._next_id (user_repository w))
  /\ email (Account.next_session o') = form_email form
  /\ role (Account.next_session o') = Some "client"
  /\ booking_data (Account.next_session o') = booking_data s'.
Proof.
  intros Hacc Hcheck. cbv zeta. unfold Account.login_post. simpl.
  rewrite (registered_user_found now w s form password Hacc).
  simpl. rewrite Hcheck. rewrite andb_false_r. repeat split.
Qed.

Lemma register_post_taken now w s form u :
  UserRepository.get_by_email (user_repository w) (form_email form) = Some u ->
  let o := register_post generate_password_hash now w s form in
  world o = w
  /\ session o = s
  /\ flashed o <> Some registered_now_log_in
  /\ flashed o <> Some registered_and_booked.
Proof.
  intros Hu. cbv zeta. unfold register_post.
  destruct (negb (UserRepository.ostr_eqb _ _));
    [repeat split; discriminate |].
  destruct (form_password form) as [pw|]; [| repeat split; discriminate].
  destruct (_ <? 6); [repeat split; discriminate |].
  rewrite Hu. repeat split; discriminate.
Qed.

(** X17: an email that has just been registered cannot be registered
    again: whatever else the second form holds, no user is added. *)
Theorem registered_email_is_taken
    (now now' : DateTime.datetime) (w : World) (s s' : Session)
    (form form' : RegisterForm) (password : string) :
  accepted w form password ->
  form_email form' = form_email form ->
  let o := register_post generate_password_hash now w s form in
  let o' := register_post generate_password_hash now' (world o) s' form' in
  world o' = world o
  /\ session o' = s'
  /\ flashed o' <> Some registered_now_log_in
  /\ flashed o' <> Some registered_and_booked.
Proof.
  intros Hacc Hmail. cbv zeta.
  pose proof (registered_user_found now w s form password Hacc) as Hfound.
  rewrite <- Hmail in Hfound.
  now apply register_post_taken with (u := new_user generate_password_hash w
                                             form password).
Qed.

Definition emails_distinct (w : World) : Prop :=
  NoDup (map User.email (users_of w)).

(** X18: [register_post] keeps the emails of the user store distinct. *)
Theorem emails_stay_distinct
    (now : DateTime.datetime) (w : World) (s : Session)
    (form : RegisterForm) :
  emails_distinct w ->
  emails_distinct (world (register_post generate_password_hash now w s form)).
Proof.
  unfold emails_distinct. intros Hnd.
  destruct (register_post_cases generate_password_hash now w s form)
    as [(-> & _) | (pw & Hacc & Hu & _ & _)]; [exact Hnd |].
  rewrite Hu, map_app. simpl.
  apply NoDup_app; [exact Hnd | repeat constructor; now intros [] |].
  intros e He [<- | []].
  destruct Hacc as (_ & _ & _ & Hfree).
  apply find_none_all in Hfree. rewrite Forall_forall in Hfree.
  apply in_map_iff in He. destruct He as (u & Hue & Hin).
  specialize (Hfree u Hin). simpl in Hfree.
  rewrite Hue, ostr_eqb_refl in Hfree. discriminate.
Qed.

End Flow.

Definition check (pwhash password : string) : bool :=
  String.eqb pwhash (Fixtures.hash password).

Lemma registered_user_can_log_in_witness :
  let o := register_post Fixtures.hash (Fixtures.at_noon 2025 3 10)
             Fixtures.world0 Fixtures.anonymous Fixtures.signup in
  user_id (Account.next_session
             (Account.login_post check (world o) Fixtures.anonymous
                (Account.mkLoginForm (Some "new@example.com")
                   (Some "secret1") (Some "1"))))
  = Some 2.
Proof.
  apply (registered_user_can_log_in Fixtures.hash check
           (Fixtures.at_noon 2025 3 10) Fixtures.world0 Fixtures.anonymous
           Fixtures.anonymous Fixtures.signup "secret1" (Some "1")
           Registration.accepted_signup eq_refl).
Defined.

Lemma registered_email_is_taken_witness :
  let now := Fixtures.at_noon 2025 3 10 in
  let o := register_post Fixtures.hash now Fixtures.world0 Fixtures.anonymous
             Fixtures.signup in
  world (register_post Fixtures.hash now (world o) Fixtures.anonymous
           (mkRegisterForm (Some "new@example.com") (Some "another1")
              (Some "another1") None None None))
  = world o.
Proof.
  apply (registered_email_is_taken Fixtures.hash
           (Fixtures.at_noon 2025 3 10) (Fixtures.at_noon 2025 3 10)
           Fixtures.world0 Fixtures.anonymous Fixtures.anonymous
           Fixtures.signup
           (mkRegisterForm (Some "new@example.com") (Some "another1")
              (Some "another1") None None None)
           "secret1" Registration.accepted_signup eq_refl).
Defined.

Lemma emails_stay_distinct_witness :
  emails_distinct
    (world (register_post Fixtures.hash (Fixtures.at_noon 2025 3 10)
              Fixtures.world0 Fixtures.anonymous Fixtures.signup)).
Proof.
  apply (emails_stay_distinct Fixtures.hash (Fixtures.at_noon 2025 3 10)
           Fixtures.world0 Fixtures.anonymous Fixtures.signup).
  repeat constructor. now intros [].
Defined.

End AuthFlow.

(* ================================================================== *)
(** * Tour ids and the refresh *)

Module CatalogIds.
Import ToursRepository.

Section Ids.

Variable fetch_events :
  option string -> option string -> option string -> list Event.t.
Variable compose : Event.t -> string.

Lemma map_event_id (idx : Z) (e : Event.t) :
  Tour.id (map_event compose idx e) = idx.
Proof. reflexivity. Qed.

Lemma map_events_from_ids (events : list Event.t) :
  forall idx t,
    In t (map_events_from compose idx events) ->
    idx <= Tour.id t < idx + Z.of_nat (List.length events).
Proof.
  induction events as [| e r IH]; intros idx t; simpl; [tauto |].
  intros [<- | Hin].
  - rewrite map_event_id. lia.
  - specialize (IH _ _ Hin). lia.
Qed.

Lemma map_events_from_find (events : list Event.t) :
  forall idx k,
    idx <= k ->
    find (fun t => Tour.id t =? k) (map_events_from compose idx events)
    = option_map (map_event compose k)
        (nth_error events (Z.to_nat (k - idx))).
Proof.
  induction events as [| e r IH]; intros idx k Hle; simpl.
  - now destruct (Z.to_nat (k - idx)).
  - destruct (Z.eqb_spec idx k) as [-> | Hne].
    + now rewrite Z.sub_diag.
    + rewrite IH by lia.
      replace (Z.to_nat (k - idx)) with (S (Z.to_nat (k - (idx + 1))))
        by lia.
      reflexivity.
Qed.

Lemma map_events_from_nodup (events : list Event.t) :
  forall idx, NoDup (map Tour.id (map_events_from compose idx events)).
Proof.
  induction events as [| e r IH]; intros idx; simpl; constructor.
  - intros Hin. apply in_map_iff in Hin. destruct Hin as (t & Ht & Hin).
    apply map_events_from_ids in Hin. lia.
  - apply IH.
Qed.

(** X19: [_map_events] numbers the tours by the position of their event,
    from 1: [get_by_id] with k returns the tour made from the k-th event,
    and nothing for k below 1 or beyond the number of events; no two
    tours share an id. *)
Theorem mapped_tour_ids_are_positions (events : list Event.t) (k : Z) :
  get_by_id (_map_events compose events) k
  = (if 1 <=? k
     then option_map (map_event compose k)
            (nth_error events (Z.to_nat (k - 1)))
     else None)
  /\ (get_by_id (_map_events compose events) k <> None
      <-> 1 <= k <= Z.of_nat (List.length events))
  /\ NoDup (map Tour.id (_map_events compose events)).
Proof.
  unfold get_by_id, _map_events.
  assert (Hfind :
    find (fun t => Tour.id t =? k) (map_events_from compose 1 events)
    = (if 1 <=? k
       then option_map (map_event compose k)
              (nth_error events (Z.to_nat (k - 1)))
       else None)).
  { destruct (Z.leb_spec 1 k) as [Hk | Hk].
    - now apply map_events_from_find.
    - destruct (find _ _) as [t|] eqn:Hf; [| reflexivity].
      apply find_some in Hf. destruct Hf as [Hin Hid].
      apply map_events_from_ids in Hin. apply Z.eqb_eq in Hid. lia. }
  split; [exact Hfind |]. split; [| apply map_events_from_nodup].
  rewrite Hfind. destruct (Z.leb_spec 1 k) as [Hk | Hk].
  - destruct (nth_error events (Z.to_nat (k - 1))) as [e|] eqn:Hn; simpl.
    + split; [| discriminate]. intros _.
      assert (Hlt : (Z.to_nat (k - 1) < List.length events)%nat)
        by (apply nth_error_Some; congruence).
      lia.
    + split; [intros H; now elim H |]. intros Hr.
      apply nth_error_None in Hn. lia.
  - split; [intros H; now elim H | lia].
Qed.

Lemma filter_nodup_ids (p : Tour.t -> bool) (l : list Tour.t) :
  NoDup (map Tour.id l) -> NoDup (map Tour.id (filter p l)).
Proof.
  induction l as [| t l IH]; simpl; [trivial |].
  intros Hnd. inversion Hnd as [| x xs Hnotin Hnd']; subst.
  destruct (p t); simpl; [| now apply IH].
  constructor; [| now apply IH].
  intros Hin. apply Hnotin. apply in_map_iff in Hin.
  destruct Hin as (u & Hu & Hin). apply filter_In in Hin.
  apply in_map_iff. exists u. tauto.
Qed.

Lemma filter_future_ready_sub (today : Date.date) (l l' : list Tour.t) :
  _filter_future_ready today l = Some l' ->
  exists p, l' = filter p l.
Proof.
  unfold _filter_future_ready. destruct l as [| t r].
  - intros [= <-]. now exists (fun _ => true).
  - destruct (Date.add_days _ _) as [th|]; [| discriminate].
    destruct (filter (future_ready th) (t :: r)) as [| x xs] eqn:Hf;
      intros [= <-].
    + exists (fun _ => true). simpl. f_equal.
      clear. induction r; simpl; congruence.
    + exists (future_ready th). now rewrite Hf.
Qed.

(** X20: a refresh with a non-empty answer of the source replaces the
    catalog wholesale: the result does not depend on the tours held
    before, every tour in it is made from an event of the answer and has
    that event's position as id, and ids are distinct.  With an empty
    answer the catalog is left as it was. *)
Theorem refresh_replaces_catalog
    (today : Date.date) (old other : list Tour.t)
    (city keyword classification_id : option string) :
  let events := fetch_events city keyword classification_id in
  (events = [] ->
   sync_events fetch_events compose today old city keyword classification_id
   = Some old)
  /\ (events <> [] ->
      sync_events fetch_events compose today old city keyword
        classification_id
      = sync_events fetch_events compose today other city keyword
          classification_id)
  /\ (events <> [] ->
      forall catalog,
        sync_events fetch_events compose today old city keyword
          classification_id = Some catalog ->
        NoDup (map Tour.id catalog)
        /\ forall t, In t catalog ->
             exists e,
               nth_error events (Z.to_nat (Tour.id t - 1)) = Some e
               /\ 1 <= Tour.id t
               /\ t = map_event compose (Tour.id t) e).
Proof.
  cbv zeta. unfold sync_events.
  destruct (fetch_events city keyword classification_id) as [| e r] eqn:He.
  - split; [reflexivity |]. split; intros H; now elim H.
  - split; [discriminate |]. split; [reflexivity |].
    intros _ catalog Hc.
    destruct (filter_future_ready_sub _ _ _ Hc) as (p & ->).
    split.
    + apply filter_nodup_ids. apply map_events_from_nodup.
    + intros t Hin. apply filter_In in Hin. destruct Hin as [Hin _].
      pose proof (map_events_from_ids _ _ _ Hin) as Hid.
      pose proof (proj1 (mapped_tour_ids_are_positions (e :: r) (Tour.id t)))
        as Hget.
      replace (1 <=? Tour.id t) with true in Hget
        by (symmetry; apply Z.leb_le; lia).
      assert (Hfound : get_by_id (_map_events compose (e :: r)) (Tour.id t)
                       = Some t).
      { unfold get_by_id.
        pose proof (map_events_from_nodup (e :: r) 1) as Hnd.
        unfold _map_events in Hin |- *. revert Hin Hnd.
        generalize (map_events_from compose 1 (e :: r)).
        intros l. induction l as [| x l IH]; simpl; [tauto |].
        intros [-> | Hin] Hnd; [now rewrite Z.eqb_refl |].
        inversion Hnd as [| y ys Hnotin Hnd']; subst.
        destruct (Z.eqb_spec (Tour.id x) (Tour.id t)) as [Heq | _].
        - elim Hnotin. rewrite Heq. now apply in_map.
        - now apply IH. }
      rewrite Hfound in Hget.
      destruct (nth_error (e :: r) (Z.to_nat (Tour.id t - 1))) as [ev|];
        [| discriminate].
      exists ev. simpl in Hget. injection Hget as Ht.
      split; [reflexivity |]. split; [lia | exact Ht].
Qed.

(** X21: filtering twice is filtering once: applied to its own result,
    [_filter_future_ready] returns it unchanged; the result holds only
    tours of the input and is empty only for an empty input. *)
Theorem filter_future_ready_idempotent
    (today : Date.date) (tours kept : list Tour.t) :
  _filter_future_ready today tours = Some kept ->
  _filter_future_ready today kept = Some kept
  /\ (forall t, In t kept -> In t tours)
  /\ (kept = [] -> tours = []).
Proof.
  unfold _filter_future_ready. destruct tours as [| t r].
  - intros [= <-]. repeat split; trivial.
  - destruct (Date.add_days _MIN_LEAD_DAYS today) as [th|] eqn:Hth;
      [| discriminate].
    destruct (filter (future_ready th) (t :: r)) as [| x xs] eqn:Hf;
      intros [= <-].
    + cbv iota. rewrite ?Hth, Hf. repeat split; trivial.
    + cbv iota. rewrite ?Hth.
      assert (Hagain : filter (future_ready th) (x :: xs) = x :: xs).
      { rewrite <- Hf. generalize (t :: r). intros l.
        induction l as [| y l IH]; [reflexivity |]. simpl.
        destruct (future_ready th y) eqn:E; [| exact IH].
        simpl. rewrite E. now rewrite IH. }
      rewrite Hagain. repeat split; try discriminate.
      intros y Hy. rewrite <- Hf in Hy. apply filter_In in Hy.
      exact (proj1 Hy).
Qed.

End Ids.

Lemma refresh_replaces_catalog_witness :
  sync_events Catalog.source Fixtures.describe (Date.mkDate 2025 6 1)
    [PriceFilter.unpriced] None None None
  = sync_events Catalog.source Fixtures.describe (Date.mkDate 2025 6 1)
      [] None None None.
Proof.
  apply (proj1 (proj2 (refresh_replaces_catalog Catalog.source
                         Fixtures.describe (Date.mkDate 2025 6 1)
                         [PriceFilter.unpriced] [] None None None))).
  discriminate.
Defined.

Lemma filter_future_ready_idempotent_witness :
  let kept := [ map_event Fixtures.describe 1 Fixtures.free_entry ] in
  _filter_future_ready (Date.mkDate 2025 6 1) kept = Some kept.
Proof.
  intros kept.
  apply (proj1 (filter_future_ready_idempotent (Date.mkDate 2025 6 1)
                  (_map_events Fixtures.describe Catalog.soon) kept
                  ltac:(vm_compute; reflexivity))).
Defined.

End CatalogIds.

(* ================================================================== *)
(** * What a search returns *)

Module SearchFacts.
Import ToursRepository.

Lemma decode_cons (a : ascii) (r : list ascii) :
  exists c rest, Py.decode (a :: r) = c :: rest.
Proof.
  destruct r as [| b [| c [| d r]]]; simpl;
    repeat match goal with
           | |- context [if ?b then _ else _] => destruct b
           end; eauto.
Qed.

Lemma lower_chars_cons (before : list Z) (c : Z) (rest : list Z) :
  exists x l, Py.lower_chars before (c :: rest) = x :: l.
Proof.
  cbn [Py.lower_chars]. unfold Py.lower_char.
  destruct (c =? 931); [| destruct (c =? 304)]; simpl; eauto.
Qed.

Lemma encode_cons (c : Z) (rest : list Z) :
  exists b l, Py.encode (c :: rest) = b :: l.
Proof.
  unfold Py.encode. cbn [flat_map]. unfold Py.encode_char.
  destruct (c <? 128); [| destruct (c <? 2048); [| destruct (c <? 65536)]];
    simpl; eauto.
Qed.

(** Lowering leaves no text empty and makes none. *)
Lemma truthy_lower (s : string) :
  Py.truthy_str (Py.lower s) = Py.truthy_str s.
Proof.
  destruct s as [| a s]; [reflexivity |].
  unfold Py.lower, Py.chars, Py.str. cbn [list_ascii_of_string].
  destruct (decode_cons a (list_ascii_of_string s)) as (c & rest & ->).
  destruct (lower_chars_cons [] c rest) as (x & l & ->).
  destruct (encode_cons x l) as (b & bs & ->).
  reflexivity.
Qed.

(** The catalog's own language: Cyrillic capitals are folded, so a search
    for a town finds it however it is written. *)
Example lower_folds_cyrillic :
  Py.lower "Горно-Алтайск" = "горно-алтайск"
  /\ Py.contains (Py.lower "ГОРНО") (Py.lower "Горно-Алтайск") = true.
Proof. split; vm_compute; reflexivity. Qed.

(** X22: the in-memory filters of [search] do not see the case of the
    location, type and keyword arguments: two queries whose three
    texts agree after [lower()] select the same tours. *)
Theorem search_filters_ignore_case
    (location location' type type' keyword keyword' : string)
    (min_price max_price : option Q) (duration : option Z)
    (q : list Tour.t) :
  Py.lower location = Py.lower location' ->
  Py.lower type = Py.lower type' ->
  Py.lower keyword = Py.lower keyword' ->
  search_filters location type min_price max_price duration keyword q
  = search_filters location' type' min_price max_price duration keyword' q.
Proof.
  intros Hl Ht Hk. unfold search_filters.
  assert (El : forall l, filter_location location l
                         = filter_location location' l).
  { intros l. unfold filter_location.
    rewrite <- (truthy_lower location), <- (truthy_lower location').
    now rewrite Hl. }
  assert (Et : forall l, filter_type type l = filter_type type' l).
  { intros l. unfold filter_type.
    rewrite <- (truthy_lower type), <- (truthy_lower type').
    now rewrite Ht. }
  assert (Ek : forall l, filter_keyword keyword l
                         = filter_keyword keyword' l).
  { intros l. unfold filter_keyword.
    rewrite <- (truthy_lower keyword), <- (truthy_lower keyword').
    now rewrite Hk. }
  now rewrite El, Et, Ek.
Qed.

Lemma search_filters_ignore_case_witness :
  search_filters "KYIV" "Music" None None None "OPEN" Fixtures.catalog
  = search_filters "kyiv" "MUSIC" None None None "open" Fixtures.catalog.
Proof.
  apply (search_filters_ignore_case "KYIV" "kyiv" "Music" "MUSIC" "OPEN"
           "open" None None None Fixtures.catalog);
    vm_compute; reflexivity.
Defined.















Section Search.

Variable fetch_events :
  option string -> option string -> option string -> list Event.t.
Variable compose : Event.t -> string.


End Search.



End SearchFacts.

(* ================================================================== *)
(** * Dates written by [strftime] and read by [strptime] *)

Module DateRoundTrip.
Import Routes.

Lemma chars_digit_char (n : Z) (rest : string) :
  Py.chars (String (DateTime.digit_char n) rest)
  = (48 + n mod 10) :: Py.chars rest.
Proof.
  unfold DateTime.digit_char, Py.chars. cbn [list_ascii_of_string].
  assert (H : 0 <= n mod 10 < 10) by (apply Z.mod_pos_bound; lia).
  assert (E : n mod 10 = 0 \/ n mod 10 = 1 \/ n mod 10 = 2 \/ n mod 10 = 3
              \/ n mod 10 = 4 \/ n mod 10 = 5 \/ n mod 10 = 6
              \/ n mod 10 = 7 \/ n mod 10 = 8 \/ n mod 10 = 9) by lia.
  repeat (destruct E as [E | E];
          [rewrite E; now destruct (list_ascii_of_string rest) |]).
  rewrite E. now destruct (list_ascii_of_string rest).
Qed.

Lemma to_decimal_ascii (n : Z) :
  Py.to_decimal (48 + n mod 10) = Some (n mod 10).
Proof.
  assert (H : 0 <= n mod 10 < 10) by (apply Z.mod_pos_bound; lia).
  assert (E : n mod 10 = 0 \/ n mod 10 = 1 \/ n mod 10 = 2 \/ n mod 10 = 3
              \/ n mod 10 = 4 \/ n mod 10 = 5 \/ n mod 10 = 6
              \/ n mod 10 = 7 \/ n mod 10 = 8 \/ n mod 10 = 9) by lia.
  repeat (destruct E as [E | E]; [rewrite E; reflexivity |]).
  rewrite E. reflexivity.
Qed.

(** From the year 1000 on, [%Y] writes four digits and [\d\d\d\d] reads
    them back. *)
Lemma parse_year_digits (y : Z) (rest : string) :
  1000 <= y <= 9999 ->
  Date.parse_year (Py.chars (DateTime.year_digits y ++ rest))
  = Some (y, Py.chars rest).
Proof.
  intros Hy. unfold DateTime.year_digits, DateTime.digit.
  replace (1000 <=? y) with true by (symmetry; apply Z.leb_le; lia).
  replace (100 <=? y) with true by (symmetry; apply Z.leb_le; lia).
  replace (10 <=? y) with true by (symmetry; apply Z.leb_le; lia).
  cbn [append]. rewrite !chars_digit_char. unfold Date.parse_year.
  rewrite !to_decimal_ascii. do 2 f_equal.
  pose proof (Z.div_mod y 10 ltac:(lia)).
  pose proof (Z.div_mod (y / 10) 10 ltac:(lia)).
  pose proof (Z.div_mod (y / 100) 10 ltac:(lia)).
  pose proof (Z.div_mod (y / 1000) 10 ltac:(lia)).
  replace (y / 100) with (y / 10 / 10) in *
    by (rewrite Z.div_div by lia; reflexivity).
  replace (y / 1000) with (y / 10 / 10 / 10) in *
    by (rewrite !Z.div_div by lia; reflexivity).
  assert (y / 10 / 10 / 10 / 10 = 0).
  { rewrite !Z.div_div by lia. apply Z.div_small. lia. }
  lia.
Qed.

Ltac enumerate x lo hi :=
  let rec go n :=
    tryif (let b := eval vm_compute in (n =? hi) in
           lazymatch b with true => idtac end)
    then (assert (x = n) as -> by lia)
    else (let H := fresh in
          destruct (Z.eq_dec x n) as [-> | H];
          [| let n' := eval vm_compute in (n + 1) in go n'])
  in go lo.

(** The text [strftime] writes for a day of the calendar from the year
    1000 on is read back by [strptime] as that day. *)
Lemma strptime_strftime (d : Date.date) :
  Date.valid (Date.year d) (Date.month d) (Date.day d) = true ->
  1000 <= Date.year d ->
  Date.strptime (DateTime.strftime_ymd d) = Some d.
Proof.
  destruct d as [y m dd]. cbn [Date.year Date.month Date.day].
  intros Hv Hy1000.
  assert (Hnew : Date.new y m dd = Some (Date.mkDate y m dd))
    by (unfold Date.new; now rewrite Hv).
  rewrite <- Hnew.
  assert (Hb : 1 <= y <= 9999 /\ 1 <= m <= 12 /\ 1 <= dd <= 31).
  { unfold Date.valid, Date.MINYEAR, Date.MAXYEAR in Hv.
    repeat (apply andb_true_iff in Hv; destruct Hv as [Hv ?]).
    repeat match goal with
           | H : (_ <=? _) = true |- _ => apply Z.leb_le in H
           end.
    assert (Date.days_in_month y m <= 31).
    { unfold Date.days_in_month.
      destruct (m =? 2); [destruct (Date.is_leap y); lia |].
      destruct ((m =? 4) || (m =? 6) || (m =? 9) || (m =? 11)); lia. }
    lia. }
  destruct Hb as (Hy & Hm & Hd). clear Hv Hnew.
  unfold Date.strptime, Date.match_ymd, DateTime.strftime_ymd.
  cbn [Date.year Date.month Date.day].
  rewrite parse_year_digits by lia.
  enumerate m 1 12; enumerate dd 1 31; reflexivity.
Qed.

Lemma ltb_irrefl (a : Date.date) : Date.ltb a a = false.
Proof. DateFacts.order_cases. Qed.

(** X24: the tour page offers today's date, written by [strftime], as
    the first day to travel.  On any day of the calendar from the year
    1000 on that text is read back as today; and unless today is a
    29 February or in the last year of the calendar, the date checks of a
    booking accept both it and the same day of the next year, the last
    day of the window. *)
Theorem offered_first_day_is_bookable (today : Date.date) :
  Date.valid (Date.year today) (Date.month today) (Date.day today) = true ->
  1000 <= Date.year today ->
  Date.strptime (DateTime.strftime_ymd today) = Some today
  /\ forall last,
       Date.replace_year today (Date.year today + 1) = Some last ->
       check_travel_date today (DateTime.strftime_ymd today) = date_ok
       /\ check_travel_date today (DateTime.strftime_ymd last) = date_ok.
Proof.
  intros Hv Hy. split; [now apply strptime_strftime |].
  intros last Hlast. unfold check_travel_date.
  rewrite (strptime_strftime today Hv Hy), Hlast, ltb_irrefl.
  assert (Hl : last = Date.mkDate (Date.year today + 1) (Date.month today)
                        (Date.day today)
               /\ Date.valid (Date.year today + 1) (Date.month today)
                    (Date.day today) = true).
  { unfold Date.replace_year, Date.new in Hlast.
    destruct (Date.valid (Date.year today + 1) (Date.month today)
                (Date.day today)); [| discriminate].
    injection Hlast as <-. now split. }
  destruct Hl as [-> Hvl].
  rewrite (strptime_strftime
             (Date.mkDate (Date.year today + 1) (Date.month today)
                (Date.day today)) Hvl)
    by (cbn [Date.year]; lia).
  assert (H1 : Date.gtb today
                 (Date.mkDate (Date.year today + 1) (Date.month today)
                    (Date.day today)) = false)
    by (destruct today; unfold Date.gtb, Date.ltb;
        cbn [Date.year Date.month Date.day]; DateFacts.order_cases).
  assert (H2 : Date.ltb
                 (Date.mkDate (Date.year today + 1) (Date.month today)
                    (Date.day today)) today = false)
    by (destruct today; unfold Date.gtb, Date.ltb;
        cbn [Date.year Date.month Date.day]; DateFacts.order_cases).
  assert (H3 : Date.gtb
                 (Date.mkDate (Date.year today + 1) (Date.month today)
                    (Date.day today))
                 (Date.mkDate (Date.year today + 1) (Date.month today)
                    (Date.day today)) = false)
    by (unfold Date.gtb; apply ltb_irrefl).
  now rewrite H1, H2, H3.
Qed.

Lemma offered_first_day_is_bookable_witness :
  check_travel_date (Date.mkDate 2025 3 10) "2025-03-10" = date_ok
  /\ check_travel_date (Date.mkDate 2025 3 10) "2026-03-10" = date_ok.
Proof.
  apply (proj2 (offered_first_day_is_bookable (Date.mkDate 2025 3 10)
                  eq_refl ltac:(simpl; lia))
           (Date.mkDate 2026 3 10) eq_refl).
Defined.

End DateRoundTrip.

(* ================================================================== *)
(** * Logging in and out *)

Module LoginFacts.
Import Routes.

Section Login.

Variable check_password_hash : string -> string -> bool.

(** X25: [login_post] changes the session only when a user is stored
    under the email and the password check accepts the stored hash:
    then the session carries that user's id, email and role and keeps
    its language and pending booking intent.  The redirect goes to the
    admin dashboard only for role admin with the admin flag ["1"].  A
    refused login leaves the session as it was, and a logout after a
    login leaves nothing in the session. *)
Theorem login_changes_session_only_on_success
    (w : World) (s : Session) (form : Account.LoginForm) :
  let o := Account.login_post check_password_hash w s form in
  (Account.notice o <> Some Account.login_succeeded ->
   Account.next_session o = s)
  /\ (Account.notice o = Some Account.login_succeeded ->
      exists user password,
        UserRepository.get_by_email (user_repository w)
          (Account.login_email form) = Some user
        /\ Account.login_password form = Some password
        /\ check_password_hash (User.password_hash user) password = true
        /\ Account.next_session o = log_in s user
        /\ language (Account.next_session o) = language s
        /\ booking_data (Account.next_session o) = booking_data s)
  /\ (Account.target o = Account.to_admin_dashboard ->
      Account.login_admin form = Some "1"
      /\ role (Account.next_session o) = Some "admin")
  /\ Account.next_session (Account.logout (Account.next_session o))
     = mkSession None None None None None.
Proof.
  cbv zeta. unfold Account.login_post.
  destruct (UserRepository.get_by_email _ _) as [user|];
    [| repeat split; try discriminate;
       destruct (Account.login_admin form) as [a|]; discriminate].
  destruct (Account.login_password form) as [password|];
    [| repeat split; discriminate].
  destruct (check_password_hash _ _) eqn:Hc;
    [| repeat split; try discriminate;
       destruct (Account.login_admin form) as [a|]; discriminate].
  split; [intros H; now elim H |].
  split; [intros _; exists user, password; repeat split; assumption |].
  split; [| reflexivity].
  destruct (Account.login_admin form) as [a|]; simpl; [| discriminate].
  destruct (String.eqb_spec a "1") as [-> | _]; simpl; [| discriminate].
  destruct (String.eqb_spec (User.role user) "admin") as [-> | _];
    [| discriminate].
  intros _. split; reflexivity.
Qed.

End Login.

Lemma login_changes_session_only_on_success_witness :
  role (Account.next_session
          (Account.login_post AuthFlow.check Fixtures.world0
             Fixtures.anonymous
             (Account.mkLoginForm (Some "admin@mikola.com")
                (Some "admin123") (Some "1"))))
  = Some "admin".
Proof.
  apply (proj1 (proj2 (proj2 (login_changes_session_only_on_success
                                AuthFlow.check Fixtures.world0
                                Fixtures.anonymous
                                (Account.mkLoginForm (Some "admin@mikola.com")
                                   (Some "admin123") (Some "1")))))
           eq_refl).
Defined.

End LoginFacts.

(* ================================================================== *)
(** * What each handler leaves alone *)

Module Frames.
Import Routes.

Ltac by_cases :=
  repeat match goal with
         | |- context [match ?x with _ => _ end] => destruct x
         end;
  repeat split.

(** X26: the booking and registration handlers never touch the catalog
    or the feedback store; [book_tour] and [cancel_booking] never touch
    the user store, and cancelling leaves the session as it was;
    [submit_feedback] changes only the feedback store. *)
Theorem handlers_leave_other_stores
    (generate_password_hash : string -> string)
    (now : DateTime.datetime) (w : World) (s : Session) :
  (forall tour_id form,
      let o := book_tour now w s tour_id form in
      tours_repository (world o) = tours_repository w
      /\ user_repository (world o) = user_repository w
      /\ feedback_repository (world o) = feedback_repository w)
  /\ (forall form,
        let o := register_post generate_password_hash now w s form in
        tours_repository (world o) = tours_repository w
        /\ feedback_repository (world o) = feedback_repository w)
  /\ (forall booking_id,
        let o := cancel_booking now w s booking_id in
        tours_repository (world o) = tours_repository w
        /\ user_repository (world o) = user_repository w
        /\ feedback_repository (world o) = feedback_repository w
        /\ session o = s)
  /\ (forall form,
        let o := submit_feedback now w s form in
        tours_repository (world o) = tours_repository w
        /\ user_repository (world o) = user_repository w
        /\ booking_repository (world o) = booking_repository w
        /\ session o = s).
Proof.
  split; [| split; [| split]].
  - intros tour_id form. cbv zeta. unfold book_tour. by_cases.
  - intros form. cbv zeta. unfold register_post. by_cases.
  - intros booking_id. cbv zeta. unfold cancel_booking. by_cases.
  - intros form. cbv zeta. unfold submit_feedback. by_cases.
Qed.

End Frames.

(* ================================================================== *)
(** * Replacing a feedback record *)

Module FeedbackUpdate.

Lemma feedback_update_in_found (feedback : Feedback.t) (l : list Feedback.t) :
  find (fun f => Feedback.id f =? Feedback.id feedback) l <> None ->
  fst (FeedbackRepository.update_in feedback l) = true
  /\ find (fun f => Feedback.id f =? Feedback.id feedback)
       (snd (FeedbackRepository.update_in feedback l)) = Some feedback.
Proof.
  induction l as [| x rest IH]; simpl; [intros H; now elim H |].
  destruct (Feedback.id x =? Feedback.id feedback) eqn:E; simpl.
  - intros _. now rewrite Z.eqb_refl.
  - intros H. destruct (IH H) as [Hok Hf].
    destruct (FeedbackRepository.update_in feedback rest) as [ok rest'].
    simpl in *. now rewrite E.
Qed.

Lemma feedback_update_in_missing (feedback : Feedback.t) (l : list Feedback.t) :
  find (fun f => Feedback.id f =? Feedback.id feedback) l = None ->
  FeedbackRepository.update_in feedback l = (false, l).
Proof.
  induction l as [| x rest IH]; simpl; [reflexivity |].
  destruct (Feedback.id x =? Feedback.id feedback); [discriminate |].
  intros H. now rewrite (IH H).
Qed.

Lemma feedback_update_in_ids (feedback : Feedback.t) (l : list Feedback.t) :
  map Feedback.id (snd (FeedbackRepository.update_in feedback l))
  = map Feedback.id l.
Proof.
  induction l as [| x rest IH]; simpl; [reflexivity |].
  destruct (Z.eqb_spec (Feedback.id x) (Feedback.id feedback)) as [E | _];
    simpl; [now rewrite E |].
  destruct (FeedbackRepository.update_in feedback rest) as [ok rest'].
  simpl in *. now rewrite IH.
Qed.

(** X27: [update_feedback] succeeds exactly when the id of the given
    record is in the store; then [get_by_id] returns the given record,
    and the ids of the store are the same, in the same order; a failed
    update leaves the store as it was. *)
Theorem update_feedback_then_get_by_id
    (r : FeedbackRepository.t) (feedback : Feedback.t) :
  let ok := fst (FeedbackRepository.update_feedback r feedback) in
  let r' := snd (FeedbackRepository.update_feedback r feedback) in
  (ok = true
   <-> FeedbackRepository.get_by_id r (Feedback.id feedback) <> None)
  /\ (ok = true ->
      FeedbackRepository.get_by_id r' (Feedback.id feedback) = Some feedback)
  /\ (ok = false -> r' = r)
  /\ map Feedback.id (FeedbackRepository._feedback r')
     = map Feedback.id (FeedbackRepository._feedback r).
Proof.
  cbv zeta. unfold FeedbackRepository.update_feedback,
    FeedbackRepository.get_by_id.
  pose proof (feedback_update_in_ids feedback (FeedbackRepository._feedback r))
    as Hids.
  destruct (find (fun f => Feedback.id f =? Feedback.id feedback)
              (FeedbackRepository._feedback r)) as [f|] eqn:Hf.
  - destruct (feedback_update_in_found feedback (FeedbackRepository._feedback r))
      as [Hok Hnew]; [congruence |].
    destruct (FeedbackRepository.update_in feedback _) as [ok l].
    simpl in *. subst ok.
    repeat split; try assumption; try discriminate; auto.
  - rewrite (feedback_update_in_missing _ _ Hf) in *. simpl in *.
    repeat split; try assumption; try discriminate.
    + intros H. now elim H.
    + now destruct r.
Qed.

End FeedbackUpdate.
